(** * ETL-task: a shallow embedding of the cleaning and aggregation pipeline

    The development follows [ETL_Exercise.py] (the classes [CSVCleaner] and
    [Transformations] and [main]) and its script twin
    [Simple_ETL_Exercise.py].  The program is a thin layer over pandas and
    hashlib, so the file first fixes the meaning of the library calls the
    program makes (Python string methods, MD5, binary64 numbers, the pandas
    frame operations), then the methods themselves over an explicit program
    state, then the properties.

    Scope of the library model.
    - Text is a byte string; [strip] and [lower] act on the ASCII range the
      way Python does and leave other bytes alone.
    - A cell is text, an int64, or a binary64 float; NaN is the missing
      value.  Booleans, dates and unsigned integers are left out: a column
      of the words [True] and [False], which [read_csv] reads as booleans,
      stays text here, and an integer from 2^63 up to 2^64 - 1 is read as
      a float.
    - Numerals are read with correct rounding and floats are written with
      the shortest digits that read back, as Python's [repr] does.  The
      converters of pandas agree with that on numerals of at most fifteen
      digits without an exponent; on longer ones they can be one unit in
      the last place off, they refuse a numeral that overflows where this
      model reads infinity, and [to_numeric] refuses an integer beyond 64
      bits, which this model reads as a float, and reads the empty text as
      NaN, which this model refuses.
    - A CSV file is held in the file system as the grid of fields the
      tokenizer yields (header first); quoting and blank lines are below
      this level.  The labels of a header are taken as pandas leaves them
      when they are distinct and not empty; pandas renames an empty label
      and the later ones of equal labels, this model does not.
    - [apply] on a frame of no rows returns no value without calling the
      function; pandas calls it once on a row of NaN to find the kind of
      the result, which shows only when the function raises.
    - A file is read in one piece; pandas reads a large file in pieces and
      can leave a column with numbers from one piece and text from
      another.
    - Row labels (the pandas index) are left out: the program never reads
      them and writes every file with [index=False].
    - Console output is left out.
    The theorems that depend on one of these points say so in their
    hypotheses ([plain_labels], [plain_records], [no_bool_words],
    [read_at_once]). *)

From Stdlib Require Import ZArith List String Ascii Bool Lia.
From Stdlib Require Import DecimalString SpecFloat.
From Stdlib Require Import Sorted Permutation.
Import ListNotations.

Local Open Scope string_scope.
Local Open Scope list_scope.
Local Open Scope Z_scope.

Set Implicit Arguments.

(* ================================================================== *)
(** * Python string methods *)

Module PyStr.

(** [str.isspace] on the ASCII range: TAB..CR, FS..US and SPACE. *)
Definition is_space (c : ascii) : bool :=
  let n := Z.of_nat (nat_of_ascii c) in
  ((9 <=? n) && (n <=? 13)) || ((28 <=? n) && (n <=? 32)).

Fixpoint lstrip (s : string) : string :=
  match s with
  | EmptyString => EmptyString
  | String c s' => if is_space c then lstrip s' else s
  end.

Fixpoint rev_onto (s acc : string) : string :=
  match s with
  | EmptyString => acc
  | String c s' => rev_onto s' (String c acc)
  end.

Definition rev (s : string) : string := rev_onto s EmptyString.

Definition rstrip (s : string) : string := rev (lstrip (rev s)).

(** [s.strip()] *)
Definition strip (s : string) : string := rstrip (lstrip s).

Definition lower_ascii (c : ascii) : ascii :=
  let n := nat_of_ascii c in
  if (65 <=? n)%nat && (n <=? 90)%nat then ascii_of_nat (n + 32) else c.

(** [s.lower()] *)
Fixpoint lower (s : string) : string :=
  match s with
  | EmptyString => EmptyString
  | String c s' => String (lower_ascii c) (lower s')
  end.

(** [sep.join(parts)] *)
Definition join (sep : string) (parts : list string) : string :=
  String.concat sep parts.

(** [str(n)] for an integer. *)
Definition of_Z (z : Z) : string := NilZero.string_of_int (Z.to_int z).

Definition of_nat (n : nat) : string := of_Z (Z.of_nat n).

End PyStr.

(* ================================================================== *)
(** * hashlib.md5 (RFC 1321) *)

Module MD5.

Definition mask32 : Z := 0xFFFFFFFF.

Definition add32 (a b : Z) : Z := Z.land (a + b) mask32.

Definition not32 (a : Z) : Z := Z.lxor a mask32.

Definition rotl32 (x n : Z) : Z :=
  Z.land (Z.lor (Z.shiftl x n) (Z.shiftr x (32 - n))) mask32.

Definition K : list Z :=
  [ 0xd76aa478; 0xe8c7b756; 0x242070db; 0xc1bdceee;
    0xf57c0faf; 0x4787c62a; 0xa8304613; 0xfd469501;
    0x698098d8; 0x8b44f7af; 0xffff5bb1; 0x895cd7be;
    0x6b901122; 0xfd987193; 0xa679438e; 0x49b40821;
    0xf61e2562; 0xc040b340; 0x265e5a51; 0xe9b6c7aa;
    0xd62f105d; 0x02441453; 0xd8a1e681; 0xe7d3fbc8;
    0x21e1cde6; 0xc33707d6; 0xf4d50d87; 0x455a14ed;
    0xa9e3e905; 0xfcefa3f8; 0x676f02d9; 0x8d2a4c8a;
    0xfffa3942; 0x8771f681; 0x6d9d6122; 0xfde5380c;
    0xa4beea44; 0x4bdecfa9; 0xf6bb4b60; 0xbebfbc70;
    0x289b7ec6; 0xeaa127fa; 0xd4ef3085; 0x04881d05;
    0xd9d4d039; 0xe6db99e5; 0x1fa27cf8; 0xc4ac5665;
    0xf4292244; 0x432aff97; 0xab9423a7; 0xfc93a039;
    0x655b59c3; 0x8f0ccc92; 0xffeff47d; 0x85845dd1;
    0x6fa87e4f; 0xfe2ce6e0; 0xa3014314; 0x4e0811a1;
    0xf7537e82; 0xbd3af235; 0x2ad7d2bb; 0xeb86d391 ].

Definition shifts : list Z :=
  [ 7; 12; 17; 22; 7; 12; 17; 22; 7; 12; 17; 22; 7; 12; 17; 22;
    5;  9; 14; 20; 5;  9; 14; 20; 5;  9; 14; 20; 5;  9; 14; 20;
    4; 11; 16; 23; 4; 11; 16; 23; 4; 11; 16; 23; 4; 11; 16; 23;
    6; 10; 15; 21; 6; 10; 15; 21; 6; 10; 15; 21; 6; 10; 15; 21 ].

Definition bytes_of (s : string) : list Z :=
  map (fun c => Z.of_nat (nat_of_ascii c)) (list_ascii_of_string s).

(** Little-endian bytes of [x], [n] of them. *)
Fixpoint le_bytes (n : nat) (x : Z) : list Z :=
  match n with
  | O => []
  | S n' => Z.land x 0xFF :: le_bytes n' (Z.shiftr x 8)
  end.

(** Message, then 0x80, then zeros up to 56 mod 64, then the bit length
    on eight bytes. *)
Definition pad (msg : list Z) : list Z :=
  let len := Z.of_nat (List.length msg) in
  let zeros := Z.to_nat ((55 - len) mod 64) in
  msg ++ [0x80] ++ repeat 0 zeros ++ le_bytes 8 ((8 * len) mod 2 ^ 64).

Fixpoint words (n : nat) (bs : list Z) : list Z :=
  match n with
  | O => []
  | S n' =>
      match bs with
      | b0 :: b1 :: b2 :: b3 :: rest =>
          (b0 + Z.shiftl b1 8 + Z.shiftl b2 16 + Z.shiftl b3 24)
            :: words n' rest
      | _ => []
      end
  end.

Definition mix (i : nat) (b c d : Z) : Z * nat :=
  if (i <? 16)%nat then
    (Z.lor (Z.land b c) (Z.land (not32 b) d), i)
  else if (i <? 32)%nat then
    (Z.lor (Z.land d b) (Z.land (not32 d) c), (5 * i + 1) mod 16)%nat
  else if (i <? 48)%nat then
    (Z.lxor b (Z.lxor c d), (3 * i + 5) mod 16)%nat
  else
    (Z.lxor c (Z.lor b (not32 d)), (7 * i) mod 16)%nat.

Definition regs : Type := Z * Z * Z * Z.

Definition step (m : list Z) (r : regs) (i : nat) : regs :=
  let '(a, b, c, d) := r in
  let '(f, g) := mix i b c d in
  let f' := add32 (add32 (add32 f a) (nth i K 0)) (nth g m 0) in
  (d, add32 b (rotl32 f' (nth i shifts 0)), b, c).

Definition block (r : regs) (m : list Z) : regs :=
  let '(a0, b0, c0, d0) := r in
  let '(a, b, c, d) := fold_left (step m) (seq 0 64) r in
  (add32 a0 a, add32 b0 b, add32 c0 c, add32 d0 d).

Fixpoint blocks (n : nat) (bs : list Z) (r : regs) : regs :=
  match n with
  | O => r
  | S n' => blocks n' (skipn 64 bs) (block r (words 16 bs))
  end.

Definition init : regs := (0x67452301, 0xefcdab89, 0x98badcfe, 0x10325476).

Definition digest (s : string) : list Z :=
  let bs := pad (bytes_of s) in
  let '(a, b, c, d) := blocks (List.length bs / 64) bs init in
  le_bytes 4 a ++ le_bytes 4 b ++ le_bytes 4 c ++ le_bytes 4 d.

Definition hex_digit (n : Z) : ascii :=
  if n <? 10 then ascii_of_nat (Z.to_nat (48 + n))
  else ascii_of_nat (Z.to_nat (87 + n)).

Fixpoint hex (bs : list Z) : string :=
  match bs with
  | [] => EmptyString
  | b :: rest =>
      String (hex_digit (Z.shiftr b 4))
        (String (hex_digit (Z.land b 0xF)) (hex rest))
  end.

(** [md5(s.encode()).hexdigest()] *)
Definition hexdigest (s : string) : string := hex (digest s).

End MD5.

(* ================================================================== *)
(** * binary64 numbers

    [spec_float] at precision 53 and maximal exponent 1024 is IEEE 754
    binary64, the [float64] of numpy and the [float] of Python. *)

Module F64.

Definition prec : Z := 53.
Definition emax : Z := 1024.

Definition float : Type := spec_float.

Definition nan : float := S754_nan.
Definition zero : float := S754_zero false.

Definition add : float -> float -> float := SFadd prec emax.
Definition sub : float -> float -> float := SFsub prec emax.
Definition eqb : float -> float -> bool := SFeqb.
Definition ltb : float -> float -> bool := SFltb.

Definition is_nan (f : float) : bool :=
  match f with S754_nan => true | _ => false end.

(** [float(z)] *)
Definition of_Z (z : Z) : float := binary_normalize prec emax z 0 false.

(** The float nearest to [m * 10^e] (ties to even), for [m >= 0]; very
    large and very small magnitudes are cut short to infinity and zero. *)
Definition of_decimal (neg : bool) (m e : Z) : float :=
  match m with
  | Zpos p =>
      if 400 <? e then S754_infinity neg
      else if e + (Z.log2 m / 3 + 1) <? - 400 then S754_zero neg
      else if 0 <=? e then
        binary_round prec emax neg (Z.to_pos (m * 10 ^ e)) 0
      else
        SFdiv prec emax (S754_finite neg p 0)
              (S754_finite false (Z.to_pos (10 ^ (- e))) 0)
  | _ => S754_zero neg
  end.

(** ** Numerals: text to number *)

Definition digit_of (c : ascii) : option Z :=
  let n := Z.of_nat (nat_of_ascii c) in
  if (48 <=? n) && (n <=? 57) then Some (n - 48) else None.

(** Reads a run of digits: the value so far, how many were read, and
    what follows. *)
Fixpoint digits (s : list ascii) (acc : Z) (n : Z)
  : Z * Z * list ascii :=
  match s with
  | c :: s' =>
      match digit_of c with
      | Some d => digits s' (10 * acc + d) (n + 1)
      | None => (acc, n, s)
      end
  | [] => (acc, n, s)
  end.

Definition sign (s : list ascii) : bool * list ascii :=
  match s with
  | "-"%char :: s' => (true, s')
  | "+"%char :: s' => (false, s')
  | _ => (false, s)
  end.

Inductive numeral : Type :=
| NumInt (z : Z)
| NumFloat (f : float).

Definition int64_min : Z := - 2 ^ 63.
Definition int64_max : Z := 2 ^ 63 - 1.

Definition in_int64 (z : Z) : bool := (int64_min <=? z) && (z <=? int64_max).

(** Optional exponent part; [None] when an exponent mark is followed by
    no digit or when anything is left over. *)
Definition exponent (s : list ascii) : option Z :=
  match s with
  | [] => Some 0
  | c :: s' =>
      if (Ascii.eqb c "e" || Ascii.eqb c "E")%bool then
        let '(neg, s1) := sign s' in
        match digits s1 0 0 with
        | (x, n, []) => if 0 <? n then Some (if neg then - x else x) else None
        | _ => None
        end
      else None
  end.

(** The words for infinity, in any letter case; they take no blanks. *)
Definition infinity_word (s : string) : option float :=
  let w := PyStr.lower s in
  if (String.eqb w "inf" || String.eqb w "+inf"
      || String.eqb w "infinity" || String.eqb w "+infinity")%bool
  then Some (S754_infinity false)
  else if (String.eqb w "-inf" || String.eqb w "-infinity")%bool
  then Some (S754_infinity true)
  else None.

(** A decimal numeral, with optional sign, fraction and exponent.  A
    numeral with neither fraction nor exponent that fits int64 is an
    integer. *)
Definition parse_body (s : list ascii) : option numeral :=
  let '(neg, s0) := sign s in
  let '(ip, ni, s1) := digits s0 0 0 in
  match s1 with
  | [] =>
      if 0 <? ni then
        let z := if neg then - ip else ip in
        if in_int64 z then Some (NumInt z)
        else Some (NumFloat (of_decimal neg ip 0))
      else None
  | "."%char :: s2 =>
      let '(m, nf, s3) := digits s2 ip 0 in
      if 0 <? ni + nf then
        match exponent s3 with
        | Some x => Some (NumFloat (of_decimal neg m (x - nf)))
        | None => None
        end
      else None
  | _ =>
      if 0 <? ni then
        match exponent s1 with
        | Some x => Some (NumFloat (of_decimal neg ip x))
        | None => None
        end
      else None
  end.

(** The blanks the converters skip on both sides of a numeral:
    space, TAB, LF, VT, FF and CR. *)
Definition is_blank (c : ascii) : bool :=
  let n := Z.of_nat (nat_of_ascii c) in
  (n =? 32) || ((9 <=? n) && (n <=? 13)).

Fixpoint skip_blanks (s : list ascii) : list ascii :=
  match s with
  | c :: s' => if is_blank c then skip_blanks s' else s
  | [] => []
  end.

Definition trim_blanks (s : list ascii) : list ascii :=
  List.rev (skip_blanks (List.rev (skip_blanks s))).

(** Text to number, as the converters of [read_csv] and [to_numeric]
    read it. *)
Definition parse (s : string) : option numeral :=
  match parse_body (trim_blanks (list_ascii_of_string s)) with
  | Some n => Some n
  | None => option_map NumFloat (infinity_word s)
  end.

(** ** [repr]: number to text

    The shortest digit string that reads back as the same float, and of
    those the one nearest to it. *)

Section Repr.

(** The positive rational [num / den] under scrutiny. *)
Variables (num den : Z).

(** [num / den * 10 ^ x] as a fraction. *)
Definition scaled (x : Z) : Z * Z :=
  if 0 <=? x then (num * 10 ^ x, den) else (num, den * 10 ^ (- x)).

(** Is [num / den < 10 ^ k] ? *)
Definition below_pow10 (k : Z) : bool :=
  let '(n, d) := scaled (- k) in n <? d.

(** Least [k] from [k0] on with [num / den < 10 ^ k]. *)
Fixpoint climb (fuel : nat) (k : Z) : Z :=
  match fuel with
  | O => k
  | S fuel' => if below_pow10 k then k else climb fuel' (k + 1)
  end.

Fixpoint descend (fuel : nat) (k : Z) : Z :=
  match fuel with
  | O => k
  | S fuel' => if below_pow10 (k - 1) then descend fuel' (k - 1) else k
  end.

(** [decpt]: the [k] with [10 ^ (k - 1) <= num / den < 10 ^ k]. *)
Definition decimal_point : Z :=
  let guess := (Z.log2 num - Z.log2 den) * 30103 / 100000 in
  descend 4 (climb 4 guess).

Variable reads_back : Z -> Z -> bool.

(** With [n] digits: the neighbours below and above, whichever reads
    back, the nearer one if both do. *)
Definition candidate (k n : Z) : option Z :=
  let '(a, b) := scaled (n - k) in
  let lo := a / b in
  let hi := lo + 1 in
  let r := a mod b in
  let ok_lo := reads_back lo (k - n) in
  let ok_hi := reads_back hi (k - n) in
  if ok_lo && ok_hi then
    match 2 * r ?= b with
    | Lt => Some lo
    | Gt => Some hi
    | Eq => Some (if Z.even lo then lo else hi)
    end
  else if ok_lo then Some lo
  else if ok_hi then Some hi
  else None.

Fixpoint shortest (fuel : nat) (k n : Z) : Z * Z :=
  match fuel with
  | O => (fst (scaled (n - k)) / snd (scaled (n - k)), k - n)
  | S fuel' =>
      match candidate k n with
      | Some d => (d, k - n)
      | None => shortest fuel' k (n + 1)
      end
  end.

End Repr.

Fixpoint strip_zeros (fuel : nat) (d x : Z) : Z * Z :=
  match fuel with
  | O => (d, x)
  | S fuel' =>
      if (d mod 10 =? 0) && negb (d =? 0)
      then strip_zeros fuel' (d / 10) (x + 1)
      else (d, x)
  end.

Definition zeros (n : Z) : string :=
  string_of_list_ascii (repeat "0"%char (Z.to_nat n)).

Definition two_digits (x : Z) : string :=
  if x <? 10 then ("0" ++ PyStr.of_Z x)%string else PyStr.of_Z x.

(** Layout of the digit string [ds] with the point [decpt] places in:
    exponent form when [decpt] is above 16 or below -3. *)
Definition layout (ds : string) (decpt : Z) : string :=
  let n := Z.of_nat (String.length ds) in
  if (16 <? decpt) || (decpt <? - 3) then
    let x := decpt - 1 in
    let mant :=
      match ds with
      | String c EmptyString => ds
      | String c rest => String c (String "."%char rest)
      | EmptyString => ds
      end in
    (mant ++ "e" ++ (if (x <? 0)%Z then "-" else "+")
       ++ two_digits (Z.abs x))%string
  else if decpt <=? 0 then
    ("0." ++ zeros (Z.opp decpt) ++ ds)%string
  else if decpt <? n then
    (substring 0 (Z.to_nat decpt) ds ++ "."
       ++ substring (Z.to_nat decpt) (Z.to_nat (Z.sub n decpt)) ds)%string
  else
    (ds ++ zeros (Z.sub decpt n) ++ ".0")%string.

Definition repr_finite (m : positive) (e : Z) : string :=
  let num := if 0 <=? e then Zpos m * 2 ^ e else Zpos m in
  let den := if 0 <=? e then 1 else 2 ^ (- e) in
  let k := decimal_point num den in
  let back d x := eqb (of_decimal false d x) (S754_finite false m e) in
  let '(d0, x0) := shortest num den back 17 k 1 in
  let '(d, x) := strip_zeros 20 d0 x0 in
  let ds := PyStr.of_Z d in
  layout ds (Z.of_nat (String.length ds) + x).

(** [repr(f)], which is also [str(f)]. *)
Definition repr (f : float) : string :=
  match f with
  | S754_nan => "nan"
  | S754_infinity false => "inf"
  | S754_infinity true => "-inf"
  | S754_zero false => "0.0"
  | S754_zero true => "-0.0"
  | S754_finite s m e =>
      ((if s then "-" else "") ++ repr_finite m e)%string
  end.

End F64.

(* ================================================================== *)
(** * Exceptions and results *)

(** The exceptions the program can end with.  [EmptyDataError] and
    [ParserError] are the pandas errors of that name (both are kinds of
    [ValueError] in pandas). *)
Inductive exn : Type :=
| FileNotFoundError (msg : string)
| ValueError (msg : string)
| EmptyDataError (msg : string)
| ParserError (msg : string)
| KeyError (key : string)
| TypeError (msg : string)
| AttributeError (msg : string)
| NameError (name : string).

Inductive result (A : Type) : Type :=
| Ok (a : A)
| Raise (e : exn).

Arguments Ok {A} a.
Arguments Raise {A} e.

Definition result_bind {A B} (r : result A) (k : A -> result B) : result B :=
  match r with
  | Ok a => k a
  | Raise e => Raise e
  end.

Declare Scope result_scope.
Delimit Scope result_scope with result.

Notation "x <- r ;; k" := (result_bind r (fun x => k))
  (at level 61, r at next level, right associativity) : result_scope.

(** Runs [f] on each element in order and stops at the first exception. *)
Fixpoint mapM {A B} (f : A -> result B) (l : list A) : result (list B) :=
  match l with
  | [] => Ok []
  | a :: l' =>
      (b <- f a ;; bs <- mapM f l' ;; Ok (b :: bs))%result
  end.

(** The double quote character, as a string. *)
Definition dquote : string := String (ascii_of_nat 34) EmptyString.

(* ================================================================== *)
(** * pandas: values, frames and the operations the program calls *)

Module Pandas.

(** ** Cell values *)

Inductive value : Type :=
| VStr (s : string)
| VInt (z : Z)
| VFloat (f : F64.float).

(** [np.nan], the missing value. *)
Definition NaN : value := VFloat F64.nan.

(** [pd.isna] and [pd.notna] on a scalar. *)
Definition isna (v : value) : bool :=
  match v with
  | VFloat f => F64.is_nan f
  | _ => false
  end.

Definition notna (v : value) : bool := negb (isna v).

(** [str(v)] *)
Definition str (v : value) : string :=
  match v with
  | VStr s => s
  | VInt z => PyStr.of_Z z
  | VFloat f => F64.repr f
  end.

Definition is_int (v : value) : bool :=
  match v with VInt _ => true | _ => false end.

Definition is_float (v : value) : bool :=
  match v with VFloat _ => true | _ => false end.

Definition is_numeric (v : value) : bool := is_int v || is_float v.

(** Conversion of a number to float64; text is left alone. *)
Definition upcast (v : value) : value :=
  match v with
  | VInt z => VFloat (F64.of_Z z)
  | _ => v
  end.

(** The dtype of a column is read off its values: all integers, all
    floats, or anything else ([object]). *)
Inductive dtype : Type := Int64 | Float64 | Object.

Definition dtype_of (vs : list value) : dtype :=
  if forallb is_int vs then Int64
  else if forallb is_float vs then Float64
  else Object.

(** int64 arithmetic wraps around. *)
Definition wrap64 (z : Z) : Z := (z + 2 ^ 63) mod 2 ^ 64 - 2 ^ 63.

(** Equality of values as the hash tables behind [duplicated] and
    [groupby] see it: text by its characters, numbers by value (so
    [0.0] and [-0.0] are one key), NaN equal to NaN. *)
Definition float_is_Z (f : F64.float) (z : Z) : bool :=
  match f with
  | S754_zero _ => z =? 0
  | S754_finite s m e =>
      let sm := if s then Zneg m else Zpos m in
      if 0 <=? e then z =? sm * 2 ^ e else z * 2 ^ (- e) =? sm
  | _ => false
  end.

Definition value_eqb (a b : value) : bool :=
  match a, b with
  | VStr s, VStr t => String.eqb s t
  | VInt x, VInt y => x =? y
  | VFloat f, VFloat g => (F64.is_nan f && F64.is_nan g) || F64.eqb f g
  | VInt x, VFloat f | VFloat f, VInt x => float_is_Z f x
  | _, _ => false
  end.

(** ** Frames *)

(** A frame: its column labels and its rows, each row holding one value
    per column, in column order. *)
Record DataFrame : Type := mkDataFrame {
  columns : list string;
  rows : list (list value)
}.

(** [len(df)] *)
Definition len (df : DataFrame) : nat := List.length (rows df).

(** [df.empty]: no rows or no columns. *)
Definition empty (df : DataFrame) : bool :=
  match rows df, columns df with
  | [], _ | _, [] => true
  | _, _ => false
  end.

(** Position of a column label. *)
Fixpoint position (name : string) (cols : list string) : option nat :=
  match cols with
  | [] => None
  | c :: cols' =>
      if String.eqb c name then Some O
      else option_map S (position name cols')
  end.

Definition cell (r : list value) (i : nat) : value := nth i r NaN.

(** [df[name]] as the list of its values; [KeyError] for an unknown
    label. *)
Definition getitem (df : DataFrame) (name : string)
  : result (list value) :=
  match position name (columns df) with
  | Some i => Ok (map (fun r => cell r i) (rows df))
  | None => Raise (KeyError name)
  end.

Fixpoint set_nth (i : nat) (v : value) (r : list value) : list value :=
  match i, r with
  | O, _ :: r' => v :: r'
  | S i', x :: r' => x :: set_nth i' v r'
  | _, [] => []
  end.

(** A row with the value [v] put at position [i], or added at the end
    when there is no position. *)
Definition set_cell (i : option nat) (r : list value) (v : value)
  : list value :=
  match i with
  | Some i => set_nth i v r
  | None => r ++ [v]
  end.

(** [df[name] = vs]: replaces the column when the label exists and
    appends it as the last column otherwise.  [vs] has one value per
    row. *)
Definition setitem (df : DataFrame) (name : string) (vs : list value)
  : DataFrame :=
  let i := position name (columns df) in
  mkDataFrame
    (match i with
     | Some _ => columns df
     | None => columns df ++ [name]
     end)
    (map (fun p => set_cell i (fst p) (snd p)) (combine (rows df) vs)).

(** [df.dropna()]: the rows with no missing value, in order. *)
Definition dropna (df : DataFrame) : DataFrame :=
  mkDataFrame (columns df) (filter (forallb notna) (rows df)).

(** Rows whose key was not seen before, in order ([keep='first']). *)
Fixpoint keep_first (key : list value -> value) (seen : list value)
  (rs : list (list value)) : list (list value) :=
  match rs with
  | [] => []
  | r :: rs' =>
      if existsb (value_eqb (key r)) seen
      then keep_first key seen rs'
      else r :: keep_first key (key r :: seen) rs'
  end.

(** The [KeyError] for a label of [subset] that is no column; its
    argument is the Index of such labels, as it prints. *)
Definition labels_not_found (name : string) : exn :=
  KeyError ("Index(['" ++ name ++ "'], dtype='object')")%string.

(** [df.drop_duplicates(subset=[name], keep='first')]: a new frame; the
    receiver is left as it is.  An empty frame is returned as it is,
    before the labels of [subset] are looked at. *)
Definition drop_duplicates (df : DataFrame) (name : string)
  : result DataFrame :=
  if empty df then Ok df
  else
    match position name (columns df) with
    | Some i =>
        Ok (mkDataFrame (columns df)
              (keep_first (fun r => cell r i) [] (rows df)))
    | None => Raise (labels_not_found name)
    end.

(** The dtype of each column, and the dtype a row gets when it is taken
    out as a Series: float64 when every column is numeric and they are
    not all integer, the values unchanged otherwise. *)
Definition col_dtype (df : DataFrame) (i : nat) : dtype :=
  dtype_of (map (fun r => cell r i) (rows df)).

Definition dtypes (df : DataFrame) : list dtype :=
  map (col_dtype df) (seq 0 (List.length (columns df))).

Definition is_Int64 (d : dtype) : bool :=
  match d with Int64 => true | _ => false end.

Definition is_Object (d : dtype) : bool :=
  match d with Object => true | _ => false end.

Definition row_series (df : DataFrame) (r : list value) : list value :=
  let ds := dtypes df in
  if existsb is_Object ds || forallb is_Int64 ds then r
  else map upcast r.

(** [df.apply(f, axis=1)]: [f] on every row in order, the first
    exception ending the call.  [f] looks values up by label. *)
Definition apply_rows {A} (df : DataFrame)
  (f : (string -> result value) -> result A) : result (list A) :=
  mapM (fun r =>
          let s := row_series df r in
          f (fun name =>
               match position name (columns df) with
               | Some i => Ok (cell s i)
               | None => Raise (KeyError name)
               end))
       (rows df).

(** ** [pd.to_numeric(series, errors='raise')] *)

Definition unable_to_parse (s : string) (i : nat) : exn :=
  ValueError ("Unable to parse string " ++ dquote ++ s ++ dquote
                ++ " at position " ++ PyStr.of_nat i)%string.

(** Each value on its own: numbers stay, text is read as a numeral. *)
Definition to_number (i : nat) (v : value) : result value :=
  match v with
  | VStr s =>
      match F64.parse s with
      | Some (F64.NumInt z) => Ok (VInt z)
      | Some (F64.NumFloat f) => Ok (VFloat f)
      | None => Raise (unable_to_parse s i)
      end
  | _ => Ok v
  end.

Fixpoint to_numbers (i : nat) (vs : list value) : result (list value) :=
  match vs with
  | [] => Ok []
  | v :: vs' =>
      (x <- to_number i v ;; xs <- to_numbers (S i) vs' ;; Ok (x :: xs))%result
  end.

(** The result is int64 when every value is an integer and float64
    otherwise. *)
Definition to_numeric (vs : list value) : result (list value) :=
  (xs <- to_numbers 0 vs ;;
   Ok (if forallb is_int xs then xs else map upcast xs))%result.

(** ** [df.groupby(key, as_index=False)[col].sum()] *)

(** The order in which group keys come out ([sort=True]): numbers by
    value, text by code point, numbers before text. *)
Definition as_float (v : value) : F64.float :=
  match v with
  | VInt z => F64.of_Z z
  | VFloat f => f
  | VStr _ => F64.nan
  end.

Definition value_ltb (a b : value) : bool :=
  match a, b with
  | VStr s, VStr t => String.ltb s t
  | VInt x, VInt y => x <? y
  | VStr _, _ => false
  | _, VStr _ => true
  | _, _ => F64.ltb (as_float a) (as_float b)
  end.

(** Adds [k] to the sorted list of distinct keys [ks]. *)
Fixpoint insert_key (k : value) (ks : list value) : list value :=
  match ks with
  | [] => [k]
  | k' :: ks' =>
      if value_eqb k k' then ks
      else if value_ltb k k' then k :: ks
      else k' :: insert_key k ks'
  end.

(** The distinct non-missing keys, sorted ([dropna=True]). *)
Definition group_keys (ks : list value) : list value :=
  fold_left (fun acc k => insert_key k acc) (filter notna ks) [].

(** Compensated summation of one group of a float64 column, missing
    values skipped, as pandas' [group_sum] does it. *)
Definition kahan_step (st : F64.float * F64.float) (val : F64.float)
  : F64.float * F64.float :=
  let '(sumx, comp) := st in
  let y := F64.sub val comp in
  let t := F64.add sumx y in
  let c := F64.sub (F64.sub t sumx) y in
  (t, if F64.is_nan c then F64.zero else c).

Definition sum_float (vs : list F64.float) : F64.float :=
  fst (fold_left kahan_step
         (filter (fun f => negb (F64.is_nan f)) vs)
         (F64.zero, F64.zero)).

(** One group of an int64 column. *)
Definition sum_int (zs : list Z) : Z :=
  fold_left (fun acc z => wrap64 (acc + z)) zs 0.

(** Python's [a + b] on the objects an [object] column can hold. *)
Definition py_add (a b : value) : result value :=
  match a, b with
  | VStr s, VStr t => Ok (VStr (s ++ t))
  | VInt x, VInt y => Ok (VInt (x + y))
  | VStr _, VInt _ =>
      Raise (TypeError ("can only concatenate str (not " ++ dquote ++ "int"
                          ++ dquote ++ ") to str"))
  | VStr _, VFloat _ =>
      Raise (TypeError ("can only concatenate str (not " ++ dquote
                          ++ "float" ++ dquote ++ ") to str"))
  | VInt _, VStr _ =>
      Raise (TypeError "unsupported operand type(s) for +: 'int' and 'str'")
  | VFloat _, VStr _ =>
      Raise (TypeError "unsupported operand type(s) for +: 'float' and 'str'")
  | _, _ => Ok (VFloat (F64.add (as_float a) (as_float b)))
  end.

(** One group of an [object] column: the first value present, then
    [+] with each later one; [0] for a group with none. *)
Fixpoint sum_object (acc : option value) (vs : list value)
  : result value :=
  match vs with
  | [] => Ok (match acc with Some a => a | None => VInt 0 end)
  | v :: vs' =>
      if isna v then sum_object acc vs'
      else
        match acc with
        | None => sum_object (Some v) vs'
        | Some a => (t <- py_add a v ;; sum_object (Some t) vs')%result
        end
  end.

Definition int_of (v : value) : Z :=
  match v with VInt z => z | _ => 0 end.

(** The sum of one group, by the dtype [d] of the whole column. *)
Definition group_sum (d : dtype) (vs : list value) : result value :=
  match d with
  | Int64 => Ok (VInt (sum_int (map int_of vs)))
  | Float64 => Ok (VFloat (sum_float (map as_float vs)))
  | Object => sum_object None vs
  end.

(** The values of column [j] in the rows whose column [i] is [k]. *)
Definition group_values (i j : nat) (k : value) (rs : list (list value))
  : list value :=
  map (fun r => cell r j) (filter (fun r => value_eqb (cell r i) k) rs).

Definition groupby_sum (df : DataFrame) (key col : string)
  : result DataFrame :=
  match position key (columns df) with
  | None => Raise (KeyError key)
  | Some i =>
      match position col (columns df) with
      | None => Raise (KeyError ("Column not found: " ++ col))
      | Some j =>
          let d := col_dtype df j in
          (totals <-
             mapM (fun k =>
                     (t <- group_sum d (group_values i j k (rows df)) ;;
                      Ok [k; t])%result)
                  (group_keys (map (fun r => cell r i) (rows df))) ;;
           Ok (mkDataFrame [key; col] totals))%result
      end
  end.

(** [df.rename(columns={old: new})] *)
Definition rename (df : DataFrame) (old new : string) : DataFrame :=
  mkDataFrame
    (map (fun c => if String.eqb c old then new else c) (columns df))
    (rows df).

(** ** CSV files

    A file is the grid of its fields, header record first. *)

Definition csv : Type := list (list string).

(** The fields [read_csv] takes for missing by default. *)
Definition na_values : list string :=
  [ ""; "#N/A"; "#N/A N/A"; "#NA"; "-1.#IND"; "-1.#QNAN"; "-NaN"; "-nan";
    "1.#IND"; "1.#QNAN"; "<NA>"; "N/A"; "NA"; "NULL"; "NaN"; "None";
    "n/a"; "nan"; "null" ].

Definition is_na_field (s : string) : bool :=
  existsb (String.eqb s) na_values.

Definition field_numeral (s : string) : option F64.numeral :=
  if is_na_field s then Some (F64.NumFloat F64.nan) else F64.parse s.

Definition is_int_field (s : string) : bool :=
  match F64.parse s with
  | Some (F64.NumInt _) => negb (is_na_field s)
  | _ => false
  end.

Definition is_number_field (s : string) : bool :=
  match field_numeral s with Some _ => true | None => false end.

Definition number_of (n : F64.numeral) : value :=
  match n with
  | F64.NumInt z => VInt z
  | F64.NumFloat f => VFloat f
  end.

(** Type inference on the fields of one column: int64 when every field
    is an integer, float64 when every field is a number or missing,
    [object] otherwise. *)
Definition infer_dtype (fields : list string) : dtype :=
  if forallb is_int_field fields then Int64
  else if forallb is_number_field fields then Float64
  else Object.

(** A field read at the dtype of its column; in an [object] column the
    text stays and a missing field is NaN. *)
Definition read_field (d : dtype) (s : string) : value :=
  match d with
  | Int64 =>
      match F64.parse s with
      | Some n => number_of n
      | None => NaN
      end
  | Float64 =>
      match field_numeral s with
      | Some n => upcast (number_of n)
      | None => NaN
      end
  | Object => if is_na_field s then NaN else VStr s
  end.

(** The number of fields each record is taken to have: that of the
    header, or of the first record when it has more.  The extra leading
    fields of the records are then row labels; they are no data and are
    dropped here. *)
Definition width (header : list string) (records : list (list string))
  : nat :=
  match records with
  | r :: _ => Nat.max (List.length header) (List.length r)
  | [] => List.length header
  end.

Definition tokenizing_error (expected line saw : nat) : exn :=
  ParserError ("Error tokenizing data. C error: Expected "
                 ++ PyStr.of_nat expected ++ " fields in line "
                 ++ PyStr.of_nat line ++ ", saw " ++ PyStr.of_nat saw
                 ++ String (ascii_of_nat 10) EmptyString).

(** The first record with more than [w] fields, if any; [line] is the
    line of the first record of the list. *)
Fixpoint too_long (w line : nat) (records : list (list string))
  : option exn :=
  match records with
  | [] => None
  | r :: records' =>
      if (w <? List.length r)%nat
      then Some (tokenizing_error w line (List.length r))
      else too_long w (S line) records'
  end.

(** A record shorter than the others is filled up with missing fields. *)
Definition pad_record (w : nat) (r : list string) : list string :=
  r ++ repeat "" (w - List.length r).

(** The fields of a record that belong to the [n] columns. *)
Definition data_fields (n w : nat) (r : list string) : list string :=
  skipn (w - n) (pad_record w r).

(** The fields of column [j]. *)
Definition fields_of (j : nat) (records : list (list string))
  : list string :=
  map (fun r => nth j r "") records.

Definition read_record (ds : list dtype) (r : list string) : list value :=
  map (fun p => read_field (fst p) (snd p)) (combine ds r).

(** [pd.read_csv] on the contents of a file. *)
Definition parse_csv (f : csv) : result DataFrame :=
  match f with
  | [] => Raise (EmptyDataError "No columns to parse from file")
  | header :: records =>
      let n := List.length header in
      let w := width header records in
      match too_long w 2 records with
      | Some e => Raise e
      | None =>
          let fields := map (data_fields n w) records in
          let ds := map (fun j => infer_dtype (fields_of j fields)) (seq 0 n) in
          Ok (mkDataFrame header (map (read_record ds) fields))
      end
  end.

(** How [to_csv] writes a value: missing as the empty field, floats by
    their [repr]. *)
Definition field_of (v : value) : string :=
  if isna v then "" else str v.

(** [df.to_csv(path, index=False)]: the contents written. *)
Definition to_csv (df : DataFrame) : csv :=
  columns df :: map (map field_of) (rows df).

End Pandas.

(* ================================================================== *)
(** * Program state

    The world outside the program is the file system, a map from paths to
    file contents; a file can always be written.  Console output is left
    out, and with it the counts of removed rows that the methods compute
    only to print them.  A method of an object runs on the pair of the
    object and the world; when it raises, the state is the one reached at
    that point. *)

Import Pandas.

Definition World : Type := string -> option csv.

Definition write_file (w : World) (path : string) (f : csv) : World :=
  fun p => if String.eqb p path then Some f else w p.

Record State (O : Type) : Type := mkState {
  self : O;
  world : World
}.

Arguments mkState {O} self world.

Section Monad.

Variable S : Type.

Definition M (A : Type) : Type := S -> result A * S.

Definition ret {A} (a : A) : M A := fun s => (Ok a, s).

Definition bind {A B} (m : M A) (k : A -> M B) : M B :=
  fun s =>
    match m s with
    | (Ok a, s') => k a s'
    | (Raise e, s') => (Raise e, s')
    end.

Definition raise {A} (e : exn) : M A := fun s => (Raise e, s).

Definition lift {A} (r : result A) : M A := fun s => (r, s).

(** [try: m except: h], where [h] says which exceptions it takes. *)
Definition try_except {A} (m : M A) (h : exn -> option (M A)) : M A :=
  fun s =>
    match m s with
    | (Ok a, s') => (Ok a, s')
    | (Raise e, s') =>
        match h e with
        | Some m' => m' s'
        | None => (Raise e, s')
        end
    end.

End Monad.

Arguments ret {S A} a.
Arguments bind {S A B} m k.
Arguments raise {S A} e.
Arguments lift {S A} r.
Arguments try_except {S A} m h.

Declare Scope monad_scope.
Delimit Scope monad_scope with monad.

Notation "x <- m ;; k" := (bind m (fun x => k))
  (at level 61, m at next level, right associativity) : monad_scope.
Notation "m ;; k" := (bind m (fun _ => k))
  (at level 61, right associativity) : monad_scope.

Local Open Scope monad_scope.

(** [pd.read_csv(path, delimiter=',')] *)
Definition read_csv {O} (path : string) : M (State O) DataFrame :=
  fun s =>
    match world s path with
    | Some f => (parse_csv f, s)
    | None =>
        (Raise (FileNotFoundError
                  ("[Errno 2] No such file or directory: '" ++ path ++ "'")),
         s)
    end.

(** [df.to_csv(path, index=False)] *)
Definition write_csv {O} (df : DataFrame) (path : string)
  : M (State O) unit :=
  fun s => (Ok tt, mkState (self s) (write_file (world s) path (to_csv df))).

(* ================================================================== *)
(** * class CSVCleaner *)

Module CSVCleaner.

Record t : Type := mk {
  file_path : string;
  data : option DataFrame
}.

(** [__init__] *)
Definition init (file_path : string) : t := mk file_path None.

Definition method (A : Type) : Type := M (State t) A.

Definition get_file_path : method string :=
  fun s => (Ok (file_path (self s)), s).

(** [self.data = df] *)
Definition set_data (df : DataFrame) : method unit :=
  fun s => (Ok tt, mkState (mk (file_path (self s)) (Some df)) (world s)).

(** [self.data], with the exception that using [None] in its place
    raises. *)
Definition get_data (if_none : exn) : method DataFrame :=
  fun s =>
    match data (self s) with
    | Some df => (Ok df, s)
    | None => (Raise if_none, s)
    end.

Definition no_len : exn :=
  TypeError "object of type 'NoneType' has no len()".

Definition no_attribute (name : string) : exn :=
  AttributeError ("'NoneType' object has no attribute '" ++ name ++ "'").

Definition not_subscriptable : exn :=
  TypeError "'NoneType' object is not subscriptable".

Definition read_data : method DataFrame :=
  try_except
    (path <- get_file_path ;;
     df <- read_csv path ;;
     set_data df ;;
     if empty df
     then raise (ValueError "The input CSV contains no data.")
     else ret tt)
    (fun e =>
       match e with
       | FileNotFoundError _ =>
           Some (path <- get_file_path ;;
                 raise (FileNotFoundError ("File not found: " ++ path)))
       | _ => None
       end) ;;
  get_data (no_attribute "data").

Definition remove_rows : method DataFrame :=
  df <- get_data no_len ;;
  set_data (dropna df) ;;
  get_data no_len.

(** The function applied to each row: the selected values that are
    present, as text, trimmed and lowercased, joined by underscores and
    hashed. *)
Definition unique_id_of (columns : list string)
  (row : string -> result value) : result value :=
  (vs <- mapM row columns ;;
   Ok (VStr (MD5.hexdigest
               (PyStr.join "_"
                  (map (fun v => PyStr.lower (PyStr.strip (str v)))
                       (filter notna vs))))))%result.

Definition generate_uniqueID (columns : option (list string))
  : method DataFrame :=
  df <- get_data (no_attribute
                    (match columns with
                     | None => "columns"
                     | Some _ => "apply"
                     end)) ;;
  let columns :=
    match columns with
    | None => Pandas.columns df
    | Some cs => cs
    end in
  ids <- lift (apply_rows df (unique_id_of columns)) ;;
  set_data (setitem df "unique_id" ids) ;;
  get_data (no_attribute "data").

(** The frame without duplicates is computed and not kept. *)
Definition check_duplicates : method DataFrame :=
  df <- get_data no_len ;;
  _ <- lift (drop_duplicates df "unique_id") ;;
  get_data no_len.

Definition convert_transaction_amount : method DataFrame :=
  df <- get_data not_subscriptable ;;
  amounts <- lift (getitem df "transaction_amount") ;;
  numbers <- lift (to_numeric amounts) ;;
  set_data (setitem df "transaction_amount" numbers) ;;
  get_data not_subscriptable.

Definition save_data (output_file : string) : method DataFrame :=
  df <- get_data (no_attribute "to_csv") ;;
  write_csv df output_file ;;
  ret df.

End CSVCleaner.

(* ================================================================== *)
(** * class Transformations *)

Module Transformations.

Record t : Type := mk {
  file_path : string;
  data : DataFrame
}.

Definition method (A : Type) : Type := M (State t) A.

(** [__init__]: reads the file; there is no object when that raises. *)
Definition init (file_path : string) (w : World) : result t :=
  match read_csv file_path (mkState tt w) with
  | (Ok df, _) => Ok (mk file_path df)
  | (Raise e, _) => Raise e
  end.

Definition get_data : method DataFrame :=
  fun s => (Ok (data (self s)), s).

Definition set_data (df : DataFrame) : method unit :=
  fun s => (Ok tt, mkState (mk (file_path (self s)) df) (world s)).

Definition group_by_customer_id : method DataFrame :=
  df <- get_data ;;
  groupby_data <- lift (groupby_sum df "customer_id" "transaction_amount") ;;
  set_data (rename groupby_data
              "transaction_amount" "total_transaction_amount") ;;
  get_data.

Definition save_data (output_file : string) : method DataFrame :=
  df <- get_data ;;
  write_csv df output_file ;;
  ret df.

End Transformations.

(* ================================================================== *)
(** * main *)

(** Runs a method on an object and hands the object and the world on. *)
Definition call {O A} (m : M (State O) A) (o : O) (w : World)
  : result A * O * World :=
  let '(r, s) := m (mkState o w) in (r, self s, world s).

(** The first half: every cleaning step on one [CSVCleaner]. *)
Definition clean (output : string) : M (State CSVCleaner.t) unit :=
  CSVCleaner.read_data ;;
  CSVCleaner.remove_rows ;;
  CSVCleaner.generate_uniqueID None ;;
  CSVCleaner.check_duplicates ;;
  CSVCleaner.convert_transaction_amount ;;
  CSVCleaner.save_data output ;;
  ret tt.

(** The second half, on a [Transformations] made from the cleaned file. *)
Definition transform (output : string) : M (State Transformations.t) unit :=
  Transformations.group_by_customer_id ;;
  Transformations.save_data output ;;
  ret tt.

Definition main (w : World) : result unit * World :=
  match call (clean "cleaned_data.csv")
             (CSVCleaner.init "input_data.csv") w with
  | (Raise e, _, w1) => (Raise e, w1)
  | (Ok _, _, w1) =>
      match Transformations.init "cleaned_data.csv" w1 with
      | Raise e => (Raise e, w1)
      | Ok transform_csv =>
          let '(r, _, w2) :=
            call (transform "aggregated_transactions.csv") transform_csv w1 in
          (r, w2)
      end
  end.

(* ================================================================== *)
(** * Simple_ETL_Exercise.py

    The script keeps the frame in the variable [input_data], which stays
    unbound when the file is not found. *)

Module Simple.

Definition script (A : Type) : Type := M (State (option DataFrame)) A.

Definition bind_input_data (df : DataFrame) : script unit :=
  fun s => (Ok tt, mkState (Some df) (world s)).

Definition input_data : script DataFrame :=
  fun s =>
    match self s with
    | Some df => (Ok df, s)
    | None => (Raise (NameError "input_data"), s)
    end.

Definition etl : script unit :=
  try_except
    (df <- read_csv "input_data.csv" ;;
     bind_input_data df)
    (fun e =>
       match e with
       | FileNotFoundError _ => Some (ret tt)
       | _ => None
       end) ;;
  df <- input_data ;;
  bind_input_data (dropna df) ;;
  df <- input_data ;;
  amounts <- lift (getitem df "transaction_amount") ;;
  numbers <- lift (to_numeric amounts) ;;
  bind_input_data (setitem df "transaction_amount" numbers) ;;
  df <- input_data ;;
  let columns := Pandas.columns df in
  ids <- lift (apply_rows df (CSVCleaner.unique_id_of columns)) ;;
  bind_input_data (setitem df "unique_id" ids) ;;
  df <- input_data ;;
  _ <- lift (drop_duplicates df "unique_id") ;;
  df <- input_data ;;
  groupby_data <- lift (groupby_sum df "customer_id" "transaction_amount") ;;
  let groupby_data :=
    rename groupby_data "transaction_amount" "total_transaction_amount" in
  write_csv groupby_data "aggregated_transactions.csv".

Definition run (w : World) : result unit * World :=
  let '(r, s) := etl (mkState None w) in (r, world s).

End Simple.

(* ================================================================== *)
(** * Vocabulary of the properties *)

(** A row with no missing value. *)
Definition complete_row (r : list value) : Prop :=
  Forall (fun v => isna v = false) r.

(** [l1] is [l2] with some elements left out, the others in their order. *)
Inductive Subseq {A : Type} : list A -> list A -> Prop :=
| Subseq_nil : Subseq [] []
| Subseq_skip : forall x l1 l2, Subseq l1 l2 -> Subseq l1 (x :: l2)
| Subseq_keep : forall x l1 l2, Subseq l1 l2 -> Subseq (x :: l1) (x :: l2).

(** A [CSVCleaner] holding the frame [df]. *)
Definition cleaner (path : string) (df : DataFrame) (w : World)
  : State CSVCleaner.t :=
  mkState (CSVCleaner.mk path (Some df)) w.

(** A world with one file. *)
Definition only_file (path : string) (f : csv) : World :=
  write_file (fun _ => None) path f.

(** The Deduplicator stage: the keys, then the removal of duplicates. *)
Definition deduplicator (columns : option (list string))
  : CSVCleaner.method DataFrame :=
  CSVCleaner.generate_uniqueID columns ;;
  CSVCleaner.check_duplicates.

(** An input with the same transaction twice. *)
Definition repeated_transaction : csv :=
  [ ["customer_id"; "transaction_amount"];
    ["A1"; "5"];
    ["A1"; "5"] ].

(** What the key sees of a value: nothing when it is missing, else its
    text, trimmed and lowercased. *)
Definition normalized (v : value) : option string :=
  if isna v then None else Some (PyStr.lower (PyStr.strip (str v))).

(** A row as the function from labels to values that the key function
    takes. *)
Definition row_of (columns : list string) (r : list value)
  : string -> result value :=
  fun name =>
    match position name columns with
    | Some i => Ok (cell r i)
    | None => Raise (KeyError name)
    end.

(** Two rows that differ in both columns and spell the same text once
    joined by underscores. *)
Definition underscore_rows : DataFrame :=
  mkDataFrame ["x"; "y"]
    [ [VStr "a_b"; VStr "c"];
      [VStr "a"; VStr "b_c"] ].

(** Every row has one value per column. *)
Definition rectangular (df : DataFrame) : Prop :=
  Forall (fun r => List.length r = List.length (columns df)) (rows df).

(** The frame has a text column or only integer columns, so a row taken
    out of it keeps the values as they are ([row_series]). *)
Definition rows_keep_their_values (df : DataFrame) : Prop :=
  existsb is_Object (dtypes df) || forallb is_Int64 (dtypes df) = true.

(** A frame of one text cell, and a numeric frame of two dtypes. *)
Definition one_text_cell : DataFrame := mkDataFrame ["x"] [ [VStr "a"] ].

Definition int_and_float : DataFrame :=
  mkDataFrame ["a"; "b"] [ [VInt 1; VFloat (S754_finite false 5 (-1))] ].

(** The column [name] of the frame a method returned. *)
Definition getitem_of (r : result DataFrame) (name : string)
  : result (list value) :=
  match r with
  | Ok df => getitem df name
  | Raise e => Raise e
  end.

(** How a field of the file relates to the value read from it: a
    missing marker gives NaN; any other field stays as text or is the
    number it spells (as it is, or as a float). *)
Definition reads_as (s : string) (v : value) : Prop :=
  if is_na_field s then v = NaN
  else
    v = VStr s
    \/ exists n, F64.parse s = Some n
                 /\ (v = number_of n \/ v = upcast (number_of n)).

(** A file with a column of whole numbers and a [NULL]. *)
Definition numbers_and_null : csv :=
  [ ["customer_id"; "transaction_amount"];
    ["A1"; "20"];
    ["NULL"; "35"] ].

(** The header of the cleaned file for the header of the input. *)
Definition with_unique_id (header : list string) : list string :=
  match position "unique_id" header with
  | Some _ => header
  | None => header ++ ["unique_id"]
  end.

(** Strict order and equality of keys, as propositions. *)
Definition value_lt (a b : value) : Prop := value_ltb a b = true.

(** Text or missing: what an [object] column read from a file holds. *)
Definition text_or_missing (v : value) : bool :=
  match v with
  | VStr _ => true
  | _ => isna v
  end.

(** The values of a column are of one kind: integers, floats, or text
    with NaN for the missing ones. *)
Definition homogeneous (vs : list value) : Prop :=
  Forall (fun v => is_int v = true) vs
  \/ Forall (fun v => is_float v = true) vs
  \/ Forall (fun v => text_or_missing v = true) vs.

(** Every column of the frame is of one kind. *)
Definition typed (df : DataFrame) : Prop :=
  forall i, homogeneous (map (fun r => cell r i) (rows df)).

(** The three kinds of key. *)
Definition text_key (v : value) : Prop := exists s, v = VStr s.
Definition int_key (v : value) : Prop := exists z, v = VInt z.
Definition float_key (v : value) : Prop :=
  exists f, v = VFloat f /\ F64.is_nan f = false.

(** A cleaned file and a file with a missing key. *)
Definition three_transactions : csv :=
  [ ["customer_id"; "transaction_amount"];
    ["XYZ789"; "35.5"];
    ["ABC123"; "45.67"];
    ["XYZ789"; "40.0"] ].

Definition missing_key : csv :=
  [ ["customer_id"; "transaction_amount"];
    [""; "5"];
    ["A1"; "7"] ].

(** The [Transformations] object made from the one file of a world. *)
Definition transformations_of (f : csv) : Transformations.t :=
  match Transformations.init "cleaned_data.csv"
          (only_file "cleaned_data.csv" f) with
  | Ok t => t
  | Raise _ => Transformations.mk "cleaned_data.csv" (mkDataFrame [] [])
  end.

(** The input file of the unit tests: twelve transactions, three with no
    amount and one with [NULL] for the customer. *)
Definition unit_test_input : csv :=
  [ ["transaction_id"; "customer_id"; "transaction_amount"; "date"];
    ["1001"; "ABC123"; "45.67"; "10/01/2024"];
    ["1002"; "XYZ789"; ""; "11/01/2024"];
    ["1003"; "ABC123"; "20.0"; "12/01/2024"];
    ["1004"; "XYZ789"; "35.5"; "13/01/2024"];
    ["1005"; "LMN456"; "50.0"; "14/01/2024"];
    ["1006"; "ABC123"; "15.5"; "15/01/2024"];
    ["1007"; "ABC123"; "20.0"; "12/01/2024"];
    ["1008"; "DEF567"; "75.25"; "16/01/2024"];
    ["1009"; "XYZ789"; "40.0"; "17/01/2024"];
    ["1010"; "LMN456"; ""; "18/01/2024"];
    ["1011"; "ABC123"; ""; "19/01/2024"];
    ["1012"; "NULL"; "100.5"; "20/01/2024"] ].

(** The cleaned file of the unit tests of [Transformations]. *)
Definition unit_test_cleaned : csv :=
  [ ["transaction_id"; "customer_id"; "transaction_amount"; "date"];
    ["1001"; "ABC123"; "45.67"; "10/01/2024"];
    ["1003"; "ABC123"; "20.0"; "12/01/2024"];
    ["1004"; "XYZ789"; "35.5"; "13/01/2024"];
    ["1005"; "LMN456"; "50.0"; "14/01/2024"];
    ["1006"; "ABC123"; "15.5"; "15/01/2024"];
    ["1007"; "ABC123"; "20.0"; "12/01/2024"];
    ["1008"; "DEF567"; "75.25"; "16/01/2024"];
    ["1009"; "XYZ789"; "40.0"; "17/01/2024"] ].

(** The length of the frame a method returned. *)
Definition len_of (r : result DataFrame) : result nat :=
  match r with
  | Ok df => Ok (len df)
  | Raise e => Raise e
  end.

(** The files of [w'] are those of [w], but for the paths [ps]. *)
Definition same_files_except (ps : list string) (w w' : World) : Prop :=
  forall p, ~ In p ps -> w' p = w p.

(** A computation that writes no file but those at the paths [ps]. *)
Definition writes_only {O A} (ps : list string) (m : M (State O) A) : Prop :=
  forall s, same_files_except ps (world s) (world (snd (m s))).

(** An input with no column [customer_id], and a header with no record
    under it. *)
Definition no_customer_column : csv :=
  [ ["transaction_amount"]; ["5"] ].

Definition header_only : csv :=
  [ ["customer_id"; "transaction_amount"] ].

(** A frame whose amounts are text, and one with the same key in both
    rows. *)
Definition amounts_as_text : DataFrame :=
  mkDataFrame ["transaction_amount"] [ [VStr "12.5"]; [VStr "7"] ].

Definition same_key_twice : DataFrame :=
  mkDataFrame ["unique_id"] [ [VStr "k"]; [VStr "k"] ].

(** The frame a method returned; a frame of nothing when it raised. *)
Definition frame_of (r : result DataFrame) : DataFrame :=
  match r with
  | Ok df => df
  | Raise _ => mkDataFrame [] []
  end.

(** Labels that [read_csv] takes as they are: distinct and not empty. *)
Definition plain_labels (header : list string) : Prop :=
  NoDup header /\ ~ In "" header.

(** The words that [read_csv] reads as booleans. *)
Definition bool_words : list string :=
  [ "True"; "TRUE"; "true"; "False"; "FALSE"; "false" ].

Definition is_bool_word (s : string) : bool :=
  existsb (String.eqb s) bool_words.

(** Records with no boolean word in any field. *)
Definition no_bool_words (records : list (list string)) : Prop :=
  Forall (Forall (fun s => is_bool_word s = false)) records.

(** A numeral of at most fifteen digits, with an optional sign and an
    optional point, no blank and no exponent: every converter reads it
    to the same number. *)
Definition is_digit (c : ascii) : bool :=
  match F64.digit_of c with
  | Some _ => true
  | None => false
  end.

Definition plain_decimal (s : string) : bool :=
  let '(_, body) := F64.sign (list_ascii_of_string s) in
  let n := List.length (filter is_digit body) in
  (1 <=? n)%nat && (n <=? 15)%nat
  && match filter (fun c => negb (is_digit c)) body with
     | [] => true
     | ["."%char] => true
     | _ => false
     end.

(** A field in the range where the model of [read_csv] is exact: a
    missing marker, a plain numeral, or text that is no numeral and no
    boolean word. *)
Definition plain_field (s : string) : bool :=
  is_na_field s
  || plain_decimal s
  || (negb (is_bool_word s)
      && match F64.parse s with
         | None => true
         | Some _ => false
         end).

Definition plain_records (records : list (list string)) : Prop :=
  Forall (Forall (fun s => plain_field s = true)) records.

(** A file small enough for [read_csv] to take the kind of a column
    from all its fields at once.  A large file is read in pieces, and a
    column can then hold numbers from one piece and text from another. *)
Definition read_at_once (header : list string)
  (records : list (list string)) : Prop :=
  Z.of_nat (List.length header) * Z.of_nat (List.length records) <= 2 ^ 18.

(** How a column of fields is read, in the words of the amended claim: a
    missing marker is NaN; the other fields are the numbers they spell
    when every field of the column is a number or a missing marker (as
    integers when every field is an integer, as floats if not), and stay
    text when some field of the column is no number. *)
Definition reads_column (fields : list string) (vs : list value) : Prop :=
  Forall2
    (fun s v =>
       if is_na_field s then v = NaN
       else if forallb is_number_field fields then
         exists n,
           F64.parse s = Some n
           /\ v = if forallb is_int_field fields
                  then number_of n
                  else upcast (number_of n)
       else v = VStr s)
    fields vs.

(* ================================================================== *)
(** * Properties *)

(** ** The library model on known values *)

Example hexdigest_empty :
  MD5.hexdigest "" = "d41d8cd98f00b204e9800998ecf8427e".
Proof. vm_compute. reflexivity. Qed.

Example hexdigest_abc :
  MD5.hexdigest "abc" = "900150983cd24fb0d6963f7d28e17f72".
Proof. vm_compute. reflexivity. Qed.

Example hexdigest_two_blocks :
  MD5.hexdigest
    "xxxxxxxxxxxxxxxxxxxxxxxxxxxxxxxxxxxxxxxxxxxxxxxxxxxxxxxxxxxxxxxx"
  = "c1bb4f81d892b2d57947682aeb252456".
Proof. vm_compute. reflexivity. Qed.

Example parse_45_67 :
  F64.parse "45.67"
  = Some (F64.NumFloat (S754_finite false 6427481093187830 (-47))).
Proof. vm_compute. reflexivity. Qed.

Example repr_sum_of_tenths :
  F64.repr (F64.add (F64.of_decimal false 1 (-1)) (F64.of_decimal false 2 (-1)))
  = "0.30000000000000004".
Proof. vm_compute. reflexivity. Qed.

Example repr_whole_and_large :
  F64.repr (F64.of_Z 20) = "20.0"
  /\ F64.repr (F64.of_decimal false 1 16) = "1e+16"
  /\ F64.repr (F64.of_decimal false 1 (-5)) = "1e-05".
Proof. repeat split; vm_compute; reflexivity. Qed.

Example strip_lower :
  PyStr.lower (PyStr.strip "  ABC123 ") = "abc123".
Proof. reflexivity. Qed.

(** The unit tests of the repository: twelve rows are read, eight are
    left by [remove_rows], their keys are all different, and the
    amounts are floats after the conversion. *)
Example unit_tests_of_CSVCleaner :
  let s0 := mkState (CSVCleaner.init "test_input_data.csv")
              (only_file "test_input_data.csv" unit_test_input) in
  len_of (fst (CSVCleaner.read_data s0)) = Ok 12%nat
  /\ len_of (fst ((CSVCleaner.read_data ;; CSVCleaner.remove_rows) s0))
     = Ok 8%nat
  /\ (exists ids,
        getitem_of (fst ((CSVCleaner.read_data ;; CSVCleaner.remove_rows ;;
                          CSVCleaner.generate_uniqueID None) s0)) "unique_id"
        = Ok ids
        /\ List.length ids = 8%nat /\ NoDup ids)
  /\ (exists amounts,
        getitem_of (fst ((CSVCleaner.read_data ;; CSVCleaner.remove_rows ;;
                          CSVCleaner.convert_transaction_amount) s0))
          "transaction_amount"
        = Ok amounts
        /\ forallb is_float amounts = true).
Proof.
  split; [vm_compute; reflexivity|].
  split; [vm_compute; reflexivity|].
  split.
  - eexists. split; [vm_compute; reflexivity|]. split; [reflexivity|].
    repeat (constructor; [simpl; intuition discriminate|]). constructor.
  - eexists. split; [vm_compute; reflexivity|]. reflexivity.
Qed.

(** The unit test of [group_by_customer_id], as the file its outcome is
    saved to. *)
Example unit_test_of_Transformations :
  let w := only_file "test_cleaned_data.csv" unit_test_cleaned in
  match Transformations.init "test_cleaned_data.csv" w with
  | Ok t =>
      snd (call (transform "test_aggregated_transactions.csv") t w)
        "test_aggregated_transactions.csv"
      = Some [ ["customer_id"; "total_transaction_amount"];
               ["ABC123"; "101.17"];
               ["DEF567"; "75.25"];
               ["LMN456"; "50.0"];
               ["XYZ789"; "75.5"] ]
  | Raise _ => False
  end.
Proof. vm_compute. reflexivity. Qed.

(** The unit test of [save_data]: the saved file, read again, is the
    frame that was saved. *)
Example unit_test_of_save_data :
  let s0 := mkState (CSVCleaner.init "test_input_data.csv")
              (only_file "test_input_data.csv" unit_test_input) in
  let '(r, s1) := (clean "test_cleaned_data.csv") s0 in
  r = Ok tt
  /\ match CSVCleaner.data (self s1), world s1 "test_cleaned_data.csv" with
     | Some df, Some f => parse_csv f = Ok df
     | _, _ => False
     end.
Proof. split; vm_compute; reflexivity. Qed.

(** A text that is no number: [to_numeric] names it and its position. *)
Example unparsable_amount :
  CSVCleaner.convert_transaction_amount
    (cleaner "input_data.csv"
       (mkDataFrame ["transaction_amount"] [ [VStr "12.5"]; [VStr "abc"] ])
       (fun _ => None))
  = (Raise (unable_to_parse "abc" 1),
     cleaner "input_data.csv"
       (mkDataFrame ["transaction_amount"] [ [VStr "12.5"]; [VStr "abc"] ])
       (fun _ => None)).
Proof. vm_compute. reflexivity. Qed.

(** A first record with one field more than the header: the field is a
    row label, not data. *)
Example leading_field_is_row_label :
  parse_csv [ ["a"; "b"]; ["r1"; "1"; "x"]; ["r2"; "2"; "y"] ]
  = Ok (mkDataFrame ["a"; "b"] [ [VInt 1; VStr "x"]; [VInt 2; VStr "y"] ]).
Proof. vm_compute. reflexivity. Qed.


(** ** RowCleaner *)

Lemma filter_Subseq {A : Type} (p : A -> bool) (l : list A) :
  Subseq (filter p l) l.
Proof.
  induction l as [|x l IH]; simpl.
  - constructor.
  - destruct (p x); constructor; exact IH.
Qed.

Lemma complete_row_notna (r : list value) :
  forallb notna r = true <-> complete_row r.
Proof.
  unfold complete_row, notna.
  rewrite forallb_forall, Forall_forall.
  split; intros H v Hv; specialize (H v Hv).
  - now apply negb_true_iff in H.
  - now rewrite H.
Qed.

(** C5.  [remove_rows] leaves exactly the rows that have no missing
    value: every row left is complete, there are no more rows than
    before, the rows left keep their order, and no complete row is lost.
    The columns stay as they are. *)
Theorem remove_rows_postcondition :
  forall (path : string) (df : DataFrame) (w : World),
    let out := dropna df in
    CSVCleaner.remove_rows (cleaner path df w) = (Ok out, cleaner path out w)
    /\ columns out = columns df
    /\ Forall complete_row (rows out)
    /\ (len out <= len df)%nat
    /\ Subseq (rows out) (rows df)
    /\ (forall r, In r (rows df) -> complete_row r -> In r (rows out)).
Proof.
  intros path df w out.
  repeat split.
  - apply Forall_forall. intros r Hr.
    apply filter_In in Hr. now apply complete_row_notna.
  - unfold len, out, dropna; simpl. apply filter_length_le.
  - apply filter_Subseq.
  - intros r Hin Hc. apply filter_In. split; [exact Hin|].
    now apply complete_row_notna.
Qed.

(** ** Deduplicator *)

(** [check_duplicates] has no effect on the state, whatever it is. *)
Lemma check_duplicates_no_effect (s : State CSVCleaner.t) :
  snd (CSVCleaner.check_duplicates s) = s.
Proof.
  unfold CSVCleaner.check_duplicates, bind, lift, CSVCleaner.get_data.
  destruct s as [[path [df|]] w]; simpl; [|reflexivity].
  destruct (drop_duplicates df "unique_id"); reflexivity.
Qed.

Lemma existsb_text_key (k : string) (seen : list value) :
  Forall text_key seen ->
  existsb (value_eqb (VStr k)) seen = true <-> In (VStr k) seen.
Proof.
  intros Hseen. rewrite existsb_exists. split.
  - intros (x & Hx & E). rewrite Forall_forall in Hseen.
    destruct (Hseen x Hx) as [s ->]. simpl in E.
    apply String.eqb_eq in E. now subst s.
  - intros H. exists (VStr k). split; [exact H|]. apply String.eqb_refl.
Qed.

(** What [keep_first] keeps, for text keys: rows in their order, no key
    twice and none of those seen before, and for every row a row of the
    same key unless the key was seen before. *)
Lemma keep_first_spec (key : list value -> value) (rs : list (list value)) :
  Forall (fun r => text_key (key r)) rs ->
  forall seen,
    Forall text_key seen ->
    let out := keep_first key seen rs in
    Subseq out rs
    /\ NoDup (map key out)
    /\ (forall r, In r out -> ~ In (key r) seen)
    /\ (forall r, In r rs -> In (key r) seen \/ In (key r) (map key out)).
Proof.
  induction 1 as [|r rs [k Hk] _ IH]; intros seen Hseen; simpl.
  - split; [constructor|]. split; [constructor|]. split; intros r [].
  - rewrite Hk.
    destruct (existsb (value_eqb (VStr k)) seen) eqn:E.
    + apply (existsb_text_key k Hseen) in E.
      destruct (IH seen Hseen) as (H1 & H2 & H3 & H4).
      repeat split; auto.
      * now constructor.
      * intros r' [<-|Hr']; [left; now rewrite Hk|now apply H4].
    + assert (Hnew : ~ In (VStr k) seen).
      { intros Hin. apply (existsb_text_key k Hseen) in Hin. congruence. }
      assert (Hseen' : Forall text_key (VStr k :: seen))
        by (constructor; [now exists k|exact Hseen]).
      destruct (IH (VStr k :: seen) Hseen') as (H1 & H2 & H3 & H4).
      repeat split.
      * now constructor.
      * simpl. rewrite Hk. constructor; [|exact H2].
        intros Hin. apply in_map_iff in Hin. destruct Hin as (r' & E' & Hr').
        apply (H3 r' Hr'). left. now rewrite E'.
      * intros r' [<-|Hr']; [now rewrite Hk|].
        intros Hin. apply (H3 r' Hr'). now right.
      * intros r' [<-|Hr'].
        -- right. simpl. left. reflexivity.
        -- destruct (H4 r' Hr') as [[<-|Hin]|Hin].
           ++ right. simpl. left. now rewrite Hk.
           ++ now left.
           ++ right. simpl. now right.
Qed.

(** X8. The frame that [drop_duplicates] returns, and that [check_duplicates]
    does not keep, is the one without duplicates: its rows are rows of
    the frame in their order, no two have the same key, and every key of
    the frame is the key of one of them. *)
Lemma drop_duplicates_spec (df : DataFrame) (i : nat) :
  position "unique_id" (columns df) = Some i ->
  Forall (fun r => text_key (cell r i)) (rows df) ->
  exists out,
    drop_duplicates df "unique_id" = Ok out
    /\ columns out = columns df
    /\ Subseq (rows out) (rows df)
    /\ NoDup (map (fun r => cell r i) (rows out))
    /\ (forall r, In r (rows df) ->
          In (cell r i) (map (fun r => cell r i) (rows out))).
Proof.
  intros Hi Hkeys. unfold drop_duplicates.
  destruct (empty df) eqn:He.
  { assert (Hrows : rows df = []).
    { unfold empty in He. destruct (rows df) as [|r rs]; [reflexivity|].
      destruct (columns df); [discriminate Hi|discriminate He]. }
    exists df. rewrite Hrows.
    repeat split; try constructor. intros r []. }
  rewrite Hi.
  eexists. split; [reflexivity|]. split; [reflexivity|]. simpl.
  destruct (keep_first_spec (fun r => cell r i) Hkeys (Forall_nil text_key))
    as (H1 & H2 & _ & H4).
  repeat split; try assumption.
  intros r Hr. destruct (H4 r Hr) as [[]|H]; exact H.
Qed.

Lemma drop_duplicates_spec_witness :
  position "unique_id" (columns same_key_twice) = Some 0%nat
  /\ Forall (fun r => text_key (cell r 0)) (rows same_key_twice)
  /\ exists out,
      drop_duplicates same_key_twice "unique_id" = Ok out
      /\ columns out = columns same_key_twice
      /\ Subseq (rows out) (rows same_key_twice)
      /\ NoDup (map (fun r => cell r 0) (rows out))
      /\ (forall r, In r (rows same_key_twice) ->
            In (cell r 0) (map (fun r => cell r 0) (rows out))).
Proof.
  assert (H1 : position "unique_id" (columns same_key_twice) = Some 0%nat)
    by reflexivity.
  assert (H2 : Forall (fun r => text_key (cell r 0)) (rows same_key_twice))
    by (repeat constructor; eexists; reflexivity).
  split; [exact H1|]. split; [exact H2|].
  exact (@drop_duplicates_spec same_key_twice 0%nat H1 H2).
Defined.

(** C1.  On an input with the same transaction twice the two rows get
    the same key, [check_duplicates] returns both, both are written to
    the cleaned file, and the transaction is counted twice in the total
    of its customer, by [main] and by the script alike. *)
Theorem check_duplicates_keeps_duplicates :
  let k := "4400a4e744f65f8eb2a355308c0e40cb" in
  let kept :=
    mkDataFrame ["customer_id"; "transaction_amount"; "unique_id"]
      [ [VStr "A1"; VInt 5; VStr k]; [VStr "A1"; VInt 5; VStr k] ] in
  let w := only_file "input_data.csv" repeated_transaction in
  fst ((CSVCleaner.read_data ;; CSVCleaner.remove_rows ;; deduplicator None)
         (mkState (CSVCleaner.init "input_data.csv") w))
  = Ok kept
  /\ snd (main w) "cleaned_data.csv"
     = Some [ ["customer_id"; "transaction_amount"; "unique_id"];
              ["A1"; "5"; k];
              ["A1"; "5"; k] ]
  /\ snd (main w) "aggregated_transactions.csv"
     = Some [ ["customer_id"; "total_transaction_amount"]; ["A1"; "10"] ]
  /\ snd (Simple.run w) "aggregated_transactions.csv"
     = Some [ ["customer_id"; "total_transaction_amount"]; ["A1"; "10"] ].
Proof.
  repeat split; vm_compute; reflexivity.
Qed.

(** ** AmountNormalizer *)

Lemma position_In (name : string) (cols : list string) :
  In name cols -> exists i, position name cols = Some i.
Proof.
  induction cols as [|c cols IH]; simpl; [tauto|].
  intros [->|H].
  - rewrite String.eqb_refl. now exists O.
  - destruct (String.eqb c name); [now exists O|].
    destruct (IH H) as [i ->]. now exists (S i).
Qed.

Lemma position_Some_In (name : string) (cols : list string) (i : nat) :
  position name cols = Some i -> In name cols.
Proof.
  revert i. induction cols as [|c cols IH]; simpl; [discriminate|].
  intros i. destruct (String.eqb_spec c name) as [->|_]; [now left|].
  destruct (position name cols) as [j|]; [|discriminate].
  intros _. right. now apply (IH j).
Qed.

(** What [to_numbers] returns: a number for every value, or the first
    text that is no numeral, with its position. *)
Lemma to_numbers_spec (vs : list value) :
  forall i,
    match to_numbers i vs with
    | Ok xs =>
        List.length xs = List.length vs
        /\ Forall (fun x => is_numeric x = true) xs
    | Raise e =>
        exists (k : nat) (s : string),
          e = unable_to_parse s (i + k)
          /\ nth_error vs k = Some (VStr s)
          /\ F64.parse s = None
    end.
Proof.
  induction vs as [|v vs IH]; intros i; simpl.
  - split; [reflexivity|constructor].
  - destruct (to_number i v) as [x|e] eqn:Hv; simpl.
    + specialize (IH (S i)).
      destruct (to_numbers (S i) vs) as [xs|e]; simpl.
      * destruct IH as [Hlen Hnum]. split; [now rewrite Hlen|].
        constructor; [|exact Hnum].
        destruct v as [s|z|f]; simpl in Hv.
        -- destruct (F64.parse s) as [[z|f]|]; inversion Hv; reflexivity.
        -- inversion Hv; reflexivity.
        -- inversion Hv; reflexivity.
      * destruct IH as (k & s & -> & Hk & Hs).
        exists (S k), s. repeat split; try assumption.
        now rewrite Nat.add_succ_r.
    + destruct v as [s|z|f]; simpl in Hv; try discriminate.
      destruct (F64.parse s) as [[z|f]|] eqn:Hs; try discriminate.
      inversion Hv; subst e.
      exists O, s. rewrite Nat.add_0_r. now repeat split.
Qed.

Lemma upcast_numeric (x : value) :
  is_numeric x = true -> is_numeric (upcast x) = true.
Proof. destruct x; simpl; auto. Qed.

Lemma to_numeric_spec (vs : list value) :
  match to_numeric vs with
  | Ok xs =>
      List.length xs = List.length vs
      /\ Forall (fun x => is_numeric x = true) xs
  | Raise e =>
      exists (k : nat) (s : string),
        e = unable_to_parse s k
        /\ nth_error vs k = Some (VStr s)
        /\ F64.parse s = None
  end.
Proof.
  unfold to_numeric.
  pose proof (to_numbers_spec vs 0) as H.
  destruct (to_numbers 0 vs) as [xs|e]; simpl; [|exact H].
  destruct H as [Hlen Hnum].
  destruct (forallb is_int xs); [now split|].
  split; [now rewrite length_map|].
  apply Forall_map. revert Hnum. apply Forall_impl.
  exact upcast_numeric.
Qed.

Lemma cell_set_nth (i : nat) (x : value) (r : list value) :
  cell (set_nth i x r) i = x \/ cell (set_nth i x r) i = NaN.
Proof.
  unfold cell. revert r.
  induction i as [|i IH]; intros [|y r]; simpl; auto.
Qed.

Lemma columns_setitem_present (df : DataFrame) (name : string)
  (vs : list value) (i : nat) :
  position name (columns df) = Some i ->
  columns (setitem df name vs) = columns df.
Proof. unfold setitem. now intros ->. Qed.

(** X9. Atomicity of [convert_transaction_amount] on a frame that has the
    column: either the call returns, the frame has the same columns and
    every value of the amount column is a number; or it raises a
    [ValueError], the state is the one before the call, and some amount
    is text (a column of numbers never fails). *)
Lemma convert_transaction_amount_atomic :
  forall (path : string) (df : DataFrame) (w : World),
    In "transaction_amount" (columns df) ->
    (exists df' amounts,
        CSVCleaner.convert_transaction_amount (cleaner path df w)
        = (Ok df', cleaner path df' w)
        /\ columns df' = columns df
        /\ len df' = len df
        /\ getitem df' "transaction_amount" = Ok amounts
        /\ Forall (fun x => is_numeric x = true) amounts)
    \/
    (exists (msg : string) (k : nat) (s : string) (before : list value),
        CSVCleaner.convert_transaction_amount (cleaner path df w)
        = (Raise (ValueError msg), cleaner path df w)
        /\ getitem df "transaction_amount" = Ok before
        /\ nth_error before k = Some (VStr s)).
Proof.
  intros path df w Hin.
  destruct (position_In _ _ Hin) as [i Hi].
  unfold CSVCleaner.convert_transaction_amount, bind, lift,
    CSVCleaner.get_data, CSVCleaner.set_data, cleaner; simpl.
  unfold getitem at 1 3. rewrite Hi.
  pose proof (to_numeric_spec (map (fun r => cell r i) (rows df))) as H.
  destruct (to_numeric (map (fun r => cell r i) (rows df))) as [xs|e].
  - left. destruct H as [Hlen Hnum]. rewrite length_map in Hlen.
    eexists. eexists. split; [reflexivity|].
    unfold getitem. rewrite (columns_setitem_present df _ xs Hi), Hi.
    split; [reflexivity|]. split.
    + unfold len, setitem. rewrite Hi; simpl.
      rewrite length_map, length_combine, Hlen. apply Nat.min_id.
    + split; [reflexivity|].
      unfold setitem. rewrite Hi; simpl. rewrite map_map.
      apply Forall_map. apply Forall_forall. intros [r x] Hrx; simpl.
      apply in_combine_r in Hrx.
      rewrite Forall_forall in Hnum. specialize (Hnum x Hrx).
      destruct (cell_set_nth i x r) as [-> | ->]; [exact Hnum|reflexivity].
  - right. destruct H as (k & s & -> & Hk & Hs).
    eexists. exists k, s. eexists. split; [reflexivity|].
    unfold getitem. rewrite Hi. split; [reflexivity|exact Hk].
Qed.

Lemma convert_transaction_amount_atomic_witness :
  In "transaction_amount" (columns amounts_as_text)
  /\ ((exists df' amounts,
          CSVCleaner.convert_transaction_amount
            (cleaner "input_data.csv" amounts_as_text (fun _ => None))
          = (Ok df', cleaner "input_data.csv" df' (fun _ => None))
          /\ columns df' = columns amounts_as_text
          /\ len df' = len amounts_as_text
          /\ getitem df' "transaction_amount" = Ok amounts
          /\ Forall (fun x => is_numeric x = true) amounts)
      \/
      (exists (msg : string) (k : nat) (s : string) (before : list value),
          CSVCleaner.convert_transaction_amount
            (cleaner "input_data.csv" amounts_as_text (fun _ => None))
          = (Raise (ValueError msg),
             cleaner "input_data.csv" amounts_as_text (fun _ => None))
          /\ getitem amounts_as_text "transaction_amount" = Ok before
          /\ nth_error before k = Some (VStr s))).
Proof.
  assert (H : In "transaction_amount" (columns amounts_as_text))
    by (simpl; auto).
  split; [exact H|].
  exact (@convert_transaction_amount_atomic
           "input_data.csv" amounts_as_text (fun _ => None) H).
Defined.

(** X10. Without the column the call raises [KeyError] and changes nothing. *)
Lemma convert_transaction_amount_without_column :
  forall (path : string) (df : DataFrame) (w : World),
    position "transaction_amount" (columns df) = None ->
    CSVCleaner.convert_transaction_amount (cleaner path df w)
    = (Raise (KeyError "transaction_amount"), cleaner path df w).
Proof.
  intros path df w H.
  unfold CSVCleaner.convert_transaction_amount, bind, lift,
    CSVCleaner.get_data, cleaner; simpl.
  unfold getitem. now rewrite H.
Qed.

Lemma convert_transaction_amount_without_column_witness :
  position "transaction_amount" (columns one_text_cell) = None
  /\ CSVCleaner.convert_transaction_amount
       (cleaner "input_data.csv" one_text_cell (fun _ => None))
     = (Raise (KeyError "transaction_amount"),
        cleaner "input_data.csv" one_text_cell (fun _ => None)).
Proof.
  assert (H : position "transaction_amount" (columns one_text_cell) = None)
    by reflexivity.
  split; [exact H|].
  exact (@convert_transaction_amount_without_column
           "input_data.csv" one_text_cell (fun _ => None) H).
Defined.

(** C2.  A file whose amounts are all whole numbers: the amount column
    is int64 when it is read, and it is int64 after
    [convert_transaction_amount]; no value of it is a float. *)
Theorem convert_transaction_amount_keeps_int64 :
  let input := [ ["customer_id"; "transaction_amount"];
                 ["A1"; "20"];
                 ["B2"; "30"] ] in
  let converted :=
    mkDataFrame ["customer_id"; "transaction_amount"]
      [ [VStr "A1"; VInt 20]; [VStr "B2"; VInt 30] ] in
  fst ((CSVCleaner.read_data ;; CSVCleaner.remove_rows ;;
        CSVCleaner.convert_transaction_amount)
         (mkState (CSVCleaner.init "input_data.csv")
                  (only_file "input_data.csv" input)))
  = Ok converted
  /\ col_dtype converted 1 = Int64
  /\ (forall amounts v,
        getitem converted "transaction_amount" = Ok amounts ->
        In v amounts -> is_float v = false).
Proof.
  repeat split; try (vm_compute; reflexivity).
  intros amounts v H Hv. inversion H; subst amounts.
  simpl in Hv. destruct Hv as [<-|[<-|[]]]; reflexivity.
Qed.

(** ** The deduplication key *)

Lemma mapM_normalized (columns : list string)
  (row1 row2 : string -> result value) :
  (forall c, In c columns ->
     exists v1 v2,
       row1 c = Ok v1 /\ row2 c = Ok v2 /\ normalized v1 = normalized v2) ->
  exists vs1 vs2,
    mapM row1 columns = Ok vs1 /\ mapM row2 columns = Ok vs2
    /\ map (fun v => PyStr.lower (PyStr.strip (str v))) (filter notna vs1)
       = map (fun v => PyStr.lower (PyStr.strip (str v))) (filter notna vs2).
Proof.
  induction columns as [|c columns IH]; intros H.
  - exists [], []. repeat split.
  - destruct (H c (or_introl eq_refl)) as (v1 & v2 & H1 & H2 & Hn).
    destruct IH as (vs1 & vs2 & E1 & E2 & E).
    { intros c' Hc'. apply H. now right. }
    exists (v1 :: vs1), (v2 :: vs2). simpl.
    rewrite H1, H2, E1, E2; simpl. repeat split.
    unfold normalized, notna in *.
    destruct (isna v1), (isna v2); simpl; try discriminate; [exact E|].
    inversion Hn as [Hs]. now rewrite E.
Qed.

(** C7, as amended.  Two rows that agree on every selected column once
    each value is turned to text, trimmed and lowercased (a missing value
    agreeing only with a missing value) get the same key. *)
Theorem equal_rows_equal_keys :
  forall (columns : list string) (row1 row2 : string -> result value),
    (forall c, In c columns ->
       exists v1 v2,
         row1 c = Ok v1 /\ row2 c = Ok v2 /\ normalized v1 = normalized v2) ->
    exists k,
      CSVCleaner.unique_id_of columns row1 = Ok k
      /\ CSVCleaner.unique_id_of columns row2 = Ok k.
Proof.
  intros columns row1 row2 H.
  destruct (mapM_normalized columns row1 row2 H) as (vs1 & vs2 & E1 & E2 & E).
  unfold CSVCleaner.unique_id_of. rewrite E1, E2; simpl. rewrite E.
  eexists. split; reflexivity.
Qed.

Lemma equal_rows_equal_keys_witness :
  (forall c, In c ["customer_id"; "date"] ->
     exists v1 v2,
       row_of ["customer_id"; "date"] [VStr " ABC123"; NaN] c = Ok v1
       /\ row_of ["customer_id"; "date"] [VStr "abc123 "; NaN] c = Ok v2
       /\ normalized v1 = normalized v2)
  /\ exists k,
      CSVCleaner.unique_id_of ["customer_id"; "date"]
        (row_of ["customer_id"; "date"] [VStr " ABC123"; NaN]) = Ok k
      /\ CSVCleaner.unique_id_of ["customer_id"; "date"]
           (row_of ["customer_id"; "date"] [VStr "abc123 "; NaN]) = Ok k.
Proof.
  assert (H : forall c, In c ["customer_id"; "date"] ->
     exists v1 v2,
       row_of ["customer_id"; "date"] [VStr " ABC123"; NaN] c = Ok v1
       /\ row_of ["customer_id"; "date"] [VStr "abc123 "; NaN] c = Ok v2
       /\ normalized v1 = normalized v2).
  { intros c [<-|[<-|[]]]; eexists; eexists; repeat split. }
  split; [exact H|].
  exact (equal_rows_equal_keys ["customer_id"; "date"] _ _ H).
Defined.

(** C7, the claim as it stands fails: the two rows of [underscore_rows]
    differ in every column after trimming and lowercasing, and
    [generate_uniqueID] gives both the key of the text [a_b_c]. *)
Lemma different_rows_same_key :
  normalized (VStr "a_b") <> normalized (VStr "a")
  /\ normalized (VStr "c") <> normalized (VStr "b_c")
  /\ fst (CSVCleaner.generate_uniqueID None
            (cleaner "input_data.csv" underscore_rows (fun _ => None)))
     = Ok (mkDataFrame ["x"; "y"; "unique_id"]
             [ [VStr "a_b"; VStr "c";
                VStr "8d28cddc274233853a82eae1c6c7f0b3"];
               [VStr "a"; VStr "b_c";
                VStr "8d28cddc274233853a82eae1c6c7f0b3"] ]).
Proof.
  split; [vm_compute; discriminate|].
  split; [vm_compute; discriminate|].
  vm_compute. reflexivity.
Qed.

(** ** Idempotence of the Deduplicator *)

Lemma mapM_length {A B} (f : A -> result B) (l : list A) (bs : list B) :
  mapM f l = Ok bs -> List.length bs = List.length l.
Proof.
  revert bs. induction l as [|a l IH]; simpl; intros bs H.
  - now inversion H.
  - destruct (f a); simpl in H; [|discriminate].
    destruct (mapM f l) as [bs'|]; simpl in H; [|discriminate].
    inversion H. simpl. now rewrite (IH bs').
Qed.

Lemma mapM_ext_in {A B} (f g : A -> result B) (l : list A) :
  (forall a, In a l -> f a = g a) -> mapM f l = mapM g l.
Proof.
  induction l as [|a l IH]; simpl; intros H; [reflexivity|].
  rewrite (H a (or_introl eq_refl)), IH; [reflexivity|].
  intros a' Ha'. apply H. now right.
Qed.

Lemma mapM_map {A B C} (f : B -> result C) (h : A -> B) (l : list A) :
  mapM f (map h l) = mapM (fun a => f (h a)) l.
Proof.
  induction l as [|a l IH]; simpl; [reflexivity|]. now rewrite IH.
Qed.

Lemma mapM_Forall {A B} (P : B -> Prop) (f : A -> result B) (l : list A)
  (bs : list B) :
  (forall a b, f a = Ok b -> P b) -> mapM f l = Ok bs -> Forall P bs.
Proof.
  intros Hf. revert bs. induction l as [|a l IH]; simpl; intros bs H.
  - inversion H. constructor.
  - destruct (f a) as [b|] eqn:Ha; simpl in H; [|discriminate].
    destruct (mapM f l) as [bs'|]; simpl in H; [|discriminate].
    inversion H. constructor; [now apply (Hf a)|now apply IH].
Qed.

Lemma map_fst_combine {A B} (l : list A) (l' : list B) :
  List.length l' = List.length l -> map fst (combine l l') = l.
Proof.
  revert l'. induction l as [|a l IH]; intros [|b l']; simpl;
    try discriminate; try reflexivity.
  intros H. f_equal. apply IH. now inversion H.
Qed.

Lemma map_snd_combine {A B} (l : list A) (l' : list B) :
  List.length l' = List.length l -> map snd (combine l l') = l'.
Proof.
  revert l'. induction l as [|a l IH]; intros [|b l']; simpl;
    try discriminate; try reflexivity.
  intros H. f_equal. apply IH. now inversion H.
Qed.

Lemma unique_id_of_ext (columns : list string)
  (row1 row2 : string -> result value) :
  (forall c, In c columns -> row1 c = row2 c) ->
  CSVCleaner.unique_id_of columns row1 = CSVCleaner.unique_id_of columns row2.
Proof.
  intros H. unfold CSVCleaner.unique_id_of.
  now rewrite (mapM_ext_in row1 row2 columns H).
Qed.

Lemma unique_id_of_text (columns : list string)
  (row : string -> result value) (k : value) :
  CSVCleaner.unique_id_of columns row = Ok k -> is_int k = false /\ is_float k = false.
Proof.
  unfold CSVCleaner.unique_id_of.
  destruct (mapM row columns); simpl; intros H; inversion H; now split.
Qed.

Lemma position_lt (name : string) (cols : list string) (i : nat) :
  position name cols = Some i -> (i < List.length cols)%nat.
Proof.
  revert i. induction cols as [|c cols IH]; simpl; [discriminate|].
  intros i. destruct (String.eqb c name).
  - intros H. inversion H. lia.
  - destruct (position name cols) as [j|]; simpl; [|discriminate].
    intros H. inversion H. specialize (IH j eq_refl). lia.
Qed.

Lemma position_app_old (name : string) (cols more : list string) (i : nat) :
  position name cols = Some i -> position name (cols ++ more) = Some i.
Proof.
  revert i. induction cols as [|c cols IH]; simpl; [discriminate|].
  intros i. destruct (String.eqb c name); [auto|].
  destruct (position name cols) as [j|]; simpl; [|discriminate].
  intros H. now rewrite (IH j eq_refl).
Qed.

Lemma position_app_new (name : string) (cols : list string) :
  position name cols = None ->
  position name (cols ++ [name]) = Some (List.length cols).
Proof.
  induction cols as [|c cols IH]; simpl.
  - now rewrite String.eqb_refl.
  - destruct (String.eqb c name); [discriminate|].
    destruct (position name cols); simpl; [discriminate|].
    intros _. now rewrite IH.
Qed.

Lemma position_app_other (name other : string) (cols : list string) :
  name <> other ->
  position name (cols ++ [other]) = position name cols.
Proof.
  intros Hne. induction cols as [|c cols IH]; simpl.
  - destruct (String.eqb_spec other name); [congruence|reflexivity].
  - destruct (String.eqb c name); [reflexivity|]. now rewrite IH.
Qed.

Lemma position_same (a b : string) (cols : list string) (i : nat) :
  position a cols = Some i -> position b cols = Some i -> a = b.
Proof.
  revert i. induction cols as [|c cols IH]; simpl; [discriminate|].
  intros i.
  destruct (String.eqb c a) eqn:Ea, (String.eqb c b) eqn:Eb.
  - apply String.eqb_eq in Ea, Eb. congruence.
  - destruct (position b cols); simpl; intros H1 H2; inversion H1; subst;
      discriminate.
  - destruct (position a cols); simpl; intros H1 H2; inversion H2; subst;
      discriminate.
  - destruct (position a cols) as [ja|], (position b cols) as [jb|]; simpl;
      try discriminate.
    intros H1 H2. inversion H1; inversion H2; subst.
    apply (IH ja); [reflexivity|]. f_equal. lia.
Qed.

Lemma cell_set_nth_other (i j : nat) (x : value) (r : list value) :
  i <> j -> cell (set_nth j x r) i = cell r i.
Proof.
  unfold cell. revert i r.
  induction j as [|j IH]; intros [|i] [|y r] H; simpl; try reflexivity;
    try congruence.
  apply IH. congruence.
Qed.

Lemma cell_app_old (i : nat) (r more : list value) :
  (i < List.length r)%nat -> cell (r ++ more) i = cell r i.
Proof. intros H. unfold cell. now apply app_nth1. Qed.

Lemma cell_app_new (r : list value) (x : value) :
  cell (r ++ [x]) (List.length r) = x.
Proof. unfold cell. now rewrite nth_middle. Qed.

Lemma cell_set_nth_same (i : nat) (x : value) (r : list value) :
  (i < List.length r)%nat -> cell (set_nth i x r) i = x.
Proof.
  unfold cell. revert r.
  induction i as [|i IH]; intros [|y r]; simpl; intros H; try lia;
    [reflexivity|].
  apply IH. lia.
Qed.

Lemma set_nth_twice (i : nat) (x : value) (r : list value) :
  set_nth i x (set_nth i x r) = set_nth i x r.
Proof.
  revert r. induction i as [|i IH]; intros [|y r]; simpl; try reflexivity.
  now rewrite IH.
Qed.

Lemma set_nth_last (r : list value) (x : value) :
  set_nth (List.length r) x (r ++ [x]) = r ++ [x].
Proof. induction r as [|y r IH]; simpl; [reflexivity|]. now rewrite IH. Qed.

Section SetItem.

Variables (df : DataFrame) (name : string) (vs : list value).
Hypothesis Hrect : rectangular df.
Hypothesis Hlen : List.length vs = len df.

Let df' := setitem df name vs.

Lemma setitem_position_other (c : string) :
  c <> name -> position c (columns df') = position c (columns df).
Proof.
  intros Hne. unfold df', setitem; simpl.
  destruct (position name (columns df)); [reflexivity|].
  now apply position_app_other.
Qed.

Lemma setitem_position :
  exists j, position name (columns df') = Some j
            /\ (j < List.length (columns df'))%nat
            /\ forall r x, In r (rows df) ->
                 cell (set_cell (position name (columns df)) r x) j = x
                 /\ set_cell (Some j)
                      (set_cell (position name (columns df)) r x) x
                    = set_cell (position name (columns df)) r x.
Proof.
  unfold df', setitem; simpl.
  destruct (position name (columns df)) as [j|] eqn:Hj.
  - exists j. split; [exact Hj|]. split; [now apply position_lt in Hj|].
    intros r x Hr; simpl. split; [|apply set_nth_twice].
    apply cell_set_nth_same.
    unfold rectangular in Hrect. rewrite Forall_forall in Hrect.
    rewrite (Hrect r Hr). now apply position_lt in Hj.
  - exists (List.length (columns df)).
    split; [now apply position_app_new|].
    split; [rewrite length_app; simpl; lia|].
    intros r x Hr; simpl.
    unfold rectangular in Hrect. rewrite Forall_forall in Hrect.
    rewrite <- (Hrect r Hr). split; [apply cell_app_new|apply set_nth_last].
Qed.

Lemma setitem_cell_other (c : string) (i : nat) (r : list value) (x : value) :
  c <> name -> position c (columns df) = Some i -> In r (rows df) ->
  cell (set_cell (position name (columns df)) r x) i = cell r i.
Proof.
  intros Hne Hi Hr.
  destruct (position name (columns df)) as [j|] eqn:Hj; simpl.
  - apply cell_set_nth_other. intros ->.
    apply Hne. now apply (position_same _ _ _ Hi Hj).
  - apply cell_app_old.
    unfold rectangular in Hrect. rewrite Forall_forall in Hrect.
    rewrite (Hrect r Hr). now apply position_lt in Hi.
Qed.

(** Setting the same column to the same values again changes nothing. *)
Lemma setitem_again : setitem df' name vs = df'.
Proof.
  destruct setitem_position as (j & Hj & _ & Hcell).
  unfold setitem at 1. rewrite Hj.
  unfold df', setitem; simpl. f_equal.
  unfold len in Hlen. revert Hcell Hlen.
  generalize (position name (columns df)) as i.
  generalize (rows df) as rs. clear. intros rs. revert vs.
  induction rs as [|r rs IH]; intros [|v vs] i Hcell Hlen; simpl;
    try reflexivity; try discriminate.
  f_equal.
  - apply Hcell. now left.
  - apply IH; [|now inversion Hlen].
    intros r' x Hr'. apply Hcell. now right.
Qed.

End SetItem.

Lemma dtype_of_text (vs : list value) :
  vs <> [] -> Forall (fun v => is_int v = false /\ is_float v = false) vs ->
  dtype_of vs = Object.
Proof.
  destruct vs as [|v vs]; [congruence|].
  intros _ H. inversion H as [|? ? [Hi Hf] _]; subst.
  unfold dtype_of; simpl. now rewrite Hi, Hf.
Qed.

Lemma setitem_rows_cells (df : DataFrame) (name : string) (vs : list value)
  (j : nat) :
  List.length vs = len df ->
  (forall r x, In r (rows df) ->
     cell (set_cell (position name (columns df)) r x) j = x) ->
  map (fun r => cell r j) (rows (setitem df name vs)) = vs.
Proof.
  intros Hlen Hcell. unfold setitem; simpl. rewrite map_map.
  rewrite <- (map_snd_combine (rows df) vs Hlen) at 2.
  apply map_ext_in. intros [r x] Hp; simpl.
  apply Hcell. now apply in_combine_l in Hp.
Qed.

Lemma setitem_has_text_column (df : DataFrame) (name : string)
  (vs : list value) :
  rectangular df -> List.length vs = len df -> vs <> [] ->
  Forall (fun v => is_int v = false /\ is_float v = false) vs ->
  existsb is_Object (dtypes (setitem df name vs)) = true.
Proof.
  intros Hrect Hlen Hne Htext.
  destruct (setitem_position name vs Hrect Hlen) as (j & Hj & Hlt & Hcell).
  apply existsb_exists. exists (col_dtype (setitem df name vs) j). split.
  - unfold dtypes. apply in_map. apply in_seq. lia.
  - unfold col_dtype.
    rewrite (setitem_rows_cells df name vs j Hlen).
    + now rewrite dtype_of_text.
    + intros r x Hr. now apply Hcell.
Qed.

Lemma row_series_id (df : DataFrame) (r : list value) :
  rows_keep_their_values df -> row_series df r = r.
Proof.
  unfold rows_keep_their_values, row_series. now intros ->.
Qed.


Lemma generate_uniqueID_eq (columns : option (list string)) (path : string)
  (df : DataFrame) (w : World) :
  CSVCleaner.generate_uniqueID columns (cleaner path df w)
  = match apply_rows df
            (CSVCleaner.unique_id_of
               (match columns with
                | None => Pandas.columns df
                | Some cs => cs
                end)) with
    | Ok ids =>
        (Ok (setitem df "unique_id" ids),
         cleaner path (setitem df "unique_id" ids) w)
    | Raise e => (Raise e, cleaner path df w)
    end.
Proof.
  unfold CSVCleaner.generate_uniqueID, bind, lift, CSVCleaner.get_data,
    CSVCleaner.set_data, cleaner; simpl.
  destruct columns; destruct (apply_rows df _); reflexivity.
Qed.

Lemma check_duplicates_eq (path : string) (df : DataFrame) (w : World) :
  CSVCleaner.check_duplicates (cleaner path df w)
  = (match drop_duplicates df "unique_id" with
     | Ok _ => Ok df
     | Raise e => Raise e
     end, cleaner path df w).
Proof.
  unfold CSVCleaner.check_duplicates, bind, lift, CSVCleaner.get_data,
    cleaner; simpl.
  destruct (drop_duplicates df "unique_id"); reflexivity.
Qed.

Lemma drop_duplicates_Ok (df : DataFrame) (name : string) (i : nat) :
  position name (columns df) = Some i ->
  exists out, drop_duplicates df name = Ok out.
Proof.
  unfold drop_duplicates. intros ->.
  destruct (empty df); eexists; reflexivity.
Qed.

Lemma deduplicator_eq (columns : option (list string)) (path : string)
  (df : DataFrame) (w : World) :
  rectangular df ->
  deduplicator columns (cleaner path df w)
  = match apply_rows df
            (CSVCleaner.unique_id_of
               (match columns with
                | None => Pandas.columns df
                | Some cs => cs
                end)) with
    | Ok ids =>
        (Ok (setitem df "unique_id" ids),
         cleaner path (setitem df "unique_id" ids) w)
    | Raise e => (Raise e, cleaner path df w)
    end.
Proof.
  intros Hrect. unfold deduplicator, bind at 1.
  rewrite generate_uniqueID_eq.
  destruct (apply_rows df _) as [ids|e] eqn:Hids; [|reflexivity].
  rewrite check_duplicates_eq.
  assert (Hlen : List.length ids = len df)
    by (unfold apply_rows in Hids; now apply mapM_length in Hids).
  destruct (setitem_position "unique_id" ids Hrect Hlen) as (j & Hj & _).
  destruct (drop_duplicates_Ok _ _ Hj) as [out ->]. reflexivity.
Qed.

Lemma rectangular_setitem (df : DataFrame) (name : string)
  (vs : list value) :
  rectangular df -> rectangular (setitem df name vs).
Proof.
  unfold rectangular, setitem; simpl. intros H.
  apply Forall_map. apply Forall_forall. intros [r x] Hp; simpl.
  apply in_combine_l in Hp. rewrite Forall_forall in H.
  specialize (H r Hp).
  destruct (position name (columns df)) as [j|]; simpl.
  - rewrite <- H. clear. revert r.
    induction j as [|j IH]; intros [|y r]; simpl; auto.
  - rewrite !length_app; simpl. lia.
Qed.

(** C8, as amended.  With the key computed from an explicit selection of
    columns that leaves [unique_id] out, on a frame with one value per
    column in every row that has a text column or only integer columns,
    the stage run on its own outcome gives that outcome again: the same
    result and the same state. *)
Theorem deduplicator_idempotent_on_explicit_columns :
  forall (columns : list string) (path : string) (df : DataFrame) (w : World),
    ~ In "unique_id" columns ->
    rectangular df ->
    rows_keep_their_values df ->
    let once := deduplicator (Some columns) (cleaner path df w) in
    deduplicator (Some columns) (snd once) = once.
Proof.
  intros columns path df w Hsel Hrect Hkeep once. subst once.
  rewrite (deduplicator_eq (Some columns) path w Hrect).
  destruct (apply_rows df (CSVCleaner.unique_id_of columns)) as [ids|e] eqn:Hids;
    simpl.
  2: { rewrite (deduplicator_eq (Some columns) path w Hrect), Hids.
       reflexivity. }
  assert (Hlen : List.length ids = len df)
    by (unfold apply_rows in Hids; now apply mapM_length in Hids).
  rewrite (deduplicator_eq (Some columns) path w
             (rectangular_setitem "unique_id" ids Hrect)).
  assert (Hagain : apply_rows (setitem df "unique_id" ids)
                     (CSVCleaner.unique_id_of columns) = Ok ids).
  { rewrite <- Hids. unfold apply_rows.
    destruct (rows df) as [|r0 rs] eqn:Hrows.
    { unfold setitem; simpl. rewrite Hrows. reflexivity. }
    rewrite <- Hrows.
    assert (Htext : existsb is_Object (dtypes (setitem df "unique_id" ids))
                    = true).
    { apply setitem_has_text_column; try assumption.
      - intros ->. unfold len in Hlen. rewrite Hrows in Hlen. discriminate.
      - unfold apply_rows in Hids.
        apply (mapM_Forall _ _ _ (fun a b H => unique_id_of_text _ _ H) Hids). }
    unfold setitem at 3; simpl rows. rewrite mapM_map.
    rewrite <- (map_fst_combine (rows df) ids Hlen) at 2.
    rewrite mapM_map.
    apply mapM_ext_in. intros [r x] Hp; simpl.
    apply in_combine_l in Hp.
    rewrite (row_series_id r Hkeep).
    unfold row_series. rewrite Htext; simpl.
    apply unique_id_of_ext. intros c Hc.
    assert (Hne : c <> "unique_id") by (intros ->; contradiction).
    pose proof (setitem_position_other df ids Hne) as Hpos.
    unfold setitem in Hpos; simpl in Hpos. rewrite Hpos.
    destruct (position c (Pandas.columns df)) as [i|] eqn:Hi; [|reflexivity].
    f_equal. now apply (setitem_cell_other Hrect r x Hne Hi). }
  rewrite Hagain.
  now rewrite (setitem_again "unique_id" ids Hrect Hlen).
Qed.

Lemma deduplicator_idempotent_witness :
  ~ In "unique_id" ["x"]
  /\ rectangular one_text_cell
  /\ rows_keep_their_values one_text_cell
  /\ deduplicator (Some ["x"])
       (snd (deduplicator (Some ["x"])
               (cleaner "input_data.csv" one_text_cell (fun _ => None))))
     = deduplicator (Some ["x"])
         (cleaner "input_data.csv" one_text_cell (fun _ => None)).
Proof.
  assert (H1 : ~ In "unique_id" ["x"]) by (intros [H|[]]; discriminate).
  assert (H2 : rectangular one_text_cell) by (repeat constructor).
  assert (H3 : rows_keep_their_values one_text_cell) by reflexivity.
  split; [exact H1|]. split; [exact H2|]. split; [exact H3|].
  exact (@deduplicator_idempotent_on_explicit_columns
           ["x"] "input_data.csv" one_text_cell (fun _ => None) H1 H2 H3).
Defined.

(** C8, the claim as it stands fails: with the default selection (all
    columns) the second run hashes the [unique_id] column of the first
    run as well, and the key changes. *)
Lemma deduplicator_twice_changes_keys :
  let once :=
    deduplicator None (cleaner "input_data.csv" one_text_cell (fun _ => None)) in
  let twice := deduplicator None (snd once) in
  fst once
  = Ok (mkDataFrame ["x"; "unique_id"]
          [ [VStr "a"; VStr "0cc175b9c0f1b6a831c399e269772661"] ])
  /\ fst twice
     = Ok (mkDataFrame ["x"; "unique_id"]
             [ [VStr "a"; VStr "70ea9ebabd4ce97704da4d8df6dc2272"] ])
  /\ fst twice <> fst once.
Proof.
  split; [vm_compute; reflexivity|].
  split; [vm_compute; reflexivity|].
  vm_compute. discriminate.
Qed.

(** Why the amended statement asks for a text column or only integer
    columns: in a frame of an int64 and a float64 column a row comes out
    as floats on the first run ([1.0_2.5]) and, once the text column
    [unique_id] is there, with its own values on the second ([1_2.5]). *)
Example numeric_frame_changes_keys :
  let once :=
    deduplicator (Some ["a"; "b"])
      (cleaner "input_data.csv" int_and_float (fun _ => None)) in
  let twice := deduplicator (Some ["a"; "b"]) (snd once) in
  getitem_of (fst once) "unique_id"
  = Ok [VStr (MD5.hexdigest "1.0_2.5")]
  /\ getitem_of (fst twice) "unique_id"
     = Ok [VStr (MD5.hexdigest "1_2.5")]
  /\ MD5.hexdigest "1.0_2.5" <> MD5.hexdigest "1_2.5".
Proof.
  split; [vm_compute; reflexivity|].
  split; [vm_compute; reflexivity|].
  vm_compute. discriminate.
Qed.

(** ** Loader *)

Lemma na_field_no_numeral (s : string) :
  is_na_field s = true -> F64.parse s = None.
Proof.
  unfold is_na_field. intros H.
  apply existsb_exists in H. destruct H as (x & Hx & E).
  apply String.eqb_eq in E. subst x.
  assert (Hall : forallb (fun x => match F64.parse x with
                                   | None => true
                                   | Some _ => false
                                   end) na_values = true)
    by (vm_compute; reflexivity).
  rewrite forallb_forall in Hall. specialize (Hall s Hx).
  now destruct (F64.parse s).
Qed.

(** A field read at the dtype inferred for its column. *)
Lemma infer_reads_as (fields : list string) (s : string) :
  In s fields -> reads_as s (read_field (infer_dtype fields) s).
Proof.
  intros Hs. unfold infer_dtype, reads_as.
  destruct (forallb is_int_field fields) eqn:Hint.
  - rewrite forallb_forall in Hint. specialize (Hint s Hs).
    unfold is_int_field in Hint; simpl.
    destruct (F64.parse s) as [[z|f]|]; try discriminate.
    apply negb_true_iff in Hint. rewrite Hint.
    right. eexists. split; [reflexivity|now left].
  - destruct (forallb is_number_field fields) eqn:Hnum.
    + rewrite forallb_forall in Hnum. specialize (Hnum s Hs).
      unfold is_number_field, field_numeral in Hnum; simpl.
      unfold field_numeral.
      destruct (is_na_field s); [reflexivity|].
      destruct (F64.parse s) as [n|]; [|discriminate].
      right. eexists. split; [reflexivity|now right].
    + simpl. destruct (is_na_field s); [reflexivity|now left].
Qed.

Lemma length_pad_record (w : nat) (r : list string) :
  (List.length r <= w)%nat -> List.length (pad_record w r) = w.
Proof.
  intros H. unfold pad_record. rewrite length_app, repeat_length. lia.
Qed.

Lemma Forall2_read_record (P : string -> value -> Prop)
  (f : nat -> dtype) (r : list string) :
  forall a,
    (forall k, (k < List.length r)%nat ->
       P (nth k r "") (read_field (f (a + k)%nat) (nth k r ""))) ->
    Forall2 P r (read_record (map f (seq a (List.length r))) r).
Proof.
  induction r as [|s r IH]; intros a H; simpl.
  - constructor.
  - constructor.
    + specialize (H O). simpl in H. rewrite Nat.add_0_r in H. apply H. lia.
    + apply IH. intros k Hk.
      specialize (H (S k)). simpl in H.
      rewrite Nat.add_succ_r in H. apply H. lia.
Qed.

Lemma read_records (n : nat) (all rs : list (list string)) :
  (forall r, In r rs -> In r all) ->
  Forall (fun r => List.length r = n) rs ->
  Forall2 (Forall2 reads_as) rs
    (map (read_record
            (map (fun j => infer_dtype (fields_of j all)) (seq 0 n)))
         rs).
Proof.
  induction rs as [|r rs IH]; intros Hin Hlen; simpl; constructor.
  - inversion Hlen as [|? ? Hr _]; subst.
    apply Forall2_read_record. intros k Hk. simpl.
    apply infer_reads_as. unfold fields_of.
    apply (in_map (fun r => nth k r "")). apply Hin. now left.
  - apply IH; [|now inversion Hlen].
    intros r' Hr'. apply Hin. now right.
Qed.

Lemma too_long_None (w : nat) (records : list (list string)) :
  forall line,
    too_long w line records = None ->
    Forall (fun r => (List.length r <= w)%nat) records.
Proof.
  induction records as [|r records IH]; intros line; simpl; [constructor|].
  destruct (Nat.ltb_spec w (List.length r)) as [|Hr]; [discriminate|].
  intros Hrest. constructor; [exact Hr|now apply (IH (S line))].
Qed.

Lemma width_header (header : list string) (records : list (list string)) :
  (List.length header <= width header records)%nat.
Proof. unfold width. destruct records; lia. Qed.

Lemma length_data_fields (header : list string)
  (records : list (list string)) :
  too_long (width header records) 2 records = None ->
  Forall (fun r => List.length r = List.length header)
    (map (data_fields (List.length header) (width header records)) records).
Proof.
  intros Hlen. apply too_long_None in Hlen.
  apply Forall_map. revert Hlen. apply Forall_impl. intros r Hr.
  unfold data_fields. rewrite length_skipn, length_pad_record by exact Hr.
  pose proof (width_header header records). lia.
Qed.

(** What [parse_csv] makes of a file that has a header and no record
    that is too long: the header is the column list, and there is one
    row per record, in order, each value read from its field. *)
Lemma parse_csv_rows (header : list string) (records : list (list string)) :
  too_long (width header records) 2 records = None ->
  exists df,
    parse_csv (header :: records) = Ok df
    /\ columns df = header
    /\ Forall2 (Forall2 reads_as)
         (map (data_fields (List.length header) (width header records))
              records)
         (rows df).
Proof.
  intros Hlen. unfold parse_csv. rewrite Hlen.
  eexists. split; [reflexivity|]. split; [reflexivity|]. simpl.
  apply read_records; [auto|]. now apply length_data_fields.
Qed.

Lemma too_long_Some (w : nat) (records : list (list string)) (e : exn) :
  forall line,
    too_long w line records = Some e ->
    exists expected at_line saw, e = tokenizing_error expected at_line saw.
Proof.
  induction records as [|r records IH]; intros line; simpl; [discriminate|].
  destruct (w <? List.length r)%nat.
  - intros H. inversion H. now eexists; eexists; eexists.
  - apply IH.
Qed.

Lemma read_data_eq (path : string) (d : option DataFrame) (w : World) :
  CSVCleaner.read_data (mkState (CSVCleaner.mk path d) w)
  = match w path with
    | None =>
        (Raise (FileNotFoundError ("File not found: " ++ path)),
         mkState (CSVCleaner.mk path d) w)
    | Some f =>
        match parse_csv f with
        | Raise e => (Raise e, mkState (CSVCleaner.mk path d) w)
        | Ok df =>
            (if empty df
             then Raise (ValueError "The input CSV contains no data.")
             else Ok df,
             cleaner path df w)
        end
    end.
Proof.
  unfold CSVCleaner.read_data, bind, try_except, read_csv,
    CSVCleaner.get_file_path, CSVCleaner.set_data, CSVCleaner.get_data,
    raise, ret, cleaner; simpl.
  destruct (w path) as [f|]; simpl; [|reflexivity].
  destruct f as [|header records]; simpl; [reflexivity|].
  destruct (too_long _ 2 records) as [e|] eqn:Hlong; simpl.
  - destruct (too_long_Some _ _ _ Hlong) as (a & b & c & ->). reflexivity.
  - destruct (empty _); reflexivity.
Qed.

Lemma cell_read_record (ds : list dtype) (r : list string) (i : nat) :
  List.length ds = List.length r ->
  cell (read_record ds r) i
  = if (i <? List.length r)%nat
    then read_field (nth i ds Object) (nth i r "")
    else NaN.
Proof.
  unfold cell, read_record. revert r i.
  induction ds as [|d ds IH]; intros [|s r] [|i]; simpl; try discriminate;
    try reflexivity.
  intros H. apply IH. now inversion H.
Qed.

Lemma Forall2_map_self {A B} (P : A -> B -> Prop) (f : A -> B) (l : list A) :
  (forall a, In a l -> P a (f a)) -> Forall2 P l (map f l).
Proof.
  induction l as [|a l IH]; intros H; simpl; constructor.
  - apply H. now left.
  - apply IH. intros x Hx. apply H. now right.
Qed.

(** A column read at the dtype inferred for it. *)
Lemma read_field_column (fields : list string) :
  reads_column fields (map (read_field (infer_dtype fields)) fields).
Proof.
  unfold reads_column. apply Forall2_map_self. intros s Hs.
  unfold infer_dtype.
  destruct (forallb is_int_field fields) eqn:Hint.
  - assert (Hnum : forallb is_number_field fields = true).
    { apply forallb_forall. intros x Hx.
      rewrite forallb_forall in Hint. specialize (Hint x Hx).
      unfold is_int_field in Hint. unfold is_number_field, field_numeral.
      destruct (is_na_field x); [reflexivity|].
      destruct (F64.parse x) as [[z|f]|]; try discriminate; reflexivity. }
    rewrite Hnum.
    rewrite forallb_forall in Hint. specialize (Hint s Hs).
    unfold is_int_field in Hint. unfold read_field.
    destruct (F64.parse s) as [[z|f]|] eqn:Hp; try discriminate.
    apply negb_true_iff in Hint. rewrite Hint.
    eexists. split; reflexivity.
  - destruct (forallb is_number_field fields) eqn:Hnum.
    + rewrite forallb_forall in Hnum. specialize (Hnum s Hs).
      unfold is_number_field, field_numeral in Hnum.
      unfold read_field, field_numeral.
      destruct (is_na_field s); [reflexivity|].
      destruct (F64.parse s) as [n|]; [|discriminate].
      exists n. split; reflexivity.
    + unfold read_field. destruct (is_na_field s); reflexivity.
Qed.

(** The column [i] of the frame read from a file, by the fields of the
    column. *)
Lemma parse_csv_column (header : list string) (records : list (list string))
  (df : DataFrame) (i : nat) :
  parse_csv (header :: records) = Ok df ->
  (i < List.length header)%nat ->
  let fields :=
    map (data_fields (List.length header) (width header records)) records in
  map (fun r => cell r i) (rows df)
  = map (read_field (infer_dtype (fields_of i fields))) (fields_of i fields).
Proof.
  unfold parse_csv.
  destruct (too_long _ 2 records) eqn:Hlen; [discriminate|].
  intros H Hi. inversion H; subst df; clear H. cbv zeta. simpl rows.
  set (n := List.length header) in *.
  set (padded := map (data_fields n (width header records)) records).
  pose proof (length_data_fields header records Hlen) as Hpad.
  fold n in Hpad. fold padded in Hpad.
  rewrite map_map. unfold fields_of. rewrite map_map.
  apply map_ext_in. intros r Hr.
  rewrite Forall_forall in Hpad. specialize (Hpad r Hr).
  rewrite cell_read_record by (now rewrite length_map, length_seq).
  rewrite Hpad. apply Nat.ltb_lt in Hi. rewrite Hi.
  apply Nat.ltb_lt in Hi.
  rewrite (nth_indep _ Object (infer_dtype (fields_of 0 padded)))
    by (now rewrite length_map, length_seq).
  rewrite (map_nth (fun j => infer_dtype (fields_of j padded))).
  now rewrite seq_nth.
Qed.

(** C6, as amended.  [read_data] by the file behind the path: no file,
    [FileNotFoundError]; a file with nothing in it, pandas' own
    [EmptyDataError]; a record that is too long, the parser's error; a
    header and no record after it, the [ValueError] of the method, the
    object holding the empty frame; otherwise the frame, and the object
    holding it.  For a file with plain labels and plain fields, read at
    once, the frame has the header as columns and one row per record in
    order (nothing filtered), and the values are not left as text: in
    every column a missing marker is NaN, the other fields are the
    numbers they spell when the whole column is numeric (integers when
    every field is one, floats if not), and stay text only in a column
    with a field that is no number. *)
Theorem read_data_outcomes :
  forall (path : string) (d : option DataFrame) (w : World),
    let s := mkState (CSVCleaner.mk path d) w in
    match w path with
    | None =>
        CSVCleaner.read_data s
        = (Raise (FileNotFoundError ("File not found: " ++ path)), s)
    | Some [] =>
        CSVCleaner.read_data s
        = (Raise (EmptyDataError "No columns to parse from file"), s)
    | Some (header :: records) =>
        match too_long (width header records) 2 records with
        | Some e => CSVCleaner.read_data s = (Raise e, s)
        | None =>
            match records, header with
            | [], _ | _, [] =>
                exists df,
                  CSVCleaner.read_data s
                  = (Raise (ValueError "The input CSV contains no data."),
                     cleaner path df w)
            | _, _ =>
                plain_labels header ->
                plain_records records ->
                read_at_once header records ->
                exists df,
                  CSVCleaner.read_data s = (Ok df, cleaner path df w)
                  /\ columns df = header
                  /\ len df = List.length records
                  /\ (forall j, (j < List.length header)%nat ->
                        reads_column
                          (fields_of j
                             (map (data_fields (List.length header)
                                     (width header records)) records))
                          (map (fun r => cell r j) (rows df)))
            end
        end
    end.
Proof.
  intros path d w s. subst s. rewrite read_data_eq.
  destruct (w path) as [[|header records]|]; try reflexivity.
  destruct (too_long _ 2 records) eqn:Hlen.
  { unfold parse_csv. now rewrite Hlen. }
  destruct (parse_csv_rows header records Hlen) as (df & Hdf & Hcols & Hrows).
  apply Forall2_length in Hrows. rewrite length_map in Hrows.
  rewrite Hdf.
  assert (Hempty : empty df
                   = match records, header with
                     | [], _ | _, [] => true
                     | _, _ => false
                     end).
  { unfold empty. rewrite Hcols.
    destruct records, (rows df), header; simpl in *; try reflexivity;
      discriminate. }
  rewrite Hempty.
  destruct records as [|r records]; [exists df; reflexivity|].
  destruct header as [|c header]; [exists df; reflexivity|].
  intros _ _ _. exists df.
  split; [reflexivity|]. split; [exact Hcols|].
  split; [unfold len; now rewrite Hrows|].
  intros j Hj. rewrite (@parse_csv_column _ _ df j Hdf Hj).
  apply read_field_column.
Qed.

Lemma read_data_outcomes_witness :
  let w := only_file "input_data.csv" numbers_and_null in
  let header := ["customer_id"; "transaction_amount"] in
  let records := [ ["A1"; "20"]; ["NULL"; "35"] ] in
  plain_labels header
  /\ plain_records records
  /\ read_at_once header records
  /\ exists df,
      CSVCleaner.read_data
        (mkState (CSVCleaner.mk "input_data.csv" None) w)
      = (Ok df, cleaner "input_data.csv" df w)
      /\ columns df = header
      /\ len df = List.length records
      /\ (forall j, (j < List.length header)%nat ->
            reads_column
              (fields_of j
                 (map (data_fields (List.length header)
                         (width header records)) records))
              (map (fun r => cell r j) (rows df))).
Proof.
  intros w header records.
  assert (H1 : plain_labels header).
  { split.
    - repeat constructor; simpl; intuition discriminate.
    - simpl; intuition discriminate. }
  assert (H2 : plain_records records) by (repeat constructor).
  assert (H3 : read_at_once header records)
    by (unfold read_at_once; simpl; lia).
  split; [exact H1|]. split; [exact H2|]. split; [exact H3|].
  exact (@read_data_outcomes "input_data.csv" None w H1 H2 H3).
Defined.

(** C6, the claim as it stands fails: the values do not stay text.  The
    fields [20] and [35] come back as integers and the field [NULL] as
    the missing value. *)
Lemma read_data_infers_types :
  fst (CSVCleaner.read_data
         (mkState (CSVCleaner.init "input_data.csv")
                  (only_file "input_data.csv" numbers_and_null)))
  = Ok (mkDataFrame ["customer_id"; "transaction_amount"]
          [ [VStr "A1"; VInt 20]; [NaN; VInt 35] ])
  /\ VInt 20 <> VStr "20".
Proof.
  split; [vm_compute; reflexivity|discriminate].
Qed.

(** ** The cleaned file *)

Lemma bind_Ok {S A B} (m : M S A) (k : A -> M S B) (s s' : S) (b : B) :
  bind m k s = (Ok b, s') ->
  exists a s1, m s = (Ok a, s1) /\ k a s1 = (Ok b, s').
Proof.
  unfold bind. destruct (m s) as [[a|e] s1]; intros H.
  - now exists a, s1.
  - discriminate.
Qed.

Lemma remove_rows_eq (path : string) (df : DataFrame) (w : World) :
  CSVCleaner.remove_rows (cleaner path df w)
  = (Ok (dropna df), cleaner path (dropna df) w).
Proof. reflexivity. Qed.

Lemma convert_transaction_amount_eq (path : string) (df : DataFrame)
  (w : World) :
  CSVCleaner.convert_transaction_amount (cleaner path df w)
  = match getitem df "transaction_amount" with
    | Raise e => (Raise e, cleaner path df w)
    | Ok amounts =>
        match to_numeric amounts with
        | Raise e => (Raise e, cleaner path df w)
        | Ok numbers =>
            (Ok (setitem df "transaction_amount" numbers),
             cleaner path (setitem df "transaction_amount" numbers) w)
        end
    end.
Proof.
  unfold CSVCleaner.convert_transaction_amount, bind, lift,
    CSVCleaner.get_data, CSVCleaner.set_data, cleaner; simpl.
  destruct (getitem df "transaction_amount") as [amounts|]; [|reflexivity].
  destruct (to_numeric amounts); reflexivity.
Qed.

Lemma save_data_eq (output : string) (path : string) (df : DataFrame)
  (w : World) :
  CSVCleaner.save_data output (cleaner path df w)
  = (Ok df, cleaner path df (write_file w output (to_csv df))).
Proof. reflexivity. Qed.

Lemma write_file_same (w : World) (path : string) (f : csv) :
  write_file w path f path = Some f.
Proof. unfold write_file. now rewrite String.eqb_refl. Qed.

(** When the first half of the pipeline runs without an exception, the
    header of the cleaned file is the header of the input, taken as it
    is, with a [unique_id] label: its own if it has one, one more at the
    end if not. *)
Lemma cleaned_file_header :
  forall (input output : string) (w w' : World) (o : CSVCleaner.t),
    call (clean output) (CSVCleaner.init input) w = (Ok tt, o, w') ->
    exists header records body,
      w input = Some (header :: records)
      /\ w' output = Some (with_unique_id header :: body)
      /\ In "unique_id" (with_unique_id header).
Proof.
  intros input output w w' o H.
  unfold call in H.
  destruct (clean output (mkState (CSVCleaner.init input) w)) as [r s] eqn:E.
  inversion H; subst r o w'; clear H.
  unfold clean in E.
  apply bind_Ok in E. destruct E as (df0 & s0 & E0 & E).
  unfold CSVCleaner.init in E0. rewrite read_data_eq in E0.
  destruct (w input) as [[|header records]|] eqn:Hfile; try discriminate.
  destruct (parse_csv (header :: records)) as [df|] eqn:Hparse;
    [|discriminate].
  assert (Hcols : columns df = header).
  { unfold parse_csv in Hparse.
    destruct (too_long _ 2 records); inversion Hparse; reflexivity. }
  destruct (empty df); [discriminate|].
  inversion E0; subst df0 s0; clear E0.
  apply bind_Ok in E. destruct E as (df1 & s1 & E1 & E).
  rewrite remove_rows_eq in E1. inversion E1; subst df1 s1; clear E1.
  apply bind_Ok in E. destruct E as (df2 & s2 & E2 & E).
  rewrite generate_uniqueID_eq in E2.
  destruct (apply_rows (dropna df) _) as [ids|]; [|discriminate].
  inversion E2; subst df2 s2; clear E2.
  apply bind_Ok in E. destruct E as (df3 & s3 & E3 & E).
  rewrite check_duplicates_eq in E3.
  destruct (drop_duplicates _ "unique_id"); [|discriminate].
  inversion E3; subst df3 s3; clear E3.
  apply bind_Ok in E. destruct E as (df4 & s4 & E4 & E).
  rewrite convert_transaction_amount_eq in E4.
  destruct (getitem _ "transaction_amount") as [amounts|] eqn:Hget;
    [|discriminate].
  destruct (to_numeric amounts) as [numbers|]; [|discriminate].
  inversion E4; subst df4 s4; clear E4.
  apply bind_Ok in E. destruct E as (df5 & s5 & E5 & E).
  rewrite save_data_eq in E5. inversion E5; subst df5 s5; clear E5.
  inversion E; subst s; clear E. simpl.
  exists header, records. eexists. split; [reflexivity|].
  rewrite write_file_same. unfold to_csv.
  assert (Hhead :
            columns (setitem (setitem (dropna df) "unique_id" ids)
                       "transaction_amount" numbers)
            = with_unique_id header).
  { unfold getitem in Hget.
    destruct (position "transaction_amount"
                (columns (setitem (dropna df) "unique_id" ids))) as [i|] eqn:Hi;
      [|discriminate].
    rewrite (columns_setitem_present _ _ numbers Hi).
    unfold setitem, with_unique_id; simpl. now rewrite Hcols. }
  rewrite Hhead. split; [reflexivity|].
  unfold with_unique_id.
  destruct (position "unique_id" header) as [j|] eqn:Hj.
  - now apply position_Some_In in Hj.
  - apply in_or_app. right. now left.
Qed.

(** C4, as amended.  When the first half of the pipeline runs without an
    exception on a file with plain labels, the cleaned file has the
    columns of the input file and a [unique_id] column: the input's own
    if it has a column of that name, one more at the end if not. *)
Theorem cleaned_file_schema :
  forall (input output : string) (w w' : World) (o : CSVCleaner.t)
         (header : list string) (records : list (list string)),
    w input = Some (header :: records) ->
    plain_labels header ->
    call (clean output) (CSVCleaner.init input) w = (Ok tt, o, w') ->
    exists body,
      w' output = Some (with_unique_id header :: body)
      /\ In "unique_id" (with_unique_id header).
Proof.
  intros input output w w' o header records Hf _ H.
  destruct (cleaned_file_header _ _ _ H)
    as (h & rs & body & Hf' & Hout & Hin).
  rewrite Hf in Hf'. inversion Hf'; subst h rs.
  exists body. split; assumption.
Qed.

Lemma cleaned_file_schema_witness :
  let w := only_file "input_data.csv" repeated_transaction in
  let run :=
    call (clean "cleaned_data.csv") (CSVCleaner.init "input_data.csv") w in
  let header := ["customer_id"; "transaction_amount"] in
  w "input_data.csv" = Some (header :: [ ["A1"; "5"]; ["A1"; "5"] ])
  /\ plain_labels header
  /\ run = (Ok tt, snd (fst run), snd run)
  /\ exists body,
      snd run "cleaned_data.csv" = Some (with_unique_id header :: body)
      /\ In "unique_id" (with_unique_id header).
Proof.
  intros w run header.
  assert (H1 : w "input_data.csv"
               = Some (header :: [ ["A1"; "5"]; ["A1"; "5"] ]))
    by reflexivity.
  assert (H2 : plain_labels header).
  { split.
    - repeat constructor; simpl; intuition discriminate.
    - simpl; intuition discriminate. }
  assert (H3 : run = (Ok tt, snd (fst run), snd run))
    by (vm_compute; reflexivity).
  split; [exact H1|]. split; [exact H2|]. split; [exact H3|].
  exact (@cleaned_file_schema "input_data.csv" "cleaned_data.csv" w
           (snd run) (snd (fst run)) header _ H1 H2 H3).
Defined.

(** C4, the claim as it stands fails: the cleaned file of an input with
    the columns [customer_id] and [transaction_amount] has a third
    column, [unique_id]. *)
Lemma cleaned_file_has_unique_id :
  snd (main (only_file "input_data.csv" repeated_transaction))
    "cleaned_data.csv"
  = Some [ ["customer_id"; "transaction_amount"; "unique_id"];
           ["A1"; "5"; "4400a4e744f65f8eb2a355308c0e40cb"];
           ["A1"; "5"; "4400a4e744f65f8eb2a355308c0e40cb"] ]
  /\ ["customer_id"; "transaction_amount"; "unique_id"]
     <> ["customer_id"; "transaction_amount"].
Proof.
  split; [vm_compute; reflexivity|discriminate].
Qed.

(** ** Order of the group keys *)

Lemma ascii_compare_refl (a : ascii) : Ascii.compare a a = Eq.
Proof. unfold Ascii.compare. apply N.compare_refl. Qed.

Lemma ascii_compare_lt_trans (a b c : ascii) :
  Ascii.compare a b = Lt -> Ascii.compare b c = Lt -> Ascii.compare a c = Lt.
Proof.
  unfold Ascii.compare. rewrite !N.compare_lt_iff. apply N.lt_trans.
Qed.

Lemma string_compare_refl (s : string) : String.compare s s = Eq.
Proof.
  induction s as [|a s IH]; simpl; [reflexivity|].
  now rewrite ascii_compare_refl.
Qed.

Lemma string_compare_lt_trans (s t u : string) :
  String.compare s t = Lt -> String.compare t u = Lt ->
  String.compare s u = Lt.
Proof.
  revert t u. induction s as [|a s IH]; intros [|b t] [|c u]; simpl;
    try discriminate; try reflexivity.
  destruct (Ascii.compare a b) eqn:Hab; try discriminate.
  - apply Ascii.compare_eq_iff in Hab. subst b.
    destruct (Ascii.compare a c); try discriminate; [|reflexivity].
    apply IH.
  - intros _. destruct (Ascii.compare b c) eqn:Hbc; try discriminate.
    + apply Ascii.compare_eq_iff in Hbc. subst c. now rewrite Hab.
    + intros _. now rewrite (ascii_compare_lt_trans _ _ _ Hab Hbc).
Qed.

Lemma SFcompare_antisym (f g : spec_float) :
  F64.is_nan f = false -> F64.is_nan g = false ->
  exists c, SFcompare f g = Some c /\ SFcompare g f = Some (CompOpp c).
Proof.
  destruct f as [sf|sf| |sf mf ef], g as [sg|sg| |sg mg eg]; simpl;
    try discriminate; intros _ _;
    try (destruct sf); try (destruct sg); simpl;
    try (eexists; split; reflexivity).
  - exists (match Z.compare ef eg with
            | Lt => Gt | Gt => Lt
            | Eq => CompOpp (Pos.compare_cont Eq mf mg)
            end).
    split; [reflexivity|].
    rewrite (Z.compare_antisym ef eg).
    change (Pos.compare_cont Eq mg mf) with (Pos.compare mg mf).
    change (Pos.compare_cont Eq mf mg) with (Pos.compare mf mg).
    rewrite (Pos.compare_antisym mf mg).
    destruct (Z.compare ef eg); reflexivity.
  - exists (match Z.compare ef eg with
            | Lt => Lt | Gt => Gt
            | Eq => Pos.compare_cont Eq mf mg
            end).
    split; [reflexivity|].
    rewrite (Z.compare_antisym ef eg).
    change (Pos.compare_cont Eq mg mf) with (Pos.compare mg mf).
    change (Pos.compare_cont Eq mf mg) with (Pos.compare mf mg).
    rewrite (Pos.compare_antisym mf mg).
    destruct (Z.compare ef eg); reflexivity.
Qed.

Ltac order_cases :=
  repeat match goal with
    | H : context [Z.compare ?a ?b] |- _ =>
        destruct (Z.compare_spec a b); try discriminate H
    | |- context [Z.compare ?a ?b] =>
        destruct (Z.compare_spec a b)
    | H : context [Pos.compare ?a ?b] |- _ =>
        destruct (Pos.compare_spec a b); try discriminate H
    | |- context [Pos.compare ?a ?b] =>
        destruct (Pos.compare_spec a b)
    end;
  subst; simpl in *; try reflexivity; try discriminate; try lia.

Lemma SFcompare_lt_trans (f g h : spec_float) :
  SFcompare f g = Some Lt -> SFcompare g h = Some Lt ->
  SFcompare f h = Some Lt.
Proof.
  destruct f as [sf|sf| |sf mf ef], g as [sg|sg| |sg mg eg],
    h as [sh|sh| |sh mh eh]; simpl; try discriminate;
    try (destruct sf); try (destruct sg); try (destruct sh); simpl;
    try discriminate; try reflexivity;
    change (Pos.compare_cont Eq) with Pos.compare;
    intros H1 H2; inversion H1 as [H1']; inversion H2 as [H2'];
    clear H1 H2; f_equal; order_cases.
Qed.

Section SortedKeys.

(** The kind of the keys of one column, with the three facts about the
    order on that kind that sorting needs. *)
Variable K : value -> Prop.

Hypothesis K_trans :
  forall a b c, K a -> K b -> K c ->
    value_lt a b -> value_lt b c -> value_lt a c.

Hypothesis K_total :
  forall a b, K a -> K b ->
    value_eqb a b = false -> value_ltb a b = false -> value_lt b a.

Hypothesis K_distinct :
  forall a b, K a -> K b -> value_lt a b -> value_eqb a b = false.

Hypothesis K_refl : forall a, K a -> value_eqb a a = true.

Lemma insert_key_In (k x : value) (ks : list value) :
  In x (insert_key k ks) -> x = k \/ In x ks.
Proof.
  induction ks as [|k' ks IH]; simpl.
  - intros [<-|[]]. now left.
  - destruct (value_eqb k k'); [now right|].
    destruct (value_ltb k k'); simpl.
    + intros [<-|H]; [now left|now right].
    + intros [<-|H]; [right; now left|].
      destruct (IH H); [now left|right; now right].
Qed.

Lemma insert_key_keeps (k x : value) (ks : list value) :
  In x ks -> In x (insert_key k ks).
Proof.
  induction ks as [|k' ks IH]; simpl; [tauto|].
  destruct (value_eqb k k'); [auto|].
  destruct (value_ltb k k'); simpl; [auto|].
  intros [<-|H]; [now left|right; now apply IH].
Qed.

Lemma insert_key_found (k : value) (ks : list value) :
  K k -> exists k', In k' (insert_key k ks) /\ value_eqb k k' = true.
Proof.
  intros Hk. induction ks as [|k' ks IH]; simpl.
  - exists k. split; [now left|now apply K_refl].
  - destruct (value_eqb k k') eqn:E.
    + exists k'. split; [now left|exact E].
    + destruct (value_ltb k k'); simpl.
      * exists k. split; [now left|now apply K_refl].
      * destruct IH as (x & Hx & Ex). exists x. split; [now right|exact Ex].
Qed.

Lemma insert_key_kind (k : value) (ks : list value) :
  K k -> Forall K ks -> Forall K (insert_key k ks).
Proof.
  intros Hk Hks. apply Forall_forall. intros x Hx.
  destruct (insert_key_In _ _ _ Hx) as [->|H]; [exact Hk|].
  rewrite Forall_forall in Hks. now apply Hks.
Qed.

Lemma insert_key_sorted (k : value) (ks : list value) :
  K k -> Forall K ks ->
  StronglySorted value_lt ks -> StronglySorted value_lt (insert_key k ks).
Proof.
  intros Hk. induction ks as [|k' ks IH]; simpl; intros Hks Hs.
  - repeat constructor.
  - inversion Hks as [|? ? Hk' Hks']; subst.
    inversion Hs as [|? ? Hs' Hall]; subst.
    destruct (value_eqb k k') eqn:E; [exact Hs|].
    destruct (value_ltb k k') eqn:L.
    + constructor; [exact Hs|]. constructor; [exact L|].
      rewrite Forall_forall in Hall, Hks' |- *. intros x Hx.
      apply (K_trans Hk Hk' (Hks' x Hx) L (Hall x Hx)).
    + constructor; [now apply IH|].
      apply Forall_forall. intros x Hx.
      destruct (insert_key_In _ _ _ Hx) as [->|H].
      * now apply K_total.
      * rewrite Forall_forall in Hall. now apply Hall.
Qed.

(** The keys gathered from a list, on top of those gathered so far. *)
Lemma fold_insert_key (l acc : list value) :
  Forall K l -> Forall K acc -> StronglySorted value_lt acc ->
  let out := fold_left (fun acc k => insert_key k acc) l acc in
  Forall K out
  /\ StronglySorted value_lt out
  /\ (forall x, In x out -> In x acc \/ In x l)
  /\ (forall x, In x acc -> In x out)
  /\ (forall k, In k l -> exists k', In k' out /\ value_eqb k k' = true).
Proof.
  revert acc. induction l as [|k l IH]; intros acc Hl Hacc Hs; simpl.
  - repeat split; auto. intros k [].
  - inversion Hl as [|? ? Hk Hl']; subst.
    destruct (IH (insert_key k acc) Hl' (insert_key_kind Hk Hacc)
                (insert_key_sorted Hk Hacc Hs))
      as (H1 & H2 & H3 & H4 & H5).
    repeat split; auto.
    + intros x Hx. destruct (H3 x Hx) as [H|H]; [|right; now right].
      destruct (insert_key_In _ _ _ H) as [->|H']; [right; now left|now left].
    + intros x Hx. apply H4. now apply insert_key_keeps.
    + intros k0 [<-|Hk0]; [|now apply H5].
      destruct (insert_key_found acc Hk) as (k' & Hk' & E).
      exists k'. split; [now apply H4|exact E].
Qed.

Lemma sorted_distinct (ks : list value) :
  Forall K ks -> StronglySorted value_lt ks ->
  StronglySorted (fun a b => value_eqb a b = false) ks.
Proof.
  induction ks as [|k ks IH]; intros Hk Hs; [constructor|].
  inversion Hk; inversion Hs; subst.
  constructor; [now apply IH|].
  rewrite Forall_forall in *. intros x Hx. apply K_distinct; auto.
Qed.

End SortedKeys.


Lemma text_key_trans (a b c : value) :
  text_key a -> text_key b -> text_key c ->
  value_lt a b -> value_lt b c -> value_lt a c.
Proof.
  intros [s ->] [t ->] [u ->]. unfold value_lt; simpl. unfold String.ltb.
  destruct (String.compare s t) eqn:H1; try discriminate.
  destruct (String.compare t u) eqn:H2; try discriminate.
  now rewrite (string_compare_lt_trans _ _ _ H1 H2).
Qed.

Lemma text_key_total (a b : value) :
  text_key a -> text_key b ->
  value_eqb a b = false -> value_ltb a b = false -> value_lt b a.
Proof.
  intros [s ->] [t ->]. unfold value_lt; simpl. unfold String.ltb.
  rewrite (String.compare_antisym t s).
  destruct (String.compare s t) eqn:H; simpl; try discriminate; try reflexivity.
  apply String.compare_eq_iff in H. subst t.
  now rewrite String.eqb_refl.
Qed.

Lemma text_key_distinct (a b : value) :
  text_key a -> text_key b -> value_lt a b -> value_eqb a b = false.
Proof.
  intros [s ->] [t ->]. unfold value_lt; simpl. unfold String.ltb.
  destruct (String.eqb_spec s t) as [->|]; [|reflexivity].
  now rewrite string_compare_refl.
Qed.

Lemma text_key_refl (a : value) : text_key a -> value_eqb a a = true.
Proof. intros [s ->]. apply String.eqb_refl. Qed.

Lemma int_key_trans (a b c : value) :
  int_key a -> int_key b -> int_key c ->
  value_lt a b -> value_lt b c -> value_lt a c.
Proof.
  intros [x ->] [y ->] [z ->]. unfold value_lt; simpl.
  rewrite !Z.ltb_lt. lia.
Qed.

Lemma int_key_total (a b : value) :
  int_key a -> int_key b ->
  value_eqb a b = false -> value_ltb a b = false -> value_lt b a.
Proof.
  intros [x ->] [y ->]. unfold value_lt; simpl.
  rewrite Z.eqb_neq, Z.ltb_ge, Z.ltb_lt. lia.
Qed.

Lemma int_key_distinct (a b : value) :
  int_key a -> int_key b -> value_lt a b -> value_eqb a b = false.
Proof.
  intros [x ->] [y ->]. unfold value_lt; simpl.
  rewrite Z.ltb_lt, Z.eqb_neq. lia.
Qed.

Lemma int_key_refl (a : value) : int_key a -> value_eqb a a = true.
Proof. intros [x ->]. apply Z.eqb_refl. Qed.

Lemma float_key_trans (a b c : value) :
  float_key a -> float_key b -> float_key c ->
  value_lt a b -> value_lt b c -> value_lt a c.
Proof.
  intros (f & -> & _) (g & -> & _) (h & -> & _).
  unfold value_lt; simpl. unfold F64.ltb, SFltb.
  destruct (SFcompare f g) as [[]|] eqn:H1; try discriminate.
  destruct (SFcompare g h) as [[]|] eqn:H2; try discriminate.
  now rewrite (SFcompare_lt_trans _ _ _ H1 H2).
Qed.

Lemma float_key_total (a b : value) :
  float_key a -> float_key b ->
  value_eqb a b = false -> value_ltb a b = false -> value_lt b a.
Proof.
  intros (f & -> & Hf) (g & -> & Hg).
  unfold value_lt; simpl. rewrite Hf; simpl.
  unfold F64.eqb, F64.ltb, SFeqb, SFltb.
  destruct (SFcompare_antisym f g Hf Hg) as (c & -> & ->).
  destruct c; simpl; try discriminate; reflexivity.
Qed.

Lemma float_key_distinct (a b : value) :
  float_key a -> float_key b -> value_lt a b -> value_eqb a b = false.
Proof.
  intros (f & -> & Hf) (g & -> & Hg).
  unfold value_lt; simpl. rewrite Hf; simpl.
  unfold F64.eqb, F64.ltb, SFeqb, SFltb.
  destruct (SFcompare f g) as [[]|]; try discriminate; reflexivity.
Qed.

Lemma float_key_refl (a : value) : float_key a -> value_eqb a a = true.
Proof.
  intros (f & -> & Hf). simpl. rewrite Hf; simpl.
  unfold F64.eqb, SFeqb.
  destruct (SFcompare_antisym f f Hf Hf) as (c & H1 & H2).
  rewrite H1 in H2 |- *. inversion H2 as [Hc].
  destruct c; try discriminate; reflexivity.
Qed.

(** The keys present in a column of one kind are of one kind of key. *)
Lemma homogeneous_keys (ks : list value) :
  homogeneous ks ->
  Forall text_key (filter notna ks)
  \/ Forall int_key (filter notna ks)
  \/ Forall float_key (filter notna ks).
Proof.
  intros [H|[H|H]]; [right; left|right; right|left];
    apply Forall_forall; intros x Hx; apply filter_In in Hx;
    destruct Hx as [Hin Hna]; rewrite Forall_forall in H;
    specialize (H x Hin); unfold notna in Hna;
    apply negb_true_iff in Hna.
  - destruct x; try discriminate. now eexists.
  - destruct x as [s|z|f]; try discriminate. exists f. now split.
  - destruct x as [s|z|f]; simpl in *; try congruence. now eexists.
Qed.

(** The group keys of a column of one kind: strictly ascending, so
    pairwise different; each is a value of the column that is present;
    and each value of the column that is present has its key. *)
Lemma group_keys_spec (ks : list value) :
  homogeneous ks ->
  StronglySorted value_lt (group_keys ks)
  /\ StronglySorted (fun a b => value_eqb a b = false) (group_keys ks)
  /\ (forall k, In k (group_keys ks) -> In k ks /\ isna k = false)
  /\ (forall k, In k ks -> isna k = false ->
        exists k', In k' (group_keys ks) /\ value_eqb k k' = true).
Proof.
  intros Hh. unfold group_keys.
  assert (Hin : forall x, In x (filter notna ks) <-> In x ks /\ isna x = false).
  { intros x. rewrite filter_In. unfold notna. now rewrite negb_true_iff. }
  assert (Hgen : forall K : value -> Prop,
             (forall a b c, K a -> K b -> K c ->
                value_lt a b -> value_lt b c -> value_lt a c) ->
             (forall a b, K a -> K b -> value_eqb a b = false ->
                value_ltb a b = false -> value_lt b a) ->
             (forall a b, K a -> K b -> value_lt a b -> value_eqb a b = false) ->
             (forall a, K a -> value_eqb a a = true) ->
             Forall K (filter notna ks) ->
             let out := fold_left (fun acc k => insert_key k acc)
                          (filter notna ks) [] in
             StronglySorted value_lt out
             /\ StronglySorted (fun a b => value_eqb a b = false) out
             /\ (forall k, In k out -> In k ks /\ isna k = false)
             /\ (forall k, In k ks -> isna k = false ->
                   exists k', In k' out /\ value_eqb k k' = true)).
  { intros K T1 T2 T3 T4 HK out.
    destruct (fold_insert_key T1 T2 T4 HK (Forall_nil K)
                (SSorted_nil value_lt))
      as (H1 & H2 & H3 & _ & H5).
    fold out in H1, H2, H3, H5.
    split; [exact H2|]. split; [now apply (sorted_distinct T3)|].
    split.
    - intros k Hk. apply Hin. destruct (H3 k Hk) as [[]|H]; exact H.
    - intros k Hk Hna. apply H5. now apply Hin. }
  destruct (homogeneous_keys Hh) as [H|[H|H]].
  - exact (Hgen text_key text_key_trans text_key_total text_key_distinct
             text_key_refl H).
  - exact (Hgen int_key int_key_trans int_key_total int_key_distinct
             int_key_refl H).
  - exact (Hgen float_key float_key_trans float_key_total float_key_distinct
             float_key_refl H).
Qed.

(** ** Aggregator *)

Lemma sum_object_text (vs : list value) :
  Forall (fun v => text_or_missing v = true) vs ->
  forall acc,
    (acc = None \/ exists s, acc = Some (VStr s)) ->
    exists t, sum_object acc vs = Ok t.
Proof.
  induction 1 as [|v vs Hv _ IH]; intros acc Hacc; simpl.
  - eexists. reflexivity.
  - destruct (isna v) eqn:Hna; [now apply IH|].
    destruct v as [s|z|f]; simpl in Hv, Hna; try congruence.
    destruct Hacc as [->|[a ->]]; simpl; apply IH; right; eexists;
      reflexivity.
Qed.

Lemma Forall_true_forallb {A} (p : A -> bool) (l : list A) :
  Forall (fun x => p x = true) l -> forallb p l = true.
Proof. intros H. apply forallb_forall. now apply Forall_forall. Qed.

Lemma dtype_of_Object (vs : list value) :
  homogeneous vs -> dtype_of vs = Object ->
  Forall (fun v => text_or_missing v = true) vs.
Proof.
  unfold dtype_of. intros [H|[H|H]]; [| |auto].
  - apply Forall_true_forallb in H. now rewrite H.
  - apply Forall_true_forallb in H.
    rewrite H. destruct (forallb is_int vs); discriminate.
Qed.

(** The sum of a group of a column of one kind does not raise. *)
Lemma group_sum_Ok (column vs : list value) :
  homogeneous column -> incl vs column ->
  exists t, group_sum (dtype_of column) vs = Ok t.
Proof.
  intros Hh Hincl. destruct (dtype_of column) eqn:Hd; simpl;
    try (eexists; reflexivity).
  apply sum_object_text; [|now left].
  pose proof (dtype_of_Object Hh Hd) as Htext.
  rewrite Forall_forall in Htext |- *.
  intros v Hv. apply Htext. now apply Hincl.
Qed.

Lemma group_values_incl (i j : nat) (k : value) (rs : list (list value)) :
  incl (group_values i j k rs) (map (fun r => cell r j) rs).
Proof.
  unfold group_values. intros v Hv.
  apply in_map_iff in Hv. destruct Hv as (r & <- & Hr).
  apply filter_In in Hr. apply (in_map (fun r => cell r j)). apply Hr.
Qed.

Lemma mapM_rows (g : value -> result value) (keys : list value) :
  (forall k, In k keys -> exists t, g k = Ok t) ->
  exists totals,
    mapM (fun k => (t <- g k ;; Ok [k; t])%result) keys
    = Ok (map (fun kt => [fst kt; snd kt]) (combine keys totals))
    /\ Forall2 (fun k t => g k = Ok t) keys totals.
Proof.
  induction keys as [|k keys IH]; intros H; simpl.
  - exists []. split; [reflexivity|constructor].
  - destruct (H k (or_introl eq_refl)) as [t Ht].
    destruct IH as (totals & E & F).
    { intros k' Hk'. apply H. now right. }
    exists (t :: totals). rewrite Ht; simpl. rewrite E; simpl.
    split; [reflexivity|now constructor].
Qed.

(** [groupby_sum] on a frame whose key and amount columns are of one
    kind each: one row per group key, the key and the sum of the group. *)
Lemma groupby_sum_spec (df : DataFrame) (key col : string) (i j : nat) :
  position key (columns df) = Some i ->
  position col (columns df) = Some j ->
  homogeneous (map (fun r => cell r j) (rows df)) ->
  let keys := group_keys (map (fun r => cell r i) (rows df)) in
  exists totals,
    groupby_sum df key col
    = Ok (mkDataFrame [key; col]
            (map (fun kt => [fst kt; snd kt]) (combine keys totals)))
    /\ Forall2 (fun k t =>
                  group_sum (col_dtype df j) (group_values i j k (rows df))
                  = Ok t) keys totals.
Proof.
  intros Hi Hj Hh keys. unfold groupby_sum. rewrite Hi, Hj.
  destruct (mapM_rows
              (fun k => group_sum (col_dtype df j)
                          (group_values i j k (rows df))) keys)
    as (totals & E & F).
  { intros k _. apply group_sum_Ok; [exact Hh|apply group_values_incl]. }
  exists totals. fold keys. rewrite E. now split.
Qed.

Lemma read_field_kind (fields : list string) :
  homogeneous (map (read_field (infer_dtype fields)) fields).
Proof.
  unfold infer_dtype, homogeneous.
  destruct (forallb is_int_field fields) eqn:Hint.
  - left. apply Forall_map. apply Forall_forall. intros s Hs.
    rewrite forallb_forall in Hint. specialize (Hint s Hs).
    unfold is_int_field in Hint; simpl.
    destruct (F64.parse s) as [[z|f]|]; try discriminate. reflexivity.
  - destruct (forallb is_number_field fields) eqn:Hnum.
    + right. left. apply Forall_map. apply Forall_forall. intros s Hs; simpl.
      destruct (field_numeral s) as [[z|f]|]; reflexivity.
    + right. right. apply Forall_map. apply Forall_forall. intros s Hs; simpl.
      destruct (is_na_field s); reflexivity.
Qed.

(** Every column of a frame read from a file is of one kind. *)
Lemma parse_csv_typed (f : csv) (df : DataFrame) :
  parse_csv f = Ok df -> typed df.
Proof.
  destruct f as [|header records]; simpl; [discriminate|].
  destruct (too_long _ 2 records) eqn:Hlen; [discriminate|].
  intros H. inversion H; subst df; clear H. intros i. simpl.
  set (n := List.length header).
  set (padded := map (data_fields n (width header records)) records).
  pose proof (length_data_fields header records Hlen) as Hpad.
  fold n in Hpad. fold padded in Hpad.
  rewrite map_map.
  destruct (Nat.ltb_spec i n) as [Hi|Hi].
  - assert (E : map (fun r => cell (read_record
                        (map (fun j => infer_dtype (fields_of j padded))
                             (seq 0 n)) r) i) padded
                = map (read_field (infer_dtype (fields_of i padded)))
                    (fields_of i padded)).
    { unfold fields_of. rewrite map_map. apply map_ext_in. intros r Hr.
      rewrite Forall_forall in Hpad. specialize (Hpad r Hr).
      rewrite cell_read_record by (now rewrite length_map, length_seq).
      rewrite Hpad. apply Nat.ltb_lt in Hi. rewrite Hi.
      apply Nat.ltb_lt in Hi.
      rewrite (nth_indep _ Object (infer_dtype (fields_of 0 padded)))
        by (now rewrite length_map, length_seq).
      rewrite (map_nth (fun j => infer_dtype (fields_of j padded))).
      now rewrite seq_nth. }
    rewrite E. apply read_field_kind.
  - right. left. apply Forall_map. apply Forall_forall. intros r Hr.
    rewrite Forall_forall in Hpad. specialize (Hpad r Hr).
    rewrite cell_read_record by (now rewrite length_map, length_seq).
    rewrite Hpad. apply Nat.ltb_ge in Hi. now rewrite Hi.
Qed.

Lemma init_typed (path : string) (w : World) (t : Transformations.t) :
  Transformations.init path w = Ok t ->
  Transformations.file_path t = path /\ typed (Transformations.data t).
Proof.
  unfold Transformations.init, read_csv; simpl.
  destruct (w path) as [f|]; [|discriminate].
  destruct (parse_csv f) as [df|] eqn:Hf; [|discriminate].
  intros H. inversion H; subst t; simpl.
  split; [reflexivity|]. now apply (parse_csv_typed f).
Qed.

Lemma group_by_customer_id_eq (t : Transformations.t) (w : World) :
  Transformations.group_by_customer_id (mkState t w)
  = match groupby_sum (Transformations.data t)
            "customer_id" "transaction_amount" with
    | Ok g =>
        let out :=
          rename g "transaction_amount" "total_transaction_amount" in
        (Ok out, mkState (Transformations.mk (Transformations.file_path t) out) w)
    | Raise e => (Raise e, mkState t w)
    end.
Proof.
  unfold Transformations.group_by_customer_id, bind, lift,
    Transformations.get_data, Transformations.set_data; simpl.
  destruct (groupby_sum _ _ _); reflexivity.
Qed.

Lemma getitem_position (df : DataFrame) (name : string) (i : nat) :
  position name (columns df) = Some i ->
  getitem df name = Ok (map (fun r => cell r i) (rows df)).
Proof. unfold getitem. now intros ->. Qed.

(** What [group_by_customer_id] does on an object made from a file that
    has the two columns. *)
Lemma group_by_customer_id_spec (path : string) (w : World)
  (t : Transformations.t) :
  Transformations.init path w = Ok t ->
  In "customer_id" (columns (Transformations.data t)) ->
  In "transaction_amount" (columns (Transformations.data t)) ->
  exists ids keys totals,
    getitem (Transformations.data t) "customer_id" = Ok ids
    /\ keys = group_keys ids
    /\ homogeneous ids
    /\ List.length totals = List.length keys
    /\ Transformations.group_by_customer_id (mkState t w)
       = (Ok (mkDataFrame ["customer_id"; "total_transaction_amount"]
                (map (fun kt => [fst kt; snd kt]) (combine keys totals))),
          mkState
            (Transformations.mk path
               (mkDataFrame ["customer_id"; "total_transaction_amount"]
                  (map (fun kt => [fst kt; snd kt]) (combine keys totals))))
            w).
Proof.
  intros Hinit Hkey Hcol.
  destruct (init_typed _ _ Hinit) as [Hpath Htyped].
  destruct (position_In _ _ Hkey) as [i Hi].
  destruct (position_In _ _ Hcol) as [j Hj].
  destruct (groupby_sum_spec _ _ _ Hi Hj (Htyped j)) as (totals & E & F).
  exists (map (fun r => cell r i) (rows (Transformations.data t))).
  exists (group_keys (map (fun r => cell r i) (rows (Transformations.data t)))).
  exists totals.
  split; [now apply getitem_position|]. split; [reflexivity|].
  split; [apply Htyped|].
  split; [symmetry; now apply (Forall2_length F)|].
  rewrite group_by_customer_id_eq, E, Hpath. reflexivity.
Qed.

(** C9, as amended.  On a [Transformations] object made from a file that
    has the columns [customer_id] and [transaction_amount], the outcome of
    [group_by_customer_id] has exactly the columns [customer_id] and
    [total_transaction_amount] and one row, a key and a total, for each
    distinct key that is present: the keys of the rows are pairwise
    different, each is a present value of the key column, and every
    present value of the key column is equal to one of them.  Rows whose
    key is missing are in no group. *)
Theorem group_by_customer_id_shape :
  forall (path : string) (w : World) (t : Transformations.t),
    Transformations.init path w = Ok t ->
    In "customer_id" (columns (Transformations.data t)) ->
    In "transaction_amount" (columns (Transformations.data t)) ->
    exists ids keys totals,
      getitem (Transformations.data t) "customer_id" = Ok ids
      /\ Transformations.group_by_customer_id (mkState t w)
         = (Ok (mkDataFrame ["customer_id"; "total_transaction_amount"]
                  (map (fun kt => [fst kt; snd kt]) (combine keys totals))),
            mkState
              (Transformations.mk path
                 (mkDataFrame ["customer_id"; "total_transaction_amount"]
                    (map (fun kt => [fst kt; snd kt]) (combine keys totals))))
              w)
      /\ List.length totals = List.length keys
      /\ StronglySorted (fun a b => value_eqb a b = false) keys
      /\ (forall k, In k keys -> In k ids /\ isna k = false)
      /\ (forall k, In k ids -> isna k = false ->
            exists k', In k' keys /\ value_eqb k k' = true).
Proof.
  intros path w t Hinit Hkey Hcol.
  destruct (@group_by_customer_id_spec path w t Hinit Hkey Hcol)
    as (ids & keys & totals & Hids & -> & Hh & Hlen & Hrun).
  destruct (group_keys_spec Hh) as (_ & Hdistinct & Hfrom & Hall).
  exists ids, (group_keys ids), totals. repeat split; try assumption;
    now apply Hfrom.
Qed.

Lemma group_by_customer_id_shape_witness :
  let w := only_file "cleaned_data.csv" three_transactions in
  let t := transformations_of three_transactions in
  Transformations.init "cleaned_data.csv" w = Ok t
  /\ In "customer_id" (columns (Transformations.data t))
  /\ In "transaction_amount" (columns (Transformations.data t))
  /\ exists ids keys totals,
      getitem (Transformations.data t) "customer_id" = Ok ids
      /\ Transformations.group_by_customer_id (mkState t w)
         = (Ok (mkDataFrame ["customer_id"; "total_transaction_amount"]
                  (map (fun kt => [fst kt; snd kt]) (combine keys totals))),
            mkState
              (Transformations.mk "cleaned_data.csv"
                 (mkDataFrame ["customer_id"; "total_transaction_amount"]
                    (map (fun kt => [fst kt; snd kt]) (combine keys totals))))
              w)
      /\ List.length totals = List.length keys
      /\ StronglySorted (fun a b => value_eqb a b = false) keys
      /\ (forall k, In k keys -> In k ids /\ isna k = false)
      /\ (forall k, In k ids -> isna k = false ->
            exists k', In k' keys /\ value_eqb k k' = true).
Proof.
  intros w t.
  assert (H1 : Transformations.init "cleaned_data.csv" w = Ok t)
    by (vm_compute; reflexivity).
  assert (H2 : In "customer_id" (columns (Transformations.data t)))
    by (vm_compute; auto).
  assert (H3 : In "transaction_amount" (columns (Transformations.data t)))
    by (vm_compute; auto).
  split; [exact H1|]. split; [exact H2|]. split; [exact H3|].
  exact (@group_by_customer_id_shape "cleaned_data.csv" w t H1 H2 H3).
Defined.

(** C9, the claim as it stands fails: a row whose key is missing gets no
    row in the outcome.  The key column of [missing_key] holds the
    missing value and [A1]; the outcome has the one row of [A1]. *)
Lemma missing_key_has_no_row :
  let w := only_file "cleaned_data.csv" missing_key in
  let t := transformations_of missing_key in
  Transformations.init "cleaned_data.csv" w = Ok t
  /\ getitem (Transformations.data t) "customer_id" = Ok [NaN; VStr "A1"]
  /\ getitem (Transformations.data t) "transaction_amount"
     = Ok [VInt 5; VInt 7]
  /\ fst (Transformations.group_by_customer_id (mkState t w))
     = Ok (mkDataFrame ["customer_id"; "total_transaction_amount"]
             [ [VStr "A1"; VInt 7] ]).
Proof.
  repeat split; vm_compute; reflexivity.
Qed.

(** C10.  On a [Transformations] object made from a file that has the
    two columns, [group_by_customer_id] returns its rows with the keys in
    strictly ascending order, whatever the order of the rows in the
    file. *)
Theorem group_by_customer_id_sorted :
  forall (path : string) (w : World) (t : Transformations.t),
    Transformations.init path w = Ok t ->
    In "customer_id" (columns (Transformations.data t)) ->
    In "transaction_amount" (columns (Transformations.data t)) ->
    exists out keys,
      Transformations.group_by_customer_id (mkState t w)
      = (Ok out, mkState (Transformations.mk path out) w)
      /\ getitem out "customer_id" = Ok keys
      /\ StronglySorted value_lt keys.
Proof.
  intros path w t Hinit Hkey Hcol.
  destruct (@group_by_customer_id_spec path w t Hinit Hkey Hcol)
    as (ids & keys & totals & Hids & -> & Hh & Hlen & Hrun).
  destruct (group_keys_spec Hh) as (Hsorted & _).
  eexists. exists (group_keys ids). split; [exact Hrun|].
  split; [|exact Hsorted].
  unfold getitem; simpl. rewrite map_map; simpl.
  f_equal. rewrite <- (map_fst_combine (group_keys ids) totals Hlen) at 2.
  reflexivity.
Qed.

Lemma group_by_customer_id_sorted_witness :
  let w := only_file "cleaned_data.csv" three_transactions in
  let t := transformations_of three_transactions in
  Transformations.init "cleaned_data.csv" w = Ok t
  /\ In "customer_id" (columns (Transformations.data t))
  /\ In "transaction_amount" (columns (Transformations.data t))
  /\ exists out keys,
      Transformations.group_by_customer_id (mkState t w)
      = (Ok out, mkState (Transformations.mk "cleaned_data.csv" out) w)
      /\ getitem out "customer_id" = Ok keys
      /\ StronglySorted value_lt keys.
Proof.
  intros w t.
  assert (H1 : Transformations.init "cleaned_data.csv" w = Ok t)
    by (vm_compute; reflexivity).
  assert (H2 : In "customer_id" (columns (Transformations.data t)))
    by (vm_compute; auto).
  assert (H3 : In "transaction_amount" (columns (Transformations.data t)))
    by (vm_compute; auto).
  split; [exact H1|]. split; [exact H2|]. split; [exact H3|].
  exact (@group_by_customer_id_sorted "cleaned_data.csv" w t H1 H2 H3).
Defined.

(** ** Conservation: the exact part

    The totals are sums over a partition of the amounts: each row whose
    key is present is in the group of exactly one key.  For an int64
    column, where the sums are exact, the total of the totals is the
    total of the amounts.  For a float64 column the two are sums of the
    same numbers in different orders, and their distance is a matter of
    rounding. *)

Lemma filter_split {A} (p : A -> bool) (l : list A) :
  Permutation l (filter p l ++ filter (fun x => negb (p x)) l).
Proof.
  induction l as [|x l IH]; simpl; [constructor|].
  destruct (p x); simpl.
  - now constructor.
  - now apply Permutation_cons_app.
Qed.

Lemma filter_filter_implied {A} (p q : A -> bool) (l : list A) :
  (forall x, In x l -> p x = true -> q x = true) ->
  filter p (filter q l) = filter p l.
Proof.
  intros H. induction l as [|x l IH]; simpl; [reflexivity|].
  destruct (q x) eqn:Hq; simpl.
  - rewrite IH; [reflexivity|]. intros y Hy. apply H. now right.
  - destruct (p x) eqn:Hp.
    + rewrite (H x (or_introl eq_refl) Hp) in Hq. discriminate.
    + apply IH. intros y Hy. apply H. now right.
Qed.

Lemma StronglySorted_weaken {A} (R R' : A -> A -> Prop) (l : list A) :
  (forall a b, R a b -> R' a b) ->
  StronglySorted R l -> StronglySorted R' l.
Proof.
  intros H. induction 1 as [|a l _ IH Ha]; constructor; [exact IH|].
  revert Ha. apply Forall_impl. apply H.
Qed.

(** Groups that do not overlap and leave no element out are a
    rearrangement of the list. *)
Lemma groups_partition {A} (belongs : A -> value -> bool)
  (keys : list value) :
  forall l : list A,
    StronglySorted
      (fun a b => forall x, In x l -> belongs x a = true -> belongs x b = false)
      keys ->
    (forall x, In x l -> exists k, In k keys /\ belongs x k = true) ->
    Permutation l
      (List.concat (map (fun k => filter (fun x => belongs x k) l) keys)).
Proof.
  induction keys as [|k keys IH]; intros l Hd Hc; simpl.
  - destruct l as [|x l]; [constructor|].
    destruct (Hc x (or_introl eq_refl)) as (k & [] & _).
  - inversion Hd as [|? ? Hd' Hk]; subst.
    rewrite (filter_split (fun x => belongs x k) l) at 1.
    apply Permutation_app_head.
    set (rest := filter (fun x => negb (belongs x k)) l).
    assert (E : map (fun k' => filter (fun x => belongs x k') l) keys
                = map (fun k' => filter (fun x => belongs x k') rest) keys).
    { apply map_ext_in. intros k' Hk'. symmetry.
      apply filter_filter_implied. intros x Hx Hbx.
      destruct (belongs x k) eqn:Hb; [|reflexivity].
      rewrite Forall_forall in Hk. rewrite (Hk k' Hk' x Hx Hb) in Hbx.
      discriminate. }
    rewrite E. apply IH.
    + revert Hd'. apply StronglySorted_weaken.
      intros a b H x Hx. apply H. apply filter_In in Hx. apply Hx.
    + intros x Hx. apply filter_In in Hx. destruct Hx as [Hx Hb].
      destruct (Hc x Hx) as (k' & [<-|Hk'] & Hbk').
      * rewrite Hbk' in Hb. discriminate.
      * now exists k'.
Qed.

Lemma StronglySorted_weaken_In {A} (R R' : A -> A -> Prop) (l : list A) :
  (forall a b, In a l -> In b l -> R a b -> R' a b) ->
  StronglySorted R l -> StronglySorted R' l.
Proof.
  intros H Hs. induction Hs as [|a l _ IH Ha]; constructor.
  - apply IH. intros x y Hx Hy. apply H; now right.
  - rewrite Forall_forall in Ha |- *. intros x Hx.
    apply H; [now left|now right|now apply Ha].
Qed.

Lemma SFcompare_eq_joins (x a b : spec_float) :
  SFcompare x a = Some Eq -> SFcompare x b = Some Eq ->
  SFcompare a b = Some Eq.
Proof.
  destruct x as [sx|sx| |sx mx ex], a as [sa|sa| |sa ma ea],
    b as [sb|sb| |sb mb eb]; simpl; try discriminate;
    try (destruct sx); try (destruct sa); try (destruct sb); simpl;
    try discriminate; try reflexivity;
    change (Pos.compare_cont Eq) with Pos.compare;
    intros H1 H2; inversion H1 as [H1']; inversion H2 as [H2'];
    clear H1 H2; f_equal; order_cases;
    rewrite ?Z.compare_refl, ?Pos.compare_refl; reflexivity.
Qed.

(** Equality of keys of one kind: two keys equal to a third are equal. *)
Lemma value_eqb_joins (x a b : value) :
  (text_key x /\ text_key a /\ text_key b)
  \/ (int_key x /\ int_key a /\ int_key b)
  \/ (float_key x /\ float_key a /\ float_key b) ->
  value_eqb x a = true -> value_eqb x b = true -> value_eqb a b = true.
Proof.
  intros [([s ->] & [t ->] & [u ->])
         |[([s ->] & [t ->] & [u ->])
          |((f & -> & Hf) & (g & -> & Hg) & (h & -> & Hh))]]; simpl.
  - rewrite !String.eqb_eq. congruence.
  - rewrite !Z.eqb_eq. congruence.
  - rewrite Hf, Hg; simpl. unfold F64.eqb, SFeqb.
    destruct (SFcompare f g) as [[]|] eqn:H1; try discriminate.
    destruct (SFcompare f h) as [[]|] eqn:H2; try discriminate.
    now rewrite (SFcompare_eq_joins _ _ _ H1 H2).
Qed.

Lemma sum_int_fold (zs : list Z) (a : Z) :
  fold_left (fun acc z => wrap64 (acc + z)) zs (wrap64 a)
  = wrap64 (a + fold_right Z.add 0 zs).
Proof.
  revert a. induction zs as [|z zs IH]; intros a; simpl.
  - now rewrite Z.add_0_r.
  - rewrite IH. unfold wrap64. f_equal.
    replace ((a + 2 ^ 63) mod 2 ^ 64 - 2 ^ 63 + z + fold_right Z.add 0 zs
             + 2 ^ 63)
      with ((a + 2 ^ 63) mod 2 ^ 64 + (z + fold_right Z.add 0 zs)) by lia.
    rewrite Z.add_mod_idemp_l by lia. f_equal. lia.
Qed.

(** The int64 sum is the exact sum, wrapped once. *)
Lemma sum_int_exact (zs : list Z) :
  sum_int zs = wrap64 (fold_right Z.add 0 zs).
Proof.
  unfold sum_int. change 0 with (wrap64 0) at 1. now rewrite sum_int_fold.
Qed.

Lemma wrap64_sum_wraps (zss : list (list Z)) :
  wrap64 (fold_right Z.add 0 (map sum_int zss))
  = wrap64 (fold_right Z.add 0 (List.concat zss)).
Proof.
  induction zss as [|zs zss IH]; simpl; [reflexivity|].
  rewrite sum_int_exact.
  assert (Happ : forall l1 l2,
             fold_right Z.add 0 (l1 ++ l2)
             = fold_right Z.add 0 l1 + fold_right Z.add 0 l2).
  { induction l1 as [|x l1 IH1]; intros l2; simpl; [reflexivity|].
    rewrite IH1. lia. }
  rewrite Happ.
  unfold wrap64 in *.
  assert (E : (fold_right Z.add 0 (map sum_int zss) + 2 ^ 63) mod 2 ^ 64
              = (fold_right Z.add 0 (List.concat zss) + 2 ^ 63) mod 2 ^ 64)
    by lia.
  f_equal.
  replace ((fold_right Z.add 0 zs + 2 ^ 63) mod 2 ^ 64 - 2 ^ 63
           + fold_right Z.add 0 (map sum_int zss) + 2 ^ 63)
    with ((fold_right Z.add 0 zs + 2 ^ 63) mod 2 ^ 64
          + fold_right Z.add 0 (map sum_int zss)) by lia.
  rewrite Z.add_mod_idemp_l by lia.
  replace (fold_right Z.add 0 zs + 2 ^ 63
           + fold_right Z.add 0 (map sum_int zss))
    with (fold_right Z.add 0 zs
          + (fold_right Z.add 0 (map sum_int zss) + 2 ^ 63)) by lia.
  rewrite <- Z.add_mod_idemp_r by lia. rewrite E.
  rewrite Z.add_mod_idemp_r by lia. f_equal. lia.
Qed.

Lemma sum_Permutation (l1 l2 : list Z) :
  Permutation l1 l2 -> fold_right Z.add 0 l1 = fold_right Z.add 0 l2.
Proof. induction 1; simpl; lia. Qed.

(** The groups of a frame whose keys are all present and of one kind:
    their amounts, one group after the other, are the amounts of the
    frame in another order. *)
Lemma groups_partition_amounts (rs : list (list value)) (i j : nat) :
  let ids := map (fun r => cell r i) rs in
  homogeneous ids ->
  Forall (fun k => isna k = false) ids ->
  Permutation (map (fun r => cell r j) rs)
    (List.concat (map (fun k => group_values i j k rs) (group_keys ids))).
Proof.
  intros ids Hh Hpresent.
  destruct (group_keys_spec Hh) as (_ & Hdistinct & Hfrom & Hall).
  assert (Hsame : filter notna ids = ids).
  { clear -Hpresent. induction Hpresent as [|k ks Hk _ IH]; simpl;
      [reflexivity|].
    unfold notna at 1. rewrite Hk; simpl. now rewrite IH. }
  assert (Hkinds : Forall text_key ids \/ Forall int_key ids
                   \/ Forall float_key ids).
  { rewrite <- Hsame. now apply homogeneous_keys. }
  unfold group_values.
  rewrite <- (map_map (fun k => filter (fun r => value_eqb (cell r i) k) rs)
                (map (fun r => cell r j))).
  rewrite <- concat_map. apply Permutation_map.
  apply groups_partition.
  - revert Hdistinct. apply StronglySorted_weaken_In.
    intros a b Ha Hb Hab r Hr Hra.
    destruct (value_eqb (cell r i) b) eqn:Hrb; [|reflexivity].
    rewrite <- Hab. symmetry.
    apply (value_eqb_joins (x := cell r i)); try assumption.
    assert (Hri : In (cell r i) ids)
      by (apply (in_map (fun r => cell r i)); exact Hr).
    destruct (Hfrom a Ha) as [Ha' _]. destruct (Hfrom b Hb) as [Hb' _].
    destruct Hkinds as [H|[H|H]]; rewrite Forall_forall in H;
      [left|right; left|right; right]; repeat split; now apply H.
  - intros r Hr. apply Hall.
    + apply (in_map (fun r => cell r i)). exact Hr.
    + rewrite Forall_forall in Hpresent. apply Hpresent.
      apply (in_map (fun r => cell r i)). exact Hr.
Qed.

Lemma getitem_Ok (df : DataFrame) (name : string) (vs : list value) :
  getitem df name = Ok vs ->
  exists i, position name (columns df) = Some i
            /\ vs = map (fun r => cell r i) (rows df).
Proof.
  unfold getitem. destruct (position name (columns df)) as [i|];
    [|discriminate].
  intros H. inversion H. now exists i.
Qed.

Lemma int64_totals (d : dtype) (groups : list (list value))
  (totals : list value) :
  d = Int64 ->
  Forall2 (fun g t => group_sum d g = Ok t) groups totals ->
  map int_of totals = map (fun g => sum_int (map int_of g)) groups.
Proof.
  intros ->. induction 1 as [|g t groups totals Hg _ IH]; simpl;
    [reflexivity|].
  inversion Hg. now rewrite IH.
Qed.

(** X15. Conservation for an int64 amount column.  On a [Transformations]
    object made from a file whose keys are all present and whose amounts
    are all integers, the int64 sum of the totals that
    [group_by_customer_id] returns is the int64 sum of the amounts. *)
Lemma int64_totals_conserved (path : string) (w : World)
  (t : Transformations.t) (ids amounts : list value) :
  Transformations.init path w = Ok t ->
  getitem (Transformations.data t) "customer_id" = Ok ids ->
  getitem (Transformations.data t) "transaction_amount" = Ok amounts ->
  Forall (fun k => isna k = false) ids ->
  Forall (fun v => is_int v = true) amounts ->
  exists out totals,
    Transformations.group_by_customer_id (mkState t w)
    = (Ok out, mkState (Transformations.mk path out) w)
    /\ getitem out "total_transaction_amount" = Ok totals
    /\ sum_int (map int_of totals) = sum_int (map int_of amounts).
Proof.
  intros Hinit Hids Hamounts Hpresent Hint.
  destruct (init_typed _ _ Hinit) as [Hpath Htyped].
  destruct (getitem_Ok _ _ Hids) as (i & Hi & ->).
  destruct (getitem_Ok _ _ Hamounts) as (j & Hj & ->).
  destruct (groupby_sum_spec _ _ _ Hi Hj (Htyped j)) as (totals & E & F).
  set (rs := rows (Transformations.data t)) in *.
  set (keys := group_keys (map (fun r => cell r i) rs)) in *.
  assert (Hlen : List.length totals = List.length keys)
    by (symmetry; now apply (Forall2_length F)).
  eexists. exists totals.
  split; [rewrite group_by_customer_id_eq, E, Hpath; reflexivity|].
  split.
  { unfold getitem; simpl. rewrite map_map; simpl. f_equal.
    rewrite <- (map_snd_combine keys totals Hlen) at 2. reflexivity. }
  assert (Hd : col_dtype (Transformations.data t) j = Int64).
  { unfold col_dtype, dtype_of. fold rs.
    now rewrite (Forall_true_forallb _ Hint). }
  assert (F' : Forall2 (fun g t0 =>
                          group_sum (col_dtype (Transformations.data t) j) g
                          = Ok t0)
                 (map (fun k => group_values i j k rs) keys) totals).
  { clear -F. induction F; simpl; constructor; assumption. }
  rewrite (int64_totals Hd F'), map_map.
  rewrite !sum_int_exact.
  rewrite <- (map_map (fun k => map int_of (group_values i j k rs)) sum_int).
  rewrite wrap64_sum_wraps. f_equal.
  rewrite <- (map_map (fun k => group_values i j k rs) (map int_of)).
  rewrite <- concat_map.
  apply sum_Permutation. apply Permutation_map. apply Permutation_sym.
  apply groups_partition_amounts; [apply Htyped|exact Hpresent].
Qed.

Lemma int64_totals_conserved_witness :
  let w := only_file "cleaned_data.csv" repeated_transaction in
  let t := transformations_of repeated_transaction in
  Transformations.init "cleaned_data.csv" w = Ok t
  /\ getitem (Transformations.data t) "customer_id"
     = Ok [VStr "A1"; VStr "A1"]
  /\ getitem (Transformations.data t) "transaction_amount"
     = Ok [VInt 5; VInt 5]
  /\ Forall (fun k => isna k = false) [VStr "A1"; VStr "A1"]
  /\ Forall (fun v => is_int v = true) [VInt 5; VInt 5]
  /\ exists out totals,
      Transformations.group_by_customer_id (mkState t w)
      = (Ok out, mkState (Transformations.mk "cleaned_data.csv" out) w)
      /\ getitem out "total_transaction_amount" = Ok totals
      /\ sum_int (map int_of totals) = sum_int (map int_of [VInt 5; VInt 5]).
Proof.
  intros w t.
  assert (H1 : Transformations.init "cleaned_data.csv" w = Ok t)
    by (vm_compute; reflexivity).
  assert (H2 : getitem (Transformations.data t) "customer_id"
               = Ok [VStr "A1"; VStr "A1"]) by (vm_compute; reflexivity).
  assert (H3 : getitem (Transformations.data t) "transaction_amount"
               = Ok [VInt 5; VInt 5]) by (vm_compute; reflexivity).
  assert (H4 : Forall (fun k => isna k = false) [VStr "A1"; VStr "A1"])
    by (repeat constructor).
  assert (H5 : Forall (fun v => is_int v = true) [VInt 5; VInt 5])
    by (repeat constructor).
  split; [exact H1|]. split; [exact H2|]. split; [exact H3|].
  split; [exact H4|]. split; [exact H5|].
  exact (@int64_totals_conserved "cleaned_data.csv" w t _ _ H1 H2 H3 H4 H5).
Defined.

(** ** The script twin of the Loader *)

(** X24. With no input file the script prints its message and goes on to use
    the name it never bound. *)
Lemma script_without_file (w : World) :
  w "input_data.csv" = None ->
  fst (Simple.run w) = Raise (NameError "input_data").
Proof.
  intros H. unfold Simple.run, Simple.etl, bind at 1, try_except,
    bind at 1, read_csv; simpl. rewrite H. reflexivity.
Qed.

Lemma script_without_file_witness :
  let w := only_file "cleaned_data.csv" header_only in
  w "input_data.csv" = None
  /\ fst (Simple.run w) = Raise (NameError "input_data").
Proof.
  intros w.
  assert (H : w "input_data.csv" = None) by reflexivity.
  split; [exact H|].
  exact (@script_without_file w H).
Defined.

(** With a file that has a header and no record the script prints its
    message and runs to the end. *)
Example script_with_empty_file :
  let r := Simple.run
             (only_file "input_data.csv"
                [ ["customer_id"; "transaction_amount"] ]) in
  fst r = Ok tt
  /\ snd r "aggregated_transactions.csv"
     = Some [ ["customer_id"; "total_transaction_amount"] ].
Proof. split; vm_compute; reflexivity. Qed.

(* ================================================================== *)
(** * The rest of the program *)

(** ** Frames, columns and files: further lemmas *)

Lemma mapM_Ok {A B} (f : A -> result B) (l : list A) :
  (forall a, In a l -> exists b, f a = Ok b) ->
  exists bs, mapM f l = Ok bs.
Proof.
  induction l as [|a l IH]; intros H; simpl.
  - eexists; reflexivity.
  - destruct (H a (or_introl eq_refl)) as [b Hb]. rewrite Hb. simpl.
    destruct IH as [bs Hbs]; [intros; apply H; right; assumption|].
    rewrite Hbs. simpl. eexists; reflexivity.
Qed.

Lemma mapM_app_Raise {A B} (f : A -> result B) (pre post : list A) (a : A)
  (e : exn) :
  (forall x, In x pre -> exists b, f x = Ok b) -> f a = Raise e ->
  mapM f (pre ++ a :: post) = Raise e.
Proof.
  intros Hpre Ha. induction pre as [|x pre IH]; simpl.
  - rewrite Ha. reflexivity.
  - destruct (Hpre x (or_introl eq_refl)) as [b Hb]. rewrite Hb. simpl.
    rewrite IH; [reflexivity|]. intros y Hy. apply Hpre. right. exact Hy.
Qed.

Lemma position_None (name : string) (cols : list string) :
  ~ In name cols -> position name cols = None.
Proof.
  intros H. destruct (position name cols) as [i|] eqn:E; [|reflexivity].
  apply position_Some_In in E. contradiction.
Qed.

Lemma existsb_eqb_In (name : string) (cols : list string) :
  existsb (String.eqb name) cols = true <-> In name cols.
Proof.
  rewrite existsb_exists. split.
  - intros [c [Hc Heq]]. apply String.eqb_eq in Heq. now subst c.
  - intros H. exists name. split; [exact H|apply String.eqb_refl].
Qed.

Lemma In_with_unique_id (c : string) (header : list string) :
  c <> "unique_id" -> (In c (with_unique_id header) <-> In c header).
Proof.
  intros Hc. unfold with_unique_id.
  destruct (position "unique_id" header); [tauto|].
  rewrite in_app_iff. simpl. split; [|tauto].
  intros [H|[H|[]]]; [exact H|]. symmetry in H. contradiction.
Qed.

Lemma setitem_has_column (df : DataFrame) (name : string) (vs : list value) :
  exists j, position name (columns (setitem df name vs)) = Some j.
Proof.
  unfold setitem; simpl.
  destruct (position name (columns df)) as [i|] eqn:E.
  - exists i. exact E.
  - eexists. apply position_app_new, E.
Qed.

Lemma columns_setitem (df : DataFrame) (name : string) (vs : list value) :
  columns (setitem df name vs)
  = match position name (columns df) with
    | Some _ => columns df
    | None => columns df ++ [name]
    end.
Proof. reflexivity. Qed.

Lemma len_setitem (df : DataFrame) (name : string) (vs : list value) :
  List.length vs = len df -> len (setitem df name vs) = len df.
Proof.
  intros H. unfold len, setitem; simpl.
  rewrite length_map, length_combine. unfold len in H. lia.
Qed.

Lemma getitem_length (df : DataFrame) (name : string) (vs : list value) :
  getitem df name = Ok vs -> List.length vs = len df.
Proof.
  intros H. apply getitem_Ok in H. destruct H as [i [_ ->]].
  apply length_map.
Qed.

Lemma getitem_setitem_other (df : DataFrame) (name c : string)
  (vs : list value) :
  rectangular df -> List.length vs = len df -> c <> name ->
  getitem (setitem df name vs) c = getitem df c.
Proof.
  intros Hrect Hlen Hne. unfold getitem.
  rewrite (@setitem_position_other df name vs c Hne).
  destruct (position c (columns df)) as [i|] eqn:Hi; [|reflexivity].
  f_equal. unfold setitem; simpl. rewrite map_map.
  rewrite <- (map_fst_combine (rows df) vs Hlen) at 2. rewrite map_map.
  apply map_ext_in. intros [r x] Hin. simpl.
  apply (@setitem_cell_other df name Hrect c i r x Hne Hi).
  apply in_combine_l in Hin. exact Hin.
Qed.

Lemma getitem_setitem_same (df : DataFrame) (name : string)
  (vs : list value) :
  rectangular df -> List.length vs = len df ->
  getitem (setitem df name vs) name = Ok vs.
Proof.
  intros Hrect Hlen.
  destruct (@setitem_position df name vs Hrect Hlen) as [j [Hj [_ Hcell]]].
  rewrite (getitem_position _ _ Hj). f_equal.
  apply setitem_rows_cells; [exact Hlen|].
  intros r x Hr. apply (Hcell r x Hr).
Qed.

Lemma apply_rows_length {A} (df : DataFrame)
  (f : (string -> result value) -> result A) (ids : list A) :
  apply_rows df f = Ok ids -> List.length ids = len df.
Proof. unfold apply_rows. apply mapM_length. Qed.

(** The key over all the columns of the frame is defined on every row. *)
Lemma apply_rows_all_columns (df : DataFrame) :
  exists ids,
    apply_rows df (CSVCleaner.unique_id_of (columns df)) = Ok ids.
Proof.
  unfold apply_rows. apply mapM_Ok. intros r _.
  unfold CSVCleaner.unique_id_of.
  destruct (@mapM_Ok string value
              (fun name =>
                 match position name (columns df) with
                 | Some i => Ok (cell (row_series df r) i)
                 | None => Raise (KeyError name)
                 end) (columns df)) as [vs Hvs].
  - intros c Hc. destruct (position_In c (columns df) Hc) as [i Hi].
    rewrite Hi. eexists; reflexivity.
  - rewrite Hvs. simpl. eexists; reflexivity.
Qed.

Lemma to_numeric_length (vs xs : list value) :
  to_numeric vs = Ok xs -> List.length xs = List.length vs.
Proof.
  intros H. pose proof (to_numeric_spec vs) as Hs. rewrite H in Hs.
  apply Hs.
Qed.

Lemma to_numbers_numeric (vs : list value) :
  Forall (fun x => is_numeric x = true) vs ->
  forall i, to_numbers i vs = Ok vs.
Proof.
  induction 1 as [|v vs Hv _ IH]; intros i; simpl; [reflexivity|].
  rewrite IH. destruct v; simpl in *; [discriminate|reflexivity|reflexivity].
Qed.

Lemma upcast_upcast (v : value) : upcast (upcast v) = upcast v.
Proof. destruct v; reflexivity. Qed.

Lemma to_numeric_again (vs xs : list value) :
  to_numeric vs = Ok xs -> to_numeric xs = Ok xs.
Proof.
  intros H. pose proof (to_numeric_spec vs) as Hs. rewrite H in Hs.
  destruct Hs as [_ Hnum]. unfold to_numeric in *.
  rewrite (to_numbers_numeric Hnum). simpl.
  destruct (to_numbers 0 vs) as [ys|e]; simpl in H; [|discriminate].
  inversion H as [Hxs]; clear H.
  destruct (forallb is_int ys) eqn:Hint.
  - rewrite Hint. reflexivity.
  - destruct (forallb is_int (map upcast ys)); [reflexivity|].
    rewrite map_map. f_equal. apply map_ext. intros v. apply upcast_upcast.
Qed.

Lemma to_numeric_homogeneous (vs xs : list value) :
  to_numeric vs = Ok xs -> homogeneous xs.
Proof.
  intros H. pose proof (to_numeric_spec vs) as Hs. rewrite H in Hs.
  destruct Hs as [_ Hnum]. unfold to_numeric in H.
  destruct (to_numbers 0 vs) as [ys|e]; simpl in H; [|discriminate].
  inversion H as [Hxs]; clear H.
  destruct (forallb is_int ys) eqn:Hint; subst xs.
  - left. rewrite forallb_forall in Hint. rewrite Forall_forall. exact Hint.
  - right. left. rewrite Forall_forall in *.
    intros x Hx. specialize (Hnum x Hx).
    apply in_map_iff in Hx. destruct Hx as [y [<- _]].
    destruct y; simpl in *; [discriminate|reflexivity|reflexivity].
Qed.

Lemma forallb_filter_id {A} (p : A -> bool) (l : list A) :
  filter p (filter p l) = filter p l.
Proof.
  induction l as [|a l IH]; simpl; [reflexivity|].
  destruct (p a) eqn:E; simpl; [rewrite E, IH|]; auto.
Qed.

Lemma rectangular_dropna (df : DataFrame) :
  rectangular df -> rectangular (dropna df).
Proof.
  unfold rectangular, dropna; simpl. rewrite !Forall_forall.
  intros H r Hr. apply filter_In in Hr. apply H, Hr.
Qed.

Lemma length_read_record (ds : list dtype) (r : list string) :
  List.length ds = List.length r ->
  List.length (read_record ds r) = List.length r.
Proof.
  intros H. unfold read_record.
  rewrite length_map, length_combine, H. apply Nat.min_id.
Qed.

Lemma parse_csv_rectangular (f : csv) (df : DataFrame) :
  parse_csv f = Ok df -> rectangular df.
Proof.
  destruct f as [|header records]; [discriminate|]. unfold parse_csv.
  destruct (too_long (width header records) 2 records) eqn:E;
    [discriminate|].
  intros H. inversion H; subst; clear H. unfold rectangular; simpl.
  pose proof (length_data_fields header records E) as Hlen.
  rewrite Forall_forall in *. intros r Hr.
  apply in_map_iff in Hr. destruct Hr as [fs [<- Hfs]].
  rewrite length_read_record; [apply Hlen, Hfs|].
  rewrite length_map, length_seq. symmetry. apply Hlen, Hfs.
Qed.

Lemma parse_csv_errors (f : csv) (e : exn) :
  parse_csv f = Raise e ->
  e = EmptyDataError "No columns to parse from file"
  \/ exists expected line saw, e = tokenizing_error expected line saw.
Proof.
  destruct f as [|header records]; simpl.
  - intros H; inversion H. auto.
  - destruct (too_long (width header records) 2 records) as [e1|] eqn:E;
      [|discriminate].
    intros H; inversion H; subst e1. right. apply (@too_long_Some _ _ _ _ E).
Qed.

(** The file written for a rectangular frame reads back with the same
    labels and as many rows. *)
Lemma parse_to_csv (df : DataFrame) :
  rectangular df ->
  exists df',
    parse_csv (to_csv df) = Ok df'
    /\ columns df' = columns df
    /\ len df' = len df.
Proof.
  intros Hrect. unfold to_csv.
  set (records := map (map field_of) (rows df)).
  assert (Hlen : Forall (fun r => List.length r = List.length (columns df))
                   records).
  { unfold records. rewrite Forall_forall. intros r Hr.
    apply in_map_iff in Hr. destruct Hr as [vs [<- Hvs]].
    rewrite length_map. unfold rectangular in Hrect.
    rewrite Forall_forall in Hrect. apply Hrect, Hvs. }
  assert (Hw : width (columns df) records = List.length (columns df)).
  { unfold width. destruct records as [|r rest]; [reflexivity|].
    inversion Hlen; subst. rewrite H1. apply Nat.max_id. }
  assert (Hno : forall line,
             too_long (List.length (columns df)) line records = None).
  { clear Hw. induction Hlen as [|r rest Hr _ IH]; intros line; simpl.
    - reflexivity.
    - rewrite Hr, Nat.ltb_irrefl. apply IH. }
  destruct (@parse_csv_rows (columns df) records) as [df' [Hp [Hc Hrows]]].
  { rewrite Hw. apply Hno. }
  exists df'. split; [exact Hp|]. split; [exact Hc|].
  apply Forall2_length in Hrows. rewrite length_map in Hrows.
  unfold len. rewrite <- Hrows. unfold records. apply length_map.
Qed.

Lemma groupby_sum_columns (df g : DataFrame) (key col : string) :
  groupby_sum df key col = Ok g ->
  columns g = [key; col] /\ Forall (fun r => List.length r = 2%nat) (rows g).
Proof.
  unfold groupby_sum.
  destruct (position key (columns df)) as [i|]; [|discriminate].
  destruct (position col (columns df)) as [j|]; [|discriminate].
  set (f := fun k : value => _).
  destruct (mapM f (group_keys (map (fun r => cell r i) (rows df))))
    as [totals|e] eqn:E; [|discriminate].
  simpl. intros H; inversion H; subst; clear H. simpl. split; [reflexivity|].
  eapply (@mapM_Forall _ _ (fun r => List.length r = 2%nat) f);
    [|exact E].
  intros k r. unfold f.
  destruct (group_sum (col_dtype df j) (group_values i j k (rows df)));
    simpl; intros H; inversion H; reflexivity.
Qed.

Lemma length_insert_key (k : value) (ks : list value) :
  (List.length (insert_key k ks) <= S (List.length ks))%nat.
Proof.
  induction ks as [|k' ks IH]; simpl; [lia|].
  destruct (value_eqb k k'); [simpl; lia|].
  destruct (value_ltb k k'); simpl; lia.
Qed.

Lemma length_group_keys (ks : list value) :
  (List.length (group_keys ks) <= List.length ks)%nat.
Proof.
  unfold group_keys.
  assert (H : forall l acc,
             (List.length (fold_left (fun acc k => insert_key k acc) l acc)
              <= List.length acc + List.length l)%nat).
  { induction l as [|k l IH]; intros acc; simpl; [lia|].
    specialize (IH (insert_key k acc)).
    pose proof (length_insert_key k acc). lia. }
  specialize (H (filter notna ks) []). simpl in H.
  pose proof (filter_length_le notna ks). lia.
Qed.

(** ** The methods of [CSVCleaner] one by one *)

(** X1. Before [read_data] the object holds no data: every other method
    raises at its first use of it, changes nothing and writes no file. *)
Theorem methods_need_read_data :
  forall (path output : string) (columns : list string) (w : World),
    let s := mkState (CSVCleaner.init path) w in
    CSVCleaner.remove_rows s = (Raise CSVCleaner.no_len, s)
    /\ CSVCleaner.generate_uniqueID None s
       = (Raise (CSVCleaner.no_attribute "columns"), s)
    /\ CSVCleaner.generate_uniqueID (Some columns) s
       = (Raise (CSVCleaner.no_attribute "apply"), s)
    /\ CSVCleaner.check_duplicates s = (Raise CSVCleaner.no_len, s)
    /\ CSVCleaner.convert_transaction_amount s
       = (Raise CSVCleaner.not_subscriptable, s)
    /\ CSVCleaner.save_data output s
       = (Raise (CSVCleaner.no_attribute "to_csv"), s).
Proof. intros. repeat split. Qed.

(** X7. [check_duplicates] in full: it never changes the object or a
    file.  It returns the frame it was given, duplicates and all, when
    the frame is empty or has a column [unique_id]; on a frame with rows
    and columns and no such column it raises the [KeyError] of
    [drop_duplicates]. *)
Theorem check_duplicates_outcomes :
  forall (path : string) (df : DataFrame) (w : World),
    CSVCleaner.check_duplicates (cleaner path df w)
    = (if empty df || existsb (String.eqb "unique_id") (columns df)
       then Ok df
       else Raise (labels_not_found "unique_id"),
       cleaner path df w).
Proof.
  intros path df w. rewrite check_duplicates_eq. unfold drop_duplicates.
  destruct (empty df); [reflexivity|]. rewrite Bool.orb_false_l.
  destruct (position "unique_id" (columns df)) as [i|] eqn:E.
  - apply position_Some_In in E.
    replace (existsb (String.eqb "unique_id") (columns df)) with true;
      [reflexivity|].
    symmetry. apply existsb_eqb_In, E.
  - destruct (existsb (String.eqb "unique_id") (columns df)) eqn:Ex;
      [|reflexivity].
    apply existsb_eqb_In in Ex.
    destruct (position_In _ _ Ex) as [i Hi]. congruence.
Qed.

(** X3. [read_data] starts from the file alone: what the object held
    before has no part in the result, nor in the object after a
    successful read. *)
Theorem read_data_forgets :
  forall (path : string) (d1 d2 : option DataFrame) (w : World),
    let r1 := CSVCleaner.read_data (mkState (CSVCleaner.mk path d1) w) in
    let r2 := CSVCleaner.read_data (mkState (CSVCleaner.mk path d2) w) in
    fst r1 = fst r2
    /\ (forall df, fst r1 = Ok df -> snd r1 = snd r2).
Proof.
  intros path d1 d2 w. cbv zeta. rewrite !read_data_eq.
  destruct (w path) as [f|]; [|split; [reflexivity|discriminate]].
  destruct (parse_csv f) as [df|e]; [|split; [reflexivity|discriminate]].
  split; reflexivity.
Qed.

(** X4. [remove_rows] a second time changes nothing. *)
Theorem remove_rows_idempotent :
  forall s : State CSVCleaner.t,
    CSVCleaner.remove_rows (snd (CSVCleaner.remove_rows s))
    = CSVCleaner.remove_rows s.
Proof.
  intros [[path [df|]] w]; [|reflexivity].
  change (mkState (CSVCleaner.mk path (Some df)) w) with (cleaner path df w).
  rewrite remove_rows_eq. simpl snd. rewrite remove_rows_eq.
  unfold dropna; simpl. rewrite forallb_filter_id. reflexivity.
Qed.

(** X2. The frame [read_data] returns for a file with plain labels and
    no boolean word, read at once: its columns are the header, it has one
    row per record, every row has one value per label and every column is
    of one kind; the object holds it and no file has changed. *)
Theorem read_data_frame :
  forall (s s' : State CSVCleaner.t) (df : DataFrame)
         (header : list string) (records : list (list string)),
    world s (CSVCleaner.file_path (self s)) = Some (header :: records) ->
    plain_labels header ->
    no_bool_words records ->
    read_at_once header records ->
    CSVCleaner.read_data s = (Ok df, s') ->
    columns df = header
    /\ len df = List.length records
    /\ rectangular df /\ typed df
    /\ CSVCleaner.data (self s') = Some df
    /\ world s' = world s.
Proof.
  intros [[path d] w] s' df header records Hf _ _ _. simpl in Hf.
  rewrite read_data_eq, Hf.
  destruct (parse_csv (header :: records)) as [df0|e] eqn:Hp; [|discriminate].
  destruct (empty df0); [discriminate|].
  intros H; inversion H; subst; clear H.
  destruct (parse_csv_rows header records) as [df1 [Hp1 [Hc Hrows]]].
  { unfold parse_csv in Hp.
    destruct (too_long (width header records) 2 records);
      [discriminate|reflexivity]. }
  rewrite Hp in Hp1. inversion Hp1; subst df1; clear Hp1.
  apply Forall2_length in Hrows. rewrite length_map in Hrows.
  split; [exact Hc|]. split; [unfold len; now rewrite Hrows|].
  split; [apply (parse_csv_rectangular _ Hp)|].
  split; [apply (@parse_csv_typed _ _ Hp)|].
  split; reflexivity.
Qed.

Lemma read_data_frame_witness :
  let s := mkState (CSVCleaner.init "input_data.csv")
             (only_file "input_data.csv" repeated_transaction) in
  let r := CSVCleaner.read_data s in
  let header := ["customer_id"; "transaction_amount"] in
  let records := [ ["A1"; "5"]; ["A1"; "5"] ] in
  world s (CSVCleaner.file_path (self s)) = Some (header :: records)
  /\ plain_labels header
  /\ no_bool_words records
  /\ read_at_once header records
  /\ r = (Ok (frame_of (fst r)), snd r)
  /\ columns (frame_of (fst r)) = header
  /\ len (frame_of (fst r)) = List.length records
  /\ rectangular (frame_of (fst r)) /\ typed (frame_of (fst r))
  /\ CSVCleaner.data (self (snd r)) = Some (frame_of (fst r))
  /\ world (snd r) = world s.
Proof.
  intros s r header records.
  assert (H1 : world s (CSVCleaner.file_path (self s))
               = Some (header :: records)) by reflexivity.
  assert (H2 : plain_labels header).
  { split.
    - repeat constructor; simpl; intuition discriminate.
    - simpl; intuition discriminate. }
  assert (H3 : no_bool_words records) by (repeat constructor).
  assert (H4 : read_at_once header records)
    by (unfold read_at_once; simpl; lia).
  assert (H5 : r = (Ok (frame_of (fst r)), snd r))
    by (vm_compute; reflexivity).
  split; [exact H1|]. split; [exact H2|]. split; [exact H3|].
  split; [exact H4|]. split; [exact H5|].
  exact (@read_data_frame s (snd r) (frame_of (fst r)) header records
           H1 H2 H3 H4 H5).
Defined.

Lemma length_hex (bs : list Z) :
  String.length (MD5.hex bs) = (2 * List.length bs)%nat.
Proof.
  induction bs as [|b bs IH]; simpl; [reflexivity|]. rewrite IH. lia.
Qed.

Lemma length_le_bytes (n : nat) (x : Z) :
  List.length (MD5.le_bytes n x) = n.
Proof.
  revert x. induction n as [|n IH]; intros x; simpl; [reflexivity|].
  now rewrite IH.
Qed.

Lemma length_hexdigest (s : string) :
  String.length (MD5.hexdigest s) = 32%nat.
Proof.
  unfold MD5.hexdigest, MD5.digest.
  destruct (MD5.blocks _ _ _) as [[[a b] c] d].
  rewrite length_hex, !length_app, !length_le_bytes. reflexivity.
Qed.

(** X5. [generate_uniqueID] on a frame: the rows and every other column
    stay as they are; the column [unique_id] is the last one unless the
    frame had it, and holds a text of 32 characters in every row. *)
Theorem generate_uniqueID_adds_the_key_column :
  forall (columns : option (list string)) (path : string)
         (df df' : DataFrame) (w : World) (s' : State CSVCleaner.t),
    rectangular df ->
    CSVCleaner.generate_uniqueID columns (cleaner path df w) = (Ok df', s') ->
    s' = cleaner path df' w
    /\ Pandas.columns df' = with_unique_id (Pandas.columns df)
    /\ len df' = len df
    /\ (forall c, c <> "unique_id" -> getitem df' c = getitem df c)
    /\ exists ids,
         getitem df' "unique_id" = Ok ids
         /\ Forall (fun k => exists s, k = VStr s
                                       /\ String.length s = 32%nat) ids.
Proof.
  intros cols path df df' w s' Hrect. rewrite generate_uniqueID_eq.
  set (cs := match cols with Some cs => cs | None => Pandas.columns df end).
  destruct (apply_rows df (CSVCleaner.unique_id_of cs)) as [ids|e] eqn:Hids;
    [|discriminate].
  intros H; inversion H; subst; clear H.
  pose proof (apply_rows_length _ _ Hids) as Hlen.
  split; [reflexivity|]. split; [reflexivity|].
  split; [apply len_setitem, Hlen|].
  split; [intros c Hc; apply getitem_setitem_other; assumption|].
  exists ids. split; [apply getitem_setitem_same; assumption|].
  unfold apply_rows in Hids.
  eapply (@mapM_Forall _ _
            (fun k => exists s, k = VStr s /\ String.length s = 32%nat));
    [|exact Hids].
  intros r k. simpl. unfold CSVCleaner.unique_id_of.
  destruct (mapM _ cs) as [vs|e]; simpl; [|discriminate].
  intros H; inversion H; subst; clear H.
  eexists. split; [reflexivity|apply length_hexdigest].
Qed.

Lemma generate_uniqueID_adds_the_key_column_witness :
  let s := cleaner "input_data.csv" one_text_cell (fun _ => None) in
  let r := CSVCleaner.generate_uniqueID None s in
  let df' := frame_of (fst r) in
  rectangular one_text_cell
  /\ r = (Ok df', snd r)
  /\ snd r = cleaner "input_data.csv" df' (fun _ => None)
  /\ columns df' = with_unique_id (columns one_text_cell)
  /\ len df' = len one_text_cell
  /\ (forall c, c <> "unique_id" -> getitem df' c = getitem one_text_cell c)
  /\ exists ids,
       getitem df' "unique_id" = Ok ids
       /\ Forall (fun k => exists s, k = VStr s
                                     /\ String.length s = 32%nat) ids.
Proof.
  intros s r df'.
  assert (H1 : rectangular one_text_cell) by (repeat constructor).
  assert (H2 : r = (Ok df', snd r)) by (vm_compute; reflexivity).
  split; [exact H1|]. split; [exact H2|].
  exact (@generate_uniqueID_adds_the_key_column
           None "input_data.csv" one_text_cell df' (fun _ => None) (snd r)
           H1 H2).
Defined.

(** X6. [generate_uniqueID] with a selection that names a label the frame
    does not have raises [KeyError] for the first such label and leaves
    the object as it was, when the frame has a row. *)
Theorem generate_uniqueID_unknown_column :
  forall (path : string) (df : DataFrame) (w : World)
         (known : list string) (missing : string) (others : list string),
    rows df <> [] ->
    (forall c, In c known -> In c (columns df)) ->
    ~ In missing (columns df) ->
    CSVCleaner.generate_uniqueID (Some (known ++ missing :: others))
      (cleaner path df w)
    = (Raise (KeyError missing), cleaner path df w).
Proof.
  intros path df w known missing others Hrows Hknown Hmissing.
  rewrite generate_uniqueID_eq. unfold apply_rows.
  destruct (rows df) as [|r rs]; [contradiction|]. simpl.
  unfold CSVCleaner.unique_id_of at 1.
  rewrite (@mapM_app_Raise _ _ _ known others missing (KeyError missing)).
  - reflexivity.
  - intros c Hc. destruct (position_In _ _ (Hknown c Hc)) as [i Hi].
    rewrite Hi. eexists; reflexivity.
  - rewrite position_None; [reflexivity|exact Hmissing].
Qed.

Lemma generate_uniqueID_unknown_column_witness :
  rows one_text_cell <> []
  /\ (forall c, In c ["x"] -> In c (columns one_text_cell))
  /\ ~ In "y" (columns one_text_cell)
  /\ CSVCleaner.generate_uniqueID (Some (["x"] ++ "y" :: []))
       (cleaner "input_data.csv" one_text_cell (fun _ => None))
     = (Raise (KeyError "y"),
        cleaner "input_data.csv" one_text_cell (fun _ => None)).
Proof.
  assert (H1 : rows one_text_cell <> []) by discriminate.
  assert (H2 : forall c, In c ["x"] -> In c (columns one_text_cell))
    by (intros c H; exact H).
  assert (H3 : ~ In "y" (columns one_text_cell))
    by (intros [H|[]]; discriminate).
  split; [exact H1|]. split; [exact H2|]. split; [exact H3|].
  exact (@generate_uniqueID_unknown_column
           "input_data.csv" one_text_cell (fun _ => None) ["x"] "y" []
           H1 H2 H3).
Defined.

(** X11. [convert_transaction_amount] a second time changes nothing: it
    returns what the first call returned and leaves the object as the
    first call left it. *)
Theorem convert_transaction_amount_idempotent :
  forall (path : string) (df : DataFrame) (w : World),
    rectangular df ->
    let once :=
      CSVCleaner.convert_transaction_amount (cleaner path df w) in
    CSVCleaner.convert_transaction_amount (snd once) = once.
Proof.
  intros path df w Hrect. cbv zeta.
  rewrite convert_transaction_amount_eq.
  destruct (getitem df "transaction_amount") as [amounts|e] eqn:Ha.
  2:{ simpl snd. rewrite convert_transaction_amount_eq, Ha. reflexivity. }
  destruct (to_numeric amounts) as [numbers|e] eqn:Hn.
  2:{ simpl snd. rewrite convert_transaction_amount_eq, Ha, Hn.
      reflexivity. }
  simpl snd. rewrite convert_transaction_amount_eq.
  assert (Hlen : List.length numbers = len df).
  { rewrite (to_numeric_length _ Hn). apply (getitem_length _ _ Ha). }
  rewrite (@getitem_setitem_same _ _ _ Hrect Hlen).
  rewrite (@to_numeric_again _ _ Hn).
  rewrite (@setitem_again _ _ _ Hrect Hlen). reflexivity.
Qed.

Lemma convert_transaction_amount_idempotent_witness :
  rectangular amounts_as_text
  /\ CSVCleaner.convert_transaction_amount
       (snd (CSVCleaner.convert_transaction_amount
               (cleaner "input_data.csv" amounts_as_text (fun _ => None))))
     = CSVCleaner.convert_transaction_amount
         (cleaner "input_data.csv" amounts_as_text (fun _ => None)).
Proof.
  assert (H : rectangular amounts_as_text) by (repeat constructor).
  split; [exact H|].
  exact (@convert_transaction_amount_idempotent
           "input_data.csv" amounts_as_text (fun _ => None) H).
Defined.

(** ** The first half as a whole *)

(** Every run of the first half, by the file it finds. *)
Lemma clean_eq (input output : string) (d : option DataFrame) (w : World) :
  clean output (mkState (CSVCleaner.mk input d) w)
  = match w input with
    | None =>
        (Raise (FileNotFoundError ("File not found: " ++ input)),
         mkState (CSVCleaner.mk input d) w)
    | Some f =>
        match parse_csv f with
        | Raise e => (Raise e, mkState (CSVCleaner.mk input d) w)
        | Ok df =>
            if empty df
            then (Raise (ValueError "The input CSV contains no data."),
                  cleaner input df w)
            else
              match apply_rows (dropna df)
                      (CSVCleaner.unique_id_of (columns df)) with
              | Raise e => (Raise e, cleaner input (dropna df) w)
              | Ok ids =>
                  let keyed := setitem (dropna df) "unique_id" ids in
                  match getitem keyed "transaction_amount" with
                  | Raise e => (Raise e, cleaner input keyed w)
                  | Ok amounts =>
                      match to_numeric amounts with
                      | Raise e => (Raise e, cleaner input keyed w)
                      | Ok numbers =>
                          let out :=
                            setitem keyed "transaction_amount" numbers in
                          (Ok tt,
                           cleaner input out
                             (write_file w output (to_csv out)))
                      end
                  end
              end
        end
    end.
Proof.
  unfold clean. unfold bind at 1. rewrite read_data_eq.
  destruct (w input) as [f|]; [|reflexivity].
  destruct (parse_csv f) as [df|e]; [|reflexivity].
  destruct (empty df); [reflexivity|].
  unfold bind at 1. rewrite remove_rows_eq.
  unfold bind at 1. rewrite generate_uniqueID_eq.
  change (columns (dropna df)) with (columns df).
  destruct (apply_rows (dropna df) (CSVCleaner.unique_id_of (columns df)))
    as [ids|e]; [|reflexivity].
  unfold bind at 1. rewrite check_duplicates_eq.
  destruct (setitem_has_column (dropna df) "unique_id" ids) as [j Hj].
  destruct (drop_duplicates_Ok _ _ Hj) as [dd Hdd]. rewrite Hdd.
  unfold bind at 1. rewrite convert_transaction_amount_eq. cbv zeta.
  destruct (getitem (setitem (dropna df) "unique_id" ids)
              "transaction_amount") as [amounts|e]; [|reflexivity].
  destruct (to_numeric amounts) as [numbers|e]; [|reflexivity].
  unfold bind at 1. rewrite save_data_eq. reflexivity.
Qed.

(** What a successful first half leaves: the frame of the object and the
    file written from it. *)
Lemma clean_Ok (input output : string) (w : World)
  (s' : State CSVCleaner.t) :
  clean output (mkState (CSVCleaner.init input) w) = (Ok tt, s') ->
  exists header records df out,
    w input = Some (header :: records)
    /\ parse_csv (header :: records) = Ok df
    /\ s' = cleaner input out (write_file w output (to_csv out))
    /\ rectangular out
    /\ columns out = with_unique_id header
    /\ In "transaction_amount" (columns out)
    /\ (len out <= List.length records)%nat.
Proof.
  unfold CSVCleaner.init. rewrite clean_eq.
  destruct (w input) as [f|] eqn:Hf; [|discriminate].
  destruct (parse_csv f) as [df|e] eqn:Hp; [|discriminate].
  destruct (empty df); [discriminate|].
  destruct (apply_rows (dropna df) (CSVCleaner.unique_id_of (columns df)))
    as [ids|e] eqn:Hids; [|discriminate].
  cbv zeta.
  destruct (getitem (setitem (dropna df) "unique_id" ids)
              "transaction_amount") as [amounts|e] eqn:Ha; [|discriminate].
  destruct (to_numeric amounts) as [numbers|e] eqn:Hn; [|discriminate].
  intros H. inversion H; subst; clear H.
  destruct f as [|header records]; [discriminate|].
  exists header, records, df.
  eexists. split; [reflexivity|]. split; [exact Hp|].
  split; [reflexivity|].
  pose proof (parse_csv_rectangular _ Hp) as Hrect.
  destruct (parse_csv_rows header records) as [df0 [Hp0 [Hc0 Hrows0]]].
  { unfold parse_csv in Hp.
    destruct (too_long (width header records) 2 records);
      [discriminate|reflexivity]. }
  rewrite Hp in Hp0. inversion Hp0; subst df0; clear Hp0.
  apply getitem_Ok in Ha. destruct Ha as [j [Hj Hamounts]].
  split; [apply rectangular_setitem, rectangular_setitem,
          rectangular_dropna, Hrect|].
  split.
  { rewrite (columns_setitem_present _ _ _ Hj). rewrite columns_setitem.
    simpl. rewrite Hc0. reflexivity. }
  split.
  { rewrite (columns_setitem_present _ _ _ Hj).
    apply position_Some_In in Hj. exact Hj. }
  apply Forall2_length in Hrows0. rewrite length_map in Hrows0.
  rewrite len_setitem, len_setitem.
  - unfold len, dropna; simpl. rewrite Hrows0. apply filter_length_le.
  - apply (apply_rows_length _ _ Hids).
  - rewrite (to_numeric_length _ Hn), Hamounts, length_map. reflexivity.
Qed.

(** When the first half raises, no file has been written. *)
Lemma clean_Raise_world :
  forall (input output : string) (w : World) (e : exn)
         (s' : State CSVCleaner.t),
    clean output (mkState (CSVCleaner.init input) w) = (Raise e, s') ->
    world s' = w.
Proof.
  intros input output w e s'. unfold CSVCleaner.init. rewrite clean_eq.
  destruct (w input) as [f|]; [|intros H; inversion H; reflexivity].
  destruct (parse_csv f) as [df|e0]; [|intros H; inversion H; reflexivity].
  destruct (empty df); [intros H; inversion H; reflexivity|].
  destruct (apply_rows (dropna df) (CSVCleaner.unique_id_of (columns df)))
    as [ids|e0]; [|intros H; inversion H; reflexivity].
  cbv zeta.
  destruct (getitem (setitem (dropna df) "unique_id" ids)
              "transaction_amount") as [amounts|e0];
    [|intros H; inversion H; reflexivity].
  destruct (to_numeric amounts) as [numbers|e0];
    intros H; inversion H; reflexivity.
Qed.

(** X21. After a successful first half on a file with plain labels the
    object holds the frame that was written; the file has the header of
    the input with [unique_id], one field per label in every record and
    no more records than the input. *)
Theorem cleaned_file_is_rectangular :
  forall (input output : string) (w : World) (s' : State CSVCleaner.t)
         (header : list string) (records : list (list string)),
    w input = Some (header :: records) ->
    plain_labels header ->
    clean output (mkState (CSVCleaner.init input) w) = (Ok tt, s') ->
    exists df body,
      CSVCleaner.data (self s') = Some df
      /\ world s' output = Some (to_csv df)
      /\ to_csv df = with_unique_id header :: body
      /\ Forall (fun r => List.length r
                          = List.length (with_unique_id header)) body
      /\ (List.length body <= List.length records)%nat.
Proof.
  intros input output w s' header records Hfile _ H.
  destruct (@clean_Ok _ _ _ _ H)
    as [header' [records' [df [out [Hf [Hp [-> [Hr [Hc [Ha Hl]]]]]]]]]].
  rewrite Hfile in Hf. inversion Hf; subst header' records'; clear Hf.
  exists out, (map (map field_of) (rows out)).
  split; [reflexivity|].
  split; [apply write_file_same|].
  split; [unfold to_csv; rewrite Hc; reflexivity|].
  split.
  - rewrite Forall_forall. intros r Hin. apply in_map_iff in Hin.
    destruct Hin as [vs [<- Hvs]]. rewrite length_map, <- Hc.
    unfold rectangular in Hr. rewrite Forall_forall in Hr. apply Hr, Hvs.
  - rewrite length_map. exact Hl.
Qed.

Lemma cleaned_file_is_rectangular_witness :
  let w := only_file "input_data.csv" repeated_transaction in
  let run :=
    clean "cleaned_data.csv" (mkState (CSVCleaner.init "input_data.csv") w) in
  let header := ["customer_id"; "transaction_amount"] in
  let records := [ ["A1"; "5"]; ["A1"; "5"] ] in
  w "input_data.csv" = Some (header :: records)
  /\ plain_labels header
  /\ run = (Ok tt, snd run)
  /\ exists df body,
      CSVCleaner.data (self (snd run)) = Some df
      /\ world (snd run) "cleaned_data.csv" = Some (to_csv df)
      /\ to_csv df = with_unique_id header :: body
      /\ Forall (fun r => List.length r
                          = List.length (with_unique_id header)) body
      /\ (List.length body <= List.length records)%nat.
Proof.
  intros w run header records.
  assert (H1 : w "input_data.csv" = Some (header :: records))
    by reflexivity.
  assert (H2 : plain_labels header).
  { split.
    - repeat constructor; simpl; intuition discriminate.
    - simpl; intuition discriminate. }
  assert (H3 : run = (Ok tt, snd run)) by (vm_compute; reflexivity).
  split; [exact H1|]. split; [exact H2|]. split; [exact H3|].
  exact (@cleaned_file_is_rectangular
           "input_data.csv" "cleaned_data.csv" w (snd run) header records
           H1 H2 H3).
Defined.

(** ** No number read from text is missing *)

Section Rounding.

Variables prec emax : Z.

Lemma iter_pos_invariant {A} (f : A -> A) (P : A -> Prop) :
  (forall x, P x -> P (f x)) ->
  forall n x, P x -> P (iter_pos f n x).
Proof.
  intros Hf. induction n as [n IH|n IH|]; intros x Hx; simpl; auto.
Qed.

Lemma shr_1_nonneg (mrs : shr_record) :
  0 <= shr_m mrs -> 0 <= shr_m (shr_1 mrs).
Proof.
  destruct mrs as [m r s]. simpl.
  destruct m as [|[p|p|]|p]; simpl; lia.
Qed.

Lemma shr_fexp_nonneg (m e : Z) (l : location) :
  0 <= m -> 0 <= shr_m (fst (shr_fexp prec emax m e l)).
Proof.
  intros Hm. unfold shr_fexp, shr.
  assert (H0 : 0 <= shr_m (shr_record_of_loc m l))
    by (destruct l as [|[]]; exact Hm).
  destruct (fexp prec emax (Zdigits2 m + e) - e) as [|p|p]; simpl;
    [exact H0| |exact H0].
  apply (iter_pos_invariant shr_1 (fun mrs => 0 <= shr_m mrs));
    [apply shr_1_nonneg|exact H0].
Qed.

Lemma round_nearest_even_nonneg (m : Z) (l : location) :
  0 <= m -> 0 <= round_nearest_even m l.
Proof.
  intros Hm. destruct l as [|[]]; simpl; try lia.
  destruct (Z.even m); lia.
Qed.

Lemma binary_round_aux_not_nan (sx : bool) (m e : Z) (l : location) :
  0 <= m -> F64.is_nan (binary_round_aux prec emax sx m e l) = false.
Proof.
  intros Hm. unfold binary_round_aux.
  pose proof (shr_fexp_nonneg e l Hm) as H1.
  destruct (shr_fexp prec emax m e l) as [mrs' e']. simpl in H1.
  pose proof (shr_fexp_nonneg e' loc_Exact
                (round_nearest_even_nonneg (loc_of_shr_record mrs') H1))
    as H2.
  destruct (shr_fexp prec emax _ e' loc_Exact) as [mrs'' e'']. simpl in H2.
  destruct (shr_m mrs'') as [|p|p]; [reflexivity| |lia].
  destruct (e'' <=? emax - prec); reflexivity.
Qed.

Lemma binary_round_not_nan (sx : bool) (m : positive) (e : Z) :
  F64.is_nan (binary_round prec emax sx m e) = false.
Proof.
  unfold binary_round. destruct (shl_align _ _ _) as [mz ez].
  apply binary_round_aux_not_nan. lia.
Qed.

Lemma binary_normalize_not_nan (m e : Z) (szero : bool) :
  F64.is_nan (binary_normalize prec emax m e szero) = false.
Proof.
  destruct m; simpl; [reflexivity| |]; apply binary_round_not_nan.
Qed.

Lemma SFdiv_not_nan (sx sy : bool) (mx my : positive) (ex ey : Z) :
  F64.is_nan (SFdiv prec emax (S754_finite sx mx ex) (S754_finite sy my ey))
  = false.
Proof.
  unfold SFdiv, SFdiv_core_binary.
  set (s := _ - _ - _).
  set (m' := match s with Z0 => Z.pos mx | Z.pos _ => Z.shiftl (Z.pos mx) s
             | Z.neg _ => 0 end).
  assert (Hm' : 0 <= m').
  { unfold m'. destruct s; try lia. apply Z.shiftl_nonneg. lia. }
  pose proof (Z.div_pos m' (Z.pos my) Hm' eq_refl) as Hq.
  unfold Z.div in Hq.
  destruct (Z.div_eucl m' (Z.pos my)) as [q r]. simpl in Hq.
  apply binary_round_aux_not_nan, Hq.
Qed.

End Rounding.

Lemma of_Z_not_nan (z : Z) : F64.is_nan (F64.of_Z z) = false.
Proof. apply binary_normalize_not_nan. Qed.

Lemma of_decimal_not_nan (neg : bool) (m e : Z) :
  F64.is_nan (F64.of_decimal neg m e) = false.
Proof.
  unfold F64.of_decimal. destruct m as [|p|p]; try reflexivity.
  destruct (400 <? e); [reflexivity|].
  destruct (_ <? - 400); [reflexivity|].
  destruct (0 <=? e); [apply binary_round_not_nan|apply SFdiv_not_nan].
Qed.

Lemma parse_body_not_nan (s : list ascii) (f : F64.float) :
  F64.parse_body s = Some (F64.NumFloat f) -> F64.is_nan f = false.
Proof.
  unfold F64.parse_body.
  destruct (F64.sign s) as [neg s0].
  destruct (F64.digits s0 0 0) as [[ip ni] s1].
  destruct s1 as [|c s2].
  - destruct (0 <? ni); [|discriminate].
    destruct (F64.in_int64 _); intros H; inversion H.
    apply of_decimal_not_nan.
  - assert (Hexp : (if 0 <? ni
                    then match F64.exponent (c :: s2) with
                         | Some x => Some (F64.NumFloat (F64.of_decimal neg ip x))
                         | None => None
                         end
                    else None) = Some (F64.NumFloat f) ->
                   F64.is_nan f = false).
    { destruct (0 <? ni); [|discriminate].
      destruct (F64.exponent (c :: s2)); [|discriminate].
      intros H; inversion H. apply of_decimal_not_nan. }
    destruct c as [[] [] [] [] [] [] [] []]; try exact Hexp.
    destruct (F64.digits s2 ip 0) as [[m nf] s3].
    destruct (0 <? ni + nf); [|discriminate].
    destruct (F64.exponent s3); [|discriminate].
    intros H; inversion H. apply of_decimal_not_nan.
Qed.

Lemma parse_not_nan (s : string) (f : F64.float) :
  F64.parse s = Some (F64.NumFloat f) -> F64.is_nan f = false.
Proof.
  unfold F64.parse.
  destruct (F64.parse_body _) as [n|] eqn:E.
  - intros H; inversion H; subst n. apply (parse_body_not_nan _ E).
  - unfold F64.infinity_word.
    destruct (_ || _ || _ || _)%bool; [intros H; inversion H; reflexivity|].
    destruct (_ || _)%bool; [intros H; inversion H; reflexivity|].
    discriminate.
Qed.

(** ** Rows stay complete *)

Lemma complete_set_cell (i : option nat) (r : list value) (v : value) :
  complete_row r -> isna v = false -> complete_row (set_cell i r v).
Proof.
  unfold complete_row. intros Hr Hv. destruct i as [i|]; simpl.
  - revert i. induction Hr as [|x r Hx Hr IH]; intros [|i]; simpl;
      constructor; auto.
  - apply Forall_app. split; [exact Hr|]. constructor; [exact Hv|constructor].
Qed.

Lemma complete_setitem (df : DataFrame) (name : string) (vs : list value) :
  Forall complete_row (rows df) ->
  Forall (fun v => isna v = false) vs ->
  Forall complete_row (rows (setitem df name vs)).
Proof.
  intros Hrows Hvs. unfold setitem; simpl. rewrite Forall_forall in *.
  intros r Hr. apply in_map_iff in Hr. destruct Hr as [[r0 v] [<- Hin]].
  simpl. apply complete_set_cell.
  - apply Hrows. apply (in_combine_l _ _ _ _ Hin).
  - apply Hvs. apply (in_combine_r _ _ _ _ Hin).
Qed.

Lemma complete_getitem (df : DataFrame) (name : string) (vs : list value) :
  rectangular df -> Forall complete_row (rows df) ->
  getitem df name = Ok vs -> Forall (fun v => isna v = false) vs.
Proof.
  intros Hrect Hrows H. apply getitem_Ok in H. destruct H as [i [Hi ->]].
  unfold rectangular in Hrect. rewrite Forall_forall in *.
  intros v Hv. apply in_map_iff in Hv. destruct Hv as [r [<- Hr]].
  specialize (Hrows r Hr). unfold complete_row in Hrows.
  rewrite Forall_forall in Hrows. apply Hrows. unfold cell. apply nth_In.
  rewrite (Hrect r Hr). apply (position_lt _ _ Hi).
Qed.

Lemma complete_dropna (df : DataFrame) :
  Forall complete_row (rows (dropna df)).
Proof.
  unfold dropna; simpl. rewrite Forall_forall. intros r Hr.
  apply filter_In in Hr. apply complete_row_notna, Hr.
Qed.

Lemma to_numbers_present (vs : list value) :
  Forall (fun v => isna v = false) vs ->
  forall i xs, to_numbers i vs = Ok xs ->
               Forall (fun v => isna v = false) xs.
Proof.
  induction 1 as [|v vs Hv _ IH]; intros i xs; simpl.
  - intros H; inversion H. constructor.
  - destruct (to_number i v) as [x|e] eqn:Hx; simpl; [|discriminate].
    destruct (to_numbers (S i) vs) as [xs'|e] eqn:Hxs; simpl; [|discriminate].
    intros H; inversion H; subst xs; clear H.
    constructor; [|apply (IH _ _ Hxs)].
    destruct v as [s|z|f]; simpl in Hx.
    + destruct (F64.parse s) as [[z|f]|] eqn:Hp; inversion Hx; subst x.
      * reflexivity.
      * simpl. apply (parse_not_nan _ Hp).
    + inversion Hx; reflexivity.
    + inversion Hx; subst x. exact Hv.
Qed.

Lemma upcast_present (v : value) : isna v = false -> isna (upcast v) = false.
Proof. destruct v; simpl; auto. intros _. apply of_Z_not_nan. Qed.

Lemma to_numeric_present (vs xs : list value) :
  Forall (fun v => isna v = false) vs -> to_numeric vs = Ok xs ->
  Forall (fun v => isna v = false) xs.
Proof.
  intros Hvs. unfold to_numeric.
  destruct (to_numbers 0 vs) as [ys|e] eqn:Hys; simpl; [|discriminate].
  intros H; inversion H; subst xs; clear H.
  pose proof (to_numbers_present Hvs _ Hys) as Hp.
  destruct (forallb is_int ys); [exact Hp|].
  rewrite Forall_forall in *. intros x Hx. apply in_map_iff in Hx.
  destruct Hx as [y [<- Hy]]. apply upcast_present, Hp, Hy.
Qed.

Lemma apply_rows_keys_present (df : DataFrame) (columns : list string)
  (ids : list value) :
  apply_rows df (CSVCleaner.unique_id_of columns) = Ok ids ->
  Forall (fun v => isna v = false) ids.
Proof.
  unfold apply_rows.
  apply (@mapM_Forall _ _ (fun v => isna v = false)).
  intros r k. simpl. unfold CSVCleaner.unique_id_of.
  destruct (mapM _ columns); simpl; intros H; inversion H. reflexivity.
Qed.

(** X22. After a successful first half the frame of the object has no
    missing value: what [remove_rows] leaves complete stays complete
    under the keys and the conversion of the amounts. *)
Theorem cleaned_frame_is_complete :
  forall (input output : string) (w : World) (s' : State CSVCleaner.t),
    clean output (mkState (CSVCleaner.init input) w) = (Ok tt, s') ->
    exists df,
      CSVCleaner.data (self s') = Some df
      /\ world s' output = Some (to_csv df)
      /\ Forall complete_row (rows df).
Proof.
  intros input output w s'. unfold CSVCleaner.init. rewrite clean_eq.
  destruct (w input) as [f|]; [|discriminate].
  destruct (parse_csv f) as [df|e] eqn:Hp; [|discriminate].
  destruct (empty df); [discriminate|].
  destruct (apply_rows (dropna df) (CSVCleaner.unique_id_of (columns df)))
    as [ids|e] eqn:Hids; [|discriminate].
  cbv zeta.
  destruct (getitem (setitem (dropna df) "unique_id" ids)
              "transaction_amount") as [amounts|e] eqn:Ha; [|discriminate].
  destruct (to_numeric amounts) as [numbers|e] eqn:Hn; [|discriminate].
  intros H; inversion H; subst; clear H.
  eexists. split; [reflexivity|]. split; [apply write_file_same|].
  assert (Hkeyed : Forall complete_row
                     (rows (setitem (dropna df) "unique_id" ids))).
  { apply complete_setitem; [apply complete_dropna|].
    apply (apply_rows_keys_present _ _ Hids). }
  apply complete_setitem; [exact Hkeyed|].
  apply (@to_numeric_present amounts); [|exact Hn].
  apply (@complete_getitem (setitem (dropna df) "unique_id" ids)
           "transaction_amount"); [|exact Hkeyed|exact Ha].
  apply rectangular_setitem, rectangular_dropna,
    (parse_csv_rectangular _ Hp).
Qed.

Lemma cleaned_frame_is_complete_witness :
  let w := only_file "input_data.csv" unit_test_input in
  let run :=
    clean "cleaned_data.csv" (mkState (CSVCleaner.init "input_data.csv") w) in
  run = (Ok tt, snd run)
  /\ exists df,
      CSVCleaner.data (self (snd run)) = Some df
      /\ world (snd run) "cleaned_data.csv" = Some (to_csv df)
      /\ Forall complete_row (rows df).
Proof.
  intros w run.
  assert (H : run = (Ok tt, snd run)) by (vm_compute; reflexivity).
  split; [exact H|].
  exact (@cleaned_frame_is_complete
           "input_data.csv" "cleaned_data.csv" w (snd run) H).
Defined.

(** X23. The first half changes two columns and no other: a column of
    another label holds in the cleaned frame what it held in the complete
    rows of the input, row by row. *)
Theorem cleaning_keeps_other_columns :
  forall (input output : string) (w : World) (s' : State CSVCleaner.t),
    clean output (mkState (CSVCleaner.init input) w) = (Ok tt, s') ->
    exists f df out,
      w input = Some f
      /\ parse_csv f = Ok df
      /\ CSVCleaner.data (self s') = Some out
      /\ len out = len (dropna df)
      /\ forall c, c <> "unique_id" -> c <> "transaction_amount" ->
           getitem out c = getitem (dropna df) c.
Proof.
  intros input output w s'. unfold CSVCleaner.init. rewrite clean_eq.
  destruct (w input) as [f|]; [|discriminate].
  destruct (parse_csv f) as [df|e] eqn:Hp; [|discriminate].
  destruct (empty df); [discriminate|].
  destruct (apply_rows (dropna df) (CSVCleaner.unique_id_of (columns df)))
    as [ids|e] eqn:Hids; [|discriminate].
  cbv zeta.
  destruct (getitem (setitem (dropna df) "unique_id" ids)
              "transaction_amount") as [amounts|e] eqn:Ha; [|discriminate].
  destruct (to_numeric amounts) as [numbers|e] eqn:Hn; [|discriminate].
  intros H; inversion H; subst; clear H.
  exists f, df. eexists. split; [reflexivity|]. split; [exact Hp|].
  split; [reflexivity|].
  assert (Hrect : rectangular (dropna df))
    by apply rectangular_dropna, (parse_csv_rectangular _ Hp).
  assert (Hlen : List.length ids = len (dropna df))
    by apply (apply_rows_length _ _ Hids).
  assert (Hlen' : List.length numbers
                  = len (setitem (dropna df) "unique_id" ids)).
  { rewrite (to_numeric_length _ Hn). apply (getitem_length _ _ Ha). }
  split.
  - rewrite len_setitem by exact Hlen'. apply len_setitem, Hlen.
  - intros c Hc1 Hc2.
    rewrite getitem_setitem_other;
      [|apply rectangular_setitem, Hrect|exact Hlen'|exact Hc2].
    apply getitem_setitem_other; assumption.
Qed.

Lemma cleaning_keeps_other_columns_witness :
  let w := only_file "input_data.csv" unit_test_input in
  let run :=
    clean "cleaned_data.csv" (mkState (CSVCleaner.init "input_data.csv") w) in
  run = (Ok tt, snd run)
  /\ exists f df out,
      w "input_data.csv" = Some f
      /\ parse_csv f = Ok df
      /\ CSVCleaner.data (self (snd run)) = Some out
      /\ len out = len (dropna df)
      /\ forall c, c <> "unique_id" -> c <> "transaction_amount" ->
           getitem out c = getitem (dropna df) c.
Proof.
  intros w run.
  assert (H : run = (Ok tt, snd run)) by (vm_compute; reflexivity).
  split; [exact H|].
  exact (@cleaning_keeps_other_columns
           "input_data.csv" "cleaned_data.csv" w (snd run) H).
Defined.

(** ** [Transformations] at its edges *)

Lemma Transformations_init_eq (path : string) (w : World) :
  Transformations.init path w
  = match w path with
    | Some f =>
        match parse_csv f with
        | Ok df => Ok (Transformations.mk path df)
        | Raise e => Raise e
        end
    | None =>
        Raise (FileNotFoundError
                 ("[Errno 2] No such file or directory: '" ++ path ++ "'"))
    end.
Proof.
  unfold Transformations.init, read_csv; simpl.
  destruct (w path) as [f|]; [|reflexivity].
  destruct (parse_csv f); reflexivity.
Qed.

(** X13. [group_by_customer_id] on a frame that lacks one of the two
    columns raises [KeyError], for [customer_id] first, and leaves the
    object as it was. *)
Theorem group_by_customer_id_missing_column :
  forall (t : Transformations.t) (w : World),
    let cols := columns (Transformations.data t) in
    ~ (In "customer_id" cols /\ In "transaction_amount" cols) ->
    Transformations.group_by_customer_id (mkState t w)
    = (Raise (KeyError
                (if existsb (String.eqb "customer_id") cols
                 then "Column not found: transaction_amount"
                 else "customer_id")),
       mkState t w).
Proof.
  intros t w cols H. rewrite group_by_customer_id_eq. unfold groupby_sum.
  fold cols.
  destruct (position "customer_id" cols) as [i|] eqn:Hi.
  - pose proof (position_Some_In _ _ Hi) as Hin.
    replace (existsb (String.eqb "customer_id") cols) with true
      by (symmetry; apply existsb_eqb_In, Hin).
    rewrite position_None; [reflexivity|]. intros Ha. apply H. auto.
  - destruct (existsb (String.eqb "customer_id") cols) eqn:E;
      [|reflexivity].
    apply existsb_eqb_In in E. destruct (position_In _ _ E) as [i Hi'].
    congruence.
Qed.

Lemma group_by_customer_id_missing_column_witness :
  let t := Transformations.mk "cleaned_data.csv" one_text_cell in
  ~ (In "customer_id" (columns one_text_cell)
     /\ In "transaction_amount" (columns one_text_cell))
  /\ Transformations.group_by_customer_id (mkState t (fun _ => None))
     = (Raise (KeyError
                 (if existsb (String.eqb "customer_id")
                       (columns one_text_cell)
                  then "Column not found: transaction_amount"
                  else "customer_id")),
        mkState t (fun _ => None)).
Proof.
  intros t.
  assert (H : ~ (In "customer_id" (columns one_text_cell)
                 /\ In "transaction_amount" (columns one_text_cell)))
    by (intros [[H|[]] _]; discriminate).
  split; [exact H|].
  exact (@group_by_customer_id_missing_column t (fun _ => None) H).
Defined.

(** X14. [group_by_customer_id] works once: the frame it leaves has the
    total under a new label, so a second call finds no column
    [transaction_amount] and raises. *)
Theorem group_by_customer_id_twice :
  forall (t : Transformations.t) (w : World) (out : DataFrame)
         (s1 : State Transformations.t),
    Transformations.group_by_customer_id (mkState t w) = (Ok out, s1) ->
    Transformations.group_by_customer_id s1
    = (Raise (KeyError "Column not found: transaction_amount"), s1).
Proof.
  intros t w out s1. rewrite group_by_customer_id_eq.
  destruct (groupby_sum (Transformations.data t)
              "customer_id" "transaction_amount") as [g|e] eqn:Hg;
    [|discriminate].
  cbv zeta. intros H; inversion H; subst; clear H.
  rewrite group_by_customer_id_eq. simpl Transformations.data.
  apply groupby_sum_columns in Hg. destruct Hg as [Hc _].
  unfold groupby_sum, rename. simpl columns. rewrite Hc. reflexivity.
Qed.

Lemma group_by_customer_id_twice_witness :
  let w := only_file "cleaned_data.csv" three_transactions in
  let r :=
    Transformations.group_by_customer_id
      (mkState (transformations_of three_transactions) w) in
  r = (Ok (frame_of (fst r)), snd r)
  /\ Transformations.group_by_customer_id (snd r)
     = (Raise (KeyError "Column not found: transaction_amount"), snd r).
Proof.
  intros w r.
  assert (H : r = (Ok (frame_of (fst r)), snd r))
    by (vm_compute; reflexivity).
  split; [exact H|].
  exact (@group_by_customer_id_twice
           (transformations_of three_transactions) w (frame_of (fst r))
           (snd r) H).
Defined.

(** X12. [Transformations] takes a file with a header and no record,
    which [read_data] refuses: it aggregates to a frame of no rows under
    the two labels. *)
Theorem transformations_of_header_only :
  forall (path : string) (w : World) (header : list string),
    w path = Some [header] ->
    In "customer_id" header ->
    In "transaction_amount" header ->
    let none := mkDataFrame ["customer_id"; "total_transaction_amount"] [] in
    exists t,
      Transformations.init path w = Ok t
      /\ Transformations.group_by_customer_id (mkState t w)
         = (Ok none, mkState (Transformations.mk path none) w)
      /\ fst (CSVCleaner.read_data (mkState (CSVCleaner.init path) w))
         = Raise (ValueError "The input CSV contains no data.").
Proof.
  intros path w header Hf Hc Ha none.
  exists (Transformations.mk path (mkDataFrame header [])).
  split; [rewrite Transformations_init_eq, Hf; reflexivity|].
  split.
  - rewrite group_by_customer_id_eq. unfold groupby_sum. simpl.
    destruct (position_In _ _ Hc) as [i ->].
    destruct (position_In _ _ Ha) as [j ->]. reflexivity.
  - unfold CSVCleaner.init. rewrite read_data_eq, Hf. reflexivity.
Qed.

Lemma transformations_of_header_only_witness :
  let w := only_file "cleaned_data.csv" header_only in
  let none := mkDataFrame ["customer_id"; "total_transaction_amount"] [] in
  w "cleaned_data.csv" = Some [ ["customer_id"; "transaction_amount"] ]
  /\ In "customer_id" ["customer_id"; "transaction_amount"]
  /\ In "transaction_amount" ["customer_id"; "transaction_amount"]
  /\ exists t,
      Transformations.init "cleaned_data.csv" w = Ok t
      /\ Transformations.group_by_customer_id (mkState t w)
         = (Ok none, mkState (Transformations.mk "cleaned_data.csv" none) w)
      /\ fst (CSVCleaner.read_data
                (mkState (CSVCleaner.init "cleaned_data.csv") w))
         = Raise (ValueError "The input CSV contains no data.").
Proof.
  intros w none.
  assert (H1 : w "cleaned_data.csv"
               = Some [ ["customer_id"; "transaction_amount"] ])
    by reflexivity.
  assert (H2 : In "customer_id" ["customer_id"; "transaction_amount"])
    by (simpl; auto).
  assert (H3 : In "transaction_amount" ["customer_id"; "transaction_amount"])
    by (simpl; auto).
  split; [exact H1|]. split; [exact H2|]. split; [exact H3|].
  exact (@transformations_of_header_only "cleaned_data.csv" w _ H1 H2 H3).
Defined.

(** ** [main] *)

Lemma transform_eq (output : string) (t : Transformations.t) (w : World) :
  transform output (mkState t w)
  = match groupby_sum (Transformations.data t)
            "customer_id" "transaction_amount" with
    | Ok g =>
        let out :=
          rename g "transaction_amount" "total_transaction_amount" in
        (Ok tt,
         mkState (Transformations.mk (Transformations.file_path t) out)
           (write_file w output (to_csv out)))
    | Raise e => (Raise e, mkState t w)
    end.
Proof.
  unfold transform. unfold bind at 1. rewrite group_by_customer_id_eq.
  destruct (groupby_sum (Transformations.data t)
              "customer_id" "transaction_amount"); reflexivity.
Qed.

(** [main] after a first half that went through: the cleaned file reads
    back, and the second half depends on the label [customer_id] alone. *)
Lemma main_after_clean (w : World) (s1 : State CSVCleaner.t) :
  clean "cleaned_data.csv" (mkState (CSVCleaner.init "input_data.csv") w)
  = (Ok tt, s1) ->
  exists header records,
    w "input_data.csv" = Some (header :: records)
    /\ (exists cleaned, world s1 "cleaned_data.csv" = Some cleaned)
    /\ world s1 "aggregated_transactions.csv"
       = w "aggregated_transactions.csv"
    /\ ((In "customer_id" header
         /\ exists body,
              main w
              = (Ok tt,
                 write_file (world s1) "aggregated_transactions.csv"
                   (["customer_id"; "total_transaction_amount"] :: body))
              /\ Forall (fun r => List.length r = 2%nat) body
              /\ (List.length body <= List.length records)%nat)
        \/ (~ In "customer_id" header
            /\ main w = (Raise (KeyError "customer_id"), world s1))).
Proof.
  intros H.
  destruct (@clean_Ok _ _ _ _ H)
    as [header [records [df [out [Hf [Hp [Hs [Hr [Hc [Ha Hl]]]]]]]]]].
  exists header, records. split; [exact Hf|].
  assert (Hw : world s1 "cleaned_data.csv" = Some (to_csv out)).
  { rewrite Hs. apply write_file_same. }
  split; [eauto|]. split; [rewrite Hs; reflexivity|].
  destruct (parse_to_csv Hr) as [df' [Hp' [Hc' Hl']]].
  unfold main, call. rewrite H. cbv iota beta. simpl fst; simpl snd.
  rewrite Transformations_init_eq, Hw, Hp'.
  rewrite transform_eq. simpl Transformations.data.
  assert (Hamt : exists j,
             position "transaction_amount" (columns df') = Some j).
  { apply position_In. rewrite Hc'. exact Ha. }
  destruct Hamt as [j Hj].
  destruct (in_dec string_dec "customer_id" header) as [Hin|Hnot].
  - left. split; [exact Hin|].
    assert (Hcid : exists i, position "customer_id" (columns df') = Some i).
    { apply position_In. rewrite Hc', Hc. apply In_with_unique_id;
        [discriminate|exact Hin]. }
    destruct Hcid as [i Hi].
    destruct (@groupby_sum_spec df' "customer_id" "transaction_amount" i j
                Hi Hj) as [totals [Hg _]].
    { apply (@parse_csv_typed _ _ Hp' j). }
    rewrite Hg.
    exists (map (map field_of)
              (map (fun kt => [fst kt; snd kt])
                 (combine (group_keys (map (fun r => cell r i) (rows df')))
                    totals))).
    split; [reflexivity|]. split.
    + rewrite Forall_forall. intros r Hin'. apply in_map_iff in Hin'.
      destruct Hin' as [vs [<- Hvs]]. apply in_map_iff in Hvs.
      destruct Hvs as [kt [<- _]]. reflexivity.
    + rewrite !length_map, length_combine.
      pose proof (length_group_keys (map (fun r => cell r i) (rows df'))) as Hk.
      rewrite length_map in Hk. unfold len in Hl', Hl. lia.
  - right. split; [exact Hnot|].
    unfold groupby_sum. rewrite position_None; [reflexivity|].
    rewrite Hc', Hc. rewrite In_with_unique_id; [exact Hnot|discriminate].
Qed.

Lemma main_clean_Raise (w : World) (e : exn) (s1 : State CSVCleaner.t) :
  clean "cleaned_data.csv" (mkState (CSVCleaner.init "input_data.csv") w)
  = (Raise e, s1) ->
  main w = (Raise e, w).
Proof.
  intros H. unfold main, call. rewrite H. simpl.
  rewrite (@clean_Raise_world _ _ _ _ _ H). reflexivity.
Qed.

(** X18. When the first half goes through and the input has a column
    [customer_id], [main] ends without an exception and writes the
    aggregated file under the two labels, two fields to a record and no
    more records than the input has. *)
Theorem main_succeeds_with_customer_id :
  forall (w : World) (s1 : State CSVCleaner.t) (header : list string)
         (records : list (list string)),
    clean "cleaned_data.csv" (mkState (CSVCleaner.init "input_data.csv") w)
    = (Ok tt, s1) ->
    w "input_data.csv" = Some (header :: records) ->
    In "customer_id" header ->
    exists body,
      main w
      = (Ok tt,
         write_file (world s1) "aggregated_transactions.csv"
           (["customer_id"; "total_transaction_amount"] :: body))
      /\ Forall (fun r => List.length r = 2%nat) body
      /\ (List.length body <= List.length records)%nat.
Proof.
  intros w s1 header records H Hf Hin.
  destruct (@main_after_clean _ _ H) as [header' [records' [Hf' [_ [_ Hmain]]]]].
  rewrite Hf in Hf'. inversion Hf'; subst header' records'.
  destruct Hmain as [[_ Hok]|[Hnot _]]; [exact Hok|contradiction].
Qed.

Lemma main_succeeds_with_customer_id_witness :
  let w := only_file "input_data.csv" repeated_transaction in
  let run :=
    clean "cleaned_data.csv" (mkState (CSVCleaner.init "input_data.csv") w) in
  run = (Ok tt, snd run)
  /\ w "input_data.csv"
     = Some (["customer_id"; "transaction_amount"]
               :: [ ["A1"; "5"]; ["A1"; "5"] ])
  /\ In "customer_id" ["customer_id"; "transaction_amount"]
  /\ exists body,
      main w
      = (Ok tt,
         write_file (world (snd run)) "aggregated_transactions.csv"
           (["customer_id"; "total_transaction_amount"] :: body))
      /\ Forall (fun r => List.length r = 2%nat) body
      /\ (List.length body <= List.length [ ["A1"; "5"]; ["A1"; "5"] ])%nat.
Proof.
  intros w run.
  assert (H1 : run = (Ok tt, snd run)) by (vm_compute; reflexivity).
  assert (H2 : w "input_data.csv"
               = Some (["customer_id"; "transaction_amount"]
                         :: [ ["A1"; "5"]; ["A1"; "5"] ]))
    by reflexivity.
  assert (H3 : In "customer_id" ["customer_id"; "transaction_amount"])
    by (simpl; auto).
  split; [exact H1|]. split; [exact H2|]. split; [exact H3|].
  exact (@main_succeeds_with_customer_id w (snd run) _ _ H1 H2 H3).
Defined.

(** X19. When the first half goes through and the input has no column
    [customer_id], [main] ends with [KeyError] after the cleaned file was
    written: that file stays and the aggregated file is not touched. *)
Theorem main_stops_without_customer_id :
  forall (w : World) (s1 : State CSVCleaner.t) (header : list string)
         (records : list (list string)),
    clean "cleaned_data.csv" (mkState (CSVCleaner.init "input_data.csv") w)
    = (Ok tt, s1) ->
    w "input_data.csv" = Some (header :: records) ->
    ~ In "customer_id" header ->
    fst (main w) = Raise (KeyError "customer_id")
    /\ (exists cleaned, snd (main w) "cleaned_data.csv" = Some cleaned)
    /\ snd (main w) "aggregated_transactions.csv"
       = w "aggregated_transactions.csv".
Proof.
  intros w s1 header records H Hf Hnot.
  destruct (@main_after_clean _ _ H)
    as [header' [records' [Hf' [Hc [Ha Hmain]]]]].
  rewrite Hf in Hf'. inversion Hf'; subst header' records'.
  destruct Hmain as [[Hin _]|[_ Hm]]; [contradiction|].
  rewrite Hm. simpl. auto.
Qed.

Lemma main_stops_without_customer_id_witness :
  let w := only_file "input_data.csv" no_customer_column in
  let run :=
    clean "cleaned_data.csv" (mkState (CSVCleaner.init "input_data.csv") w) in
  run = (Ok tt, snd run)
  /\ w "input_data.csv" = Some (["transaction_amount"] :: [ ["5"] ])
  /\ ~ In "customer_id" ["transaction_amount"]
  /\ fst (main w) = Raise (KeyError "customer_id")
  /\ (exists cleaned, snd (main w) "cleaned_data.csv" = Some cleaned)
  /\ snd (main w) "aggregated_transactions.csv"
     = w "aggregated_transactions.csv".
Proof.
  intros w run.
  assert (H1 : run = (Ok tt, snd run)) by (vm_compute; reflexivity).
  assert (H2 : w "input_data.csv" = Some (["transaction_amount"] :: [ ["5"] ]))
    by reflexivity.
  assert (H3 : ~ In "customer_id" ["transaction_amount"])
    by (intros [H|[]]; discriminate).
  split; [exact H1|]. split; [exact H2|]. split; [exact H3|].
  exact (@main_stops_without_customer_id w (snd run) _ _ H1 H2 H3).
Defined.

(** X17. When [main] raises, either no file has been written (the first
    half failed), or the exception is the [KeyError] for [customer_id]
    of the second half, raised with the cleaned file on disk and the
    aggregated file not touched. *)
Theorem main_failures :
  forall (w : World) (e : exn),
    fst (main w) = Raise e ->
    snd (main w) = w
    \/ (e = KeyError "customer_id"
        /\ (exists cleaned, snd (main w) "cleaned_data.csv" = Some cleaned)
        /\ snd (main w) "aggregated_transactions.csv"
           = w "aggregated_transactions.csv").
Proof.
  intros w e.
  destruct (clean "cleaned_data.csv"
              (mkState (CSVCleaner.init "input_data.csv") w))
    as [[[]|e1] s1] eqn:H.
  - destruct (@main_after_clean _ _ H)
      as [header [records [_ [Hc [Ha Hmain]]]]].
    destruct Hmain as [[_ [body [Hm _]]]|[_ Hm]]; rewrite Hm; simpl.
    + discriminate.
    + intros He; inversion He; subst e. right.
      split; [reflexivity|]. split; [exact Hc|exact Ha].
  - rewrite (@main_clean_Raise _ _ _ H). simpl. intros _. left. reflexivity.
Qed.

Lemma main_failures_witness :
  let w := only_file "input_data.csv" no_customer_column in
  fst (main w) = Raise (KeyError "customer_id")
  /\ (snd (main w) = w
      \/ (KeyError "customer_id" = KeyError "customer_id"
          /\ (exists cleaned,
                snd (main w) "cleaned_data.csv" = Some cleaned)
          /\ snd (main w) "aggregated_transactions.csv"
             = w "aggregated_transactions.csv")).
Proof.
  intros w.
  assert (H : fst (main w) = Raise (KeyError "customer_id"))
    by (vm_compute; reflexivity).
  split; [exact H|].
  exact (@main_failures w (KeyError "customer_id") H).
Defined.

(** X16. Without data to work on [main] ends at the first step and writes
    nothing: no input file, a file of no records at all, or a header with
    no record under it. *)
Theorem main_without_data :
  forall w : World,
    match w "input_data.csv" with
    | None =>
        main w
        = (Raise (FileNotFoundError "File not found: input_data.csv"), w)
    | Some [] =>
        main w = (Raise (EmptyDataError "No columns to parse from file"), w)
    | Some [header] =>
        main w = (Raise (ValueError "The input CSV contains no data."), w)
    | Some _ => True
    end.
Proof.
  intros w.
  destruct (w "input_data.csv") as [[|header [|r records]]|] eqn:Hf;
    [| |exact I|].
  - eapply main_clean_Raise. unfold CSVCleaner.init. rewrite clean_eq, Hf.
    reflexivity.
  - eapply main_clean_Raise. unfold CSVCleaner.init. rewrite clean_eq, Hf.
    reflexivity.
  - eapply main_clean_Raise. unfold CSVCleaner.init. rewrite clean_eq, Hf.
    reflexivity.
Qed.

(** ** The script as a whole *)

(** Every run of the script, by the file it finds. *)
Lemma run_eq (w : World) :
  Simple.run w
  = match w "input_data.csv" with
    | None => (Raise (NameError "input_data"), w)
    | Some f =>
        match parse_csv f with
        | Raise e => (Raise e, w)
        | Ok df =>
            match getitem (dropna df) "transaction_amount" with
            | Raise e => (Raise e, w)
            | Ok amounts =>
                match to_numeric amounts with
                | Raise e => (Raise e, w)
                | Ok numbers =>
                    let converted :=
                      setitem (dropna df) "transaction_amount" numbers in
                    match apply_rows converted
                            (CSVCleaner.unique_id_of (columns converted)) with
                    | Raise e => (Raise e, w)
                    | Ok ids =>
                        match groupby_sum
                                (setitem converted "unique_id" ids)
                                "customer_id" "transaction_amount" with
                        | Raise e => (Raise e, w)
                        | Ok g =>
                            (Ok tt,
                             write_file w "aggregated_transactions.csv"
                               (to_csv
                                  (rename g "transaction_amount"
                                     "total_transaction_amount")))
                        end
                    end
                end
            end
        end
    end.
Proof.
  unfold Simple.run, Simple.etl.
  unfold bind at 1. unfold try_except. unfold bind at 1.
  unfold read_csv at 1. simpl world.
  destruct (w "input_data.csv") as [f|]; [|reflexivity].
  destruct (parse_csv f) as [df|e] eqn:Hp.
  2:{ destruct (@parse_csv_errors _ _ Hp) as [->|[a [b [c ->]]]]; reflexivity. }
  unfold Simple.bind_input_data at 1. simpl world.
  unfold bind at 1. unfold Simple.input_data at 1. simpl self.
  unfold bind at 1. unfold Simple.bind_input_data at 1. simpl world.
  unfold bind at 1. unfold Simple.input_data at 1. simpl self.
  unfold bind at 1. unfold lift at 1.
  destruct (getitem (dropna df) "transaction_amount") as [amounts|e];
    [|reflexivity].
  unfold bind at 1. unfold lift at 1.
  destruct (to_numeric amounts) as [numbers|e]; [|reflexivity].
  unfold bind at 1. unfold Simple.bind_input_data at 1. simpl world.
  unfold bind at 1. unfold Simple.input_data at 1. simpl self.
  cbv zeta.
  unfold bind at 1. unfold lift at 1.
  destruct (apply_rows _ _) as [ids|e]; [|reflexivity].
  unfold bind at 1. unfold Simple.bind_input_data at 1. simpl world.
  unfold bind at 1. unfold Simple.input_data at 1. simpl self.
  unfold bind at 1. unfold lift at 1.
  destruct (setitem_has_column
              (setitem (dropna df) "transaction_amount" numbers)
              "unique_id" ids) as [j Hj].
  destruct (drop_duplicates_Ok _ _ Hj) as [dd Hdd]. rewrite Hdd.
  unfold bind at 1. unfold Simple.input_data at 1. simpl self.
  unfold bind at 1. unfold lift at 1.
  destruct (groupby_sum _ _ _) as [g|e]; [|reflexivity].
  reflexivity.
Qed.

(** The script after the amounts were converted: the rest depends on
    the label [customer_id] alone. *)
Lemma run_after_to_numeric (w : World) (f : csv) (df : DataFrame)
  (amounts numbers : list value) :
  w "input_data.csv" = Some f ->
  parse_csv f = Ok df ->
  getitem (dropna df) "transaction_amount" = Ok amounts ->
  to_numeric amounts = Ok numbers ->
  (In "customer_id" (columns df)
   /\ exists body,
        Simple.run w
        = (Ok tt,
           write_file w "aggregated_transactions.csv"
             (["customer_id"; "total_transaction_amount"] :: body))
        /\ Forall (fun r => List.length r = 2%nat) body
        /\ (len (dropna df) = 0%nat -> body = []))
  \/ (~ In "customer_id" (columns df)
      /\ Simple.run w = (Raise (KeyError "customer_id"), w)).
Proof.
  intros Hf Hp Ha Hn. rewrite run_eq, Hf, Hp, Ha, Hn. cbv zeta.
  set (converted := setitem (dropna df) "transaction_amount" numbers).
  assert (Hrect : rectangular (dropna df))
    by apply rectangular_dropna, (parse_csv_rectangular _ Hp).
  assert (Hlen : List.length numbers = len (dropna df)).
  { rewrite (to_numeric_length _ Hn). apply (getitem_length _ _ Ha). }
  assert (Hrect' : rectangular converted)
    by apply rectangular_setitem, Hrect.
  destruct (apply_rows_all_columns converted) as [ids Hids]. rewrite Hids.
  assert (Hlen' : List.length ids = len converted)
    by apply (apply_rows_length _ _ Hids).
  set (keyed := setitem converted "unique_id" ids).
  assert (Hamt : getitem keyed "transaction_amount" = Ok numbers).
  { unfold keyed. rewrite getitem_setitem_other;
      [|assumption|assumption|discriminate].
    apply getitem_setitem_same; assumption. }
  assert (Hcid : position "customer_id" (columns keyed)
                 = position "customer_id" (columns df)).
  { unfold keyed.
    rewrite (@setitem_position_other converted "unique_id" ids
               "customer_id"); [|discriminate].
    unfold converted.
    rewrite (@setitem_position_other (dropna df) "transaction_amount"
               numbers "customer_id"); [|discriminate].
    reflexivity. }
  apply getitem_Ok in Hamt. destruct Hamt as [j [Hj Hcol]].
  destruct (position "customer_id" (columns df)) as [i|] eqn:Hi.
  - left. split; [apply (position_Some_In _ _ Hi)|].
    destruct (@groupby_sum_spec keyed "customer_id" "transaction_amount"
                i j Hcid Hj) as [totals [Hg _]].
    { rewrite <- Hcol. apply (to_numeric_homogeneous _ Hn). }
    rewrite Hg.
    exists (map (map field_of)
              (map (fun kt => [fst kt; snd kt])
                 (combine
                    (group_keys (map (fun r => cell r i) (rows keyed)))
                    totals))).
    split; [reflexivity|]. split.
    + rewrite Forall_forall. intros r Hin. apply in_map_iff in Hin.
      destruct Hin as [vs [<- Hvs]]. apply in_map_iff in Hvs.
      destruct Hvs as [kt [<- _]]. reflexivity.
    + intros H0.
      assert (Hrows : rows keyed = []).
      { apply length_zero_iff_nil. change (len keyed = 0%nat).
        unfold keyed. rewrite len_setitem by assumption.
        unfold converted. rewrite len_setitem by assumption. exact H0. }
      rewrite Hrows. reflexivity.
  - right. split.
    + intros Hin. destruct (position_In _ _ Hin) as [i Hi']. congruence.
    + unfold groupby_sum. fold keyed. rewrite Hcid. reflexivity.
Qed.

(** X25. The script on a header with no record under it: it reports
    nothing as an exception, runs to the end and writes an aggregated
    file of the two labels and no record, where [main] raises. *)
Theorem script_on_header_only :
  forall (w : World) (header : list string),
    w "input_data.csv" = Some [header] ->
    In "customer_id" header ->
    In "transaction_amount" header ->
    Simple.run w
    = (Ok tt,
       write_file w "aggregated_transactions.csv"
         [ ["customer_id"; "total_transaction_amount"] ])
    /\ main w = (Raise (ValueError "The input CSV contains no data."), w).
Proof.
  intros w header Hf Hc Ha. split.
  - destruct (position_In _ _ Ha) as [j Hj].
    destruct (@run_after_to_numeric w [header] (mkDataFrame header [])
                [] [] Hf eq_refl) as [[_ [body [Hr [_ Hb]]]]|[Hnot _]].
    + unfold getitem, dropna; simpl. rewrite Hj. reflexivity.
    + reflexivity.
    + rewrite Hr, Hb; reflexivity.
    + contradiction.
  - eapply main_clean_Raise. unfold CSVCleaner.init.
    rewrite clean_eq, Hf. reflexivity.
Qed.

Lemma script_on_header_only_witness :
  let w := only_file "input_data.csv" header_only in
  w "input_data.csv" = Some [ ["customer_id"; "transaction_amount"] ]
  /\ In "customer_id" ["customer_id"; "transaction_amount"]
  /\ In "transaction_amount" ["customer_id"; "transaction_amount"]
  /\ Simple.run w
     = (Ok tt,
        write_file w "aggregated_transactions.csv"
          [ ["customer_id"; "total_transaction_amount"] ])
  /\ main w = (Raise (ValueError "The input CSV contains no data."), w).
Proof.
  intros w.
  assert (H1 : w "input_data.csv"
               = Some [ ["customer_id"; "transaction_amount"] ])
    by reflexivity.
  assert (H2 : In "customer_id" ["customer_id"; "transaction_amount"])
    by (simpl; auto).
  assert (H3 : In "transaction_amount" ["customer_id"; "transaction_amount"])
    by (simpl; auto).
  split; [exact H1|]. split; [exact H2|]. split; [exact H3|].
  exact (@script_on_header_only w _ H1 H2 H3).
Defined.

(** X26. When the script raises, no file has been written: the
    aggregated file is the last thing it does. *)
Theorem script_failures :
  forall (w : World) (e : exn),
    fst (Simple.run w) = Raise e -> snd (Simple.run w) = w.
Proof.
  intros w e. rewrite run_eq.
  destruct (w "input_data.csv") as [f|]; [|intros _; reflexivity].
  destruct (parse_csv f) as [df|]; [|intros _; reflexivity].
  destruct (getitem (dropna df) "transaction_amount") as [amounts|];
    [|intros _; reflexivity].
  destruct (to_numeric amounts) as [numbers|]; [|intros _; reflexivity].
  cbv zeta.
  destruct (apply_rows _ _) as [ids|]; [|intros _; reflexivity].
  destruct (groupby_sum _ _ _) as [g|]; [|intros _; reflexivity].
  simpl. intros H. discriminate H.
Qed.

Lemma script_failures_witness :
  let w := only_file "input_data.csv" no_customer_column in
  fst (Simple.run w) = Raise (KeyError "customer_id")
  /\ snd (Simple.run w) = w.
Proof.
  intros w.
  assert (H : fst (Simple.run w) = Raise (KeyError "customer_id"))
    by (vm_compute; reflexivity).
  split; [exact H|].
  exact (@script_failures w (KeyError "customer_id") H).
Defined.

(** X28. The script goes through on every input that [main] goes through
    on. *)
Theorem script_succeeds_where_main_does :
  forall w : World,
    fst (main w) = Ok tt -> fst (Simple.run w) = Ok tt.
Proof.
  intros w Hmain.
  destruct (clean "cleaned_data.csv"
              (mkState (CSVCleaner.init "input_data.csv") w))
    as [[[]|e1] s1] eqn:H.
  2:{ rewrite (@main_clean_Raise _ _ _ H) in Hmain. discriminate. }
  destruct (@main_after_clean _ _ H) as [header [records [Hf [_ [_ Hm]]]]].
  destruct Hm as [[Hin _]|[_ Hm]]; [|rewrite Hm in Hmain; discriminate].
  unfold CSVCleaner.init in H. rewrite clean_eq, Hf in H.
  destruct (parse_csv (header :: records)) as [df|e] eqn:Hp;
    [|discriminate].
  destruct (empty df); [discriminate|].
  destruct (apply_rows (dropna df) (CSVCleaner.unique_id_of (columns df)))
    as [ids|e] eqn:Hids; [|discriminate].
  cbv zeta in H.
  destruct (getitem (setitem (dropna df) "unique_id" ids)
              "transaction_amount") as [amounts|e] eqn:Ha; [|discriminate].
  destruct (to_numeric amounts) as [numbers|e] eqn:Hn; [|discriminate].
  rewrite getitem_setitem_other in Ha.
  - destruct (run_after_to_numeric _ Hf Hp Ha Hn)
      as [[_ [body [Hr _]]]|[Hnot _]]; [rewrite Hr; reflexivity|].
    exfalso. apply Hnot.
    destruct (parse_csv_rows header records) as [df0 [Hp0 [Hc0 _]]].
    { unfold parse_csv in Hp.
      destruct (too_long (width header records) 2 records);
        [discriminate|reflexivity]. }
    rewrite Hp in Hp0. inversion Hp0; subst df0. rewrite Hc0. exact Hin.
  - apply rectangular_dropna, (parse_csv_rectangular _ Hp).
  - apply (apply_rows_length _ _ Hids).
  - discriminate.
Qed.

Lemma script_succeeds_where_main_does_witness :
  let w := only_file "input_data.csv" repeated_transaction in
  fst (main w) = Ok tt /\ fst (Simple.run w) = Ok tt.
Proof.
  intros w.
  assert (H : fst (main w) = Ok tt) by (vm_compute; reflexivity).
  split; [exact H|].
  exact (@script_succeeds_where_main_does w H).
Defined.

(** ** The files a run touches *)

Lemma same_files_except_refl (ps : list string) (w : World) :
  same_files_except ps w w.
Proof. intros p _. reflexivity. Qed.

Lemma same_files_except_trans (ps : list string) (w1 w2 w3 : World) :
  same_files_except ps w1 w2 -> same_files_except ps w2 w3 ->
  same_files_except ps w1 w3.
Proof. intros H12 H23 p Hp. rewrite (H23 p Hp). apply H12, Hp. Qed.

Lemma same_files_except_write (ps : list string) (w : World) (path : string)
  (f : csv) :
  In path ps -> same_files_except ps w (write_file w path f).
Proof.
  intros Hin p Hp. unfold write_file.
  destruct (String.eqb p path) eqn:E; [|reflexivity].
  apply String.eqb_eq in E. subst p. contradiction.
Qed.

Lemma writes_only_ret {O A} (ps : list string) (a : A) :
  writes_only ps (ret a : M (State O) A).
Proof. intros s. apply same_files_except_refl. Qed.

Lemma writes_only_raise {O A} (ps : list string) (e : exn) :
  writes_only ps (raise e : M (State O) A).
Proof. intros s. apply same_files_except_refl. Qed.

Lemma writes_only_lift {O A} (ps : list string) (r : result A) :
  writes_only ps (lift r : M (State O) A).
Proof. intros s. apply same_files_except_refl. Qed.

Lemma writes_only_bind {O A B} (ps : list string) (m : M (State O) A)
  (k : A -> M (State O) B) :
  writes_only ps m -> (forall a, writes_only ps (k a)) ->
  writes_only ps (bind m k).
Proof.
  intros Hm Hk s. unfold bind. specialize (Hm s).
  destruct (m s) as [[a|e] s']; simpl in *; [|exact Hm].
  eapply same_files_except_trans; [exact Hm|apply Hk].
Qed.

Lemma writes_only_try_except {O A} (ps : list string) (m : M (State O) A)
  (h : exn -> option (M (State O) A)) :
  writes_only ps m ->
  (forall e m', h e = Some m' -> writes_only ps m') ->
  writes_only ps (try_except m h).
Proof.
  intros Hm Hh s. unfold try_except. specialize (Hm s).
  destruct (m s) as [[a|e] s']; simpl in *; [exact Hm|].
  destruct (h e) as [m'|] eqn:E; [|exact Hm].
  eapply same_files_except_trans; [exact Hm|apply (Hh e m' E)].
Qed.

Lemma writes_only_read_csv {O} (ps : list string) (path : string) :
  writes_only ps (read_csv path : M (State O) DataFrame).
Proof.
  intros s. unfold read_csv. destruct (world s path);
    apply same_files_except_refl.
Qed.

Lemma writes_only_write_csv {O} (ps : list string) (df : DataFrame)
  (path : string) :
  In path ps -> writes_only ps (write_csv df path : M (State O) unit).
Proof. intros Hin s. apply same_files_except_write, Hin. Qed.

Lemma writes_only_get_file_path (ps : list string) :
  writes_only ps CSVCleaner.get_file_path.
Proof. intros s. apply same_files_except_refl. Qed.

Lemma writes_only_set_data (ps : list string) (df : DataFrame) :
  writes_only ps (CSVCleaner.set_data df).
Proof. intros s. apply same_files_except_refl. Qed.

Lemma writes_only_get_data (ps : list string) (e : exn) :
  writes_only ps (CSVCleaner.get_data e).
Proof.
  intros s. unfold CSVCleaner.get_data.
  destruct (CSVCleaner.data (self s)); apply same_files_except_refl.
Qed.

Lemma writes_only_Transformations_get_data (ps : list string) :
  writes_only ps Transformations.get_data.
Proof. intros s. apply same_files_except_refl. Qed.

Lemma writes_only_Transformations_set_data (ps : list string)
  (df : DataFrame) :
  writes_only ps (Transformations.set_data df).
Proof. intros s. apply same_files_except_refl. Qed.

Lemma writes_only_bind_input_data (ps : list string) (df : DataFrame) :
  writes_only ps (Simple.bind_input_data df).
Proof. intros s. apply same_files_except_refl. Qed.

Lemma writes_only_input_data (ps : list string) :
  writes_only ps Simple.input_data.
Proof.
  intros s. unfold Simple.input_data.
  destruct (self s); apply same_files_except_refl.
Qed.

Create HintDb files discriminated.

#[local] Hint Resolve writes_only_ret writes_only_raise writes_only_lift
  writes_only_read_csv writes_only_write_csv writes_only_get_file_path
  writes_only_set_data writes_only_get_data
  writes_only_Transformations_get_data writes_only_Transformations_set_data
  writes_only_bind_input_data writes_only_input_data
  in_eq in_cons : files.

(** Splits a computation at its binds and closes the steps that are in
    the hint database. *)
Ltac files :=
  repeat first
    [ solve [auto with files]
    | apply writes_only_bind; [|intros ?] ].

Lemma read_data_writes_nothing (ps : list string) :
  writes_only ps CSVCleaner.read_data.
Proof.
  unfold CSVCleaner.read_data.
  apply writes_only_bind; [|intros; auto with files].
  apply writes_only_try_except.
  - files.
    match goal with |- context [empty ?df] => destruct (empty df) end;
      auto with files.
  - intros e m' H. destruct e; inversion H; subst. files.
Qed.

Lemma remove_rows_writes_nothing (ps : list string) :
  writes_only ps CSVCleaner.remove_rows.
Proof. unfold CSVCleaner.remove_rows. files. Qed.

Lemma generate_uniqueID_writes_nothing (ps : list string)
  (columns : option (list string)) :
  writes_only ps (CSVCleaner.generate_uniqueID columns).
Proof. unfold CSVCleaner.generate_uniqueID. files. Qed.

Lemma check_duplicates_writes_nothing (ps : list string) :
  writes_only ps CSVCleaner.check_duplicates.
Proof. unfold CSVCleaner.check_duplicates. files. Qed.

Lemma convert_transaction_amount_writes_nothing (ps : list string) :
  writes_only ps CSVCleaner.convert_transaction_amount.
Proof. unfold CSVCleaner.convert_transaction_amount. files. Qed.

Lemma save_data_writes_output (ps : list string) (output : string) :
  In output ps -> writes_only ps (CSVCleaner.save_data output).
Proof. intros H. unfold CSVCleaner.save_data. files. Qed.

Lemma group_by_customer_id_writes_nothing (ps : list string) :
  writes_only ps Transformations.group_by_customer_id.
Proof. unfold Transformations.group_by_customer_id. files. Qed.

Lemma Transformations_save_data_writes_output (ps : list string)
  (output : string) :
  In output ps -> writes_only ps (Transformations.save_data output).
Proof. intros H. unfold Transformations.save_data. files. Qed.

#[local] Hint Resolve read_data_writes_nothing remove_rows_writes_nothing
  generate_uniqueID_writes_nothing check_duplicates_writes_nothing
  convert_transaction_amount_writes_nothing save_data_writes_output
  group_by_customer_id_writes_nothing
  Transformations_save_data_writes_output : files.

Lemma clean_writes_output (ps : list string) (output : string) :
  In output ps -> writes_only ps (clean output).
Proof. intros H. unfold clean. files. Qed.

Lemma transform_writes_output (ps : list string) (output : string) :
  In output ps -> writes_only ps (transform output).
Proof. intros H. unfold transform. files. Qed.

(** X20. [main] changes no file but its two outputs, however it ends. *)
Theorem main_writes_only_its_outputs :
  forall w : World,
    same_files_except ["cleaned_data.csv"; "aggregated_transactions.csv"]
      w (snd (main w)).
Proof.
  intros w. unfold main, call.
  pose proof (@clean_writes_output
                ["cleaned_data.csv"; "aggregated_transactions.csv"]
                "cleaned_data.csv" (in_eq _ _)
                (mkState (CSVCleaner.init "input_data.csv") w)) as H1.
  destruct (clean "cleaned_data.csv"
              (mkState (CSVCleaner.init "input_data.csv") w))
    as [[u|e] s1]; simpl in *; [|exact H1].
  destruct (Transformations.init "cleaned_data.csv" (world s1)) as [t|e];
    simpl; [|exact H1].
  pose proof (@transform_writes_output
                ["cleaned_data.csv"; "aggregated_transactions.csv"]
                "aggregated_transactions.csv" (in_cons _ _ _ (in_eq _ _))
                (mkState t (world s1))) as H2.
  destruct (transform "aggregated_transactions.csv" (mkState t (world s1)))
    as [r s2]; simpl in *.
  eapply same_files_except_trans; [exact H1|exact H2].
Qed.

(** X27. The script changes no file but the aggregated one; it never
    writes a cleaned file. *)
Theorem script_writes_only_the_aggregate :
  forall w : World,
    same_files_except ["aggregated_transactions.csv"] w (snd (Simple.run w)).
Proof.
  intros w. unfold Simple.run.
  assert (H : writes_only ["aggregated_transactions.csv"] Simple.etl).
  { unfold Simple.etl.
    apply writes_only_bind.
    - apply writes_only_try_except; [files|].
      intros e m' H. destruct e; inversion H; subst. files.
    - intros _. files. }
  specialize (H (mkState None w)).
  destruct (Simple.etl (mkState None w)) as [r s]. exact H.
Qed.
